(** * img-sort: the TypeScript front end and its browser mock

    A shallow embedding of [src/lib/api/index.ts] (the API layer with its
    in-browser mock of the analysis back end), of the actions and
    listeners of [src/features/analysis/store.tsx] (roots, settings,
    start and cancel, progress and stream listeners, results), of the
    start-button gate and the progress bar of the main page, of the
    paging and the value bar of the results page, and of the option
    lists of the settings forms.

    Conventions.
    - A finite JavaScript [number] is an exact rational ([Q]); the IEEE
      rounding of double arithmetic (relative error about 1e-16) is not
      modelled.  Where the source can see [NaN] or an infinity
      ([x || 1], [Math.floor], [-Infinity]) the type [number] below is
      used, which adds those three values.
    - [Math.random()] and [crypto.randomUUID()] are read from the
      environment [Env]: the n-th call returns the n-th element of a fixed
      sequence, and the state records how many calls were made.  The
      Tauri commands, whose Rust implementation is not part of these
      sources, are fields of [Env] as well.
    - A thrown exception or a rejected promise is [None].
    - The API module does not hold its listeners: a function returns
      the list of progress objects it hands to them.  The listeners that
      the store subscribes are functions of the object received and of
      the state at that moment.
    - An [async] function of the store is modelled by the state it
      leaves once its promises have settled. *)

From Stdlib Require Import Reals Lra.
From Stdlib Require Import ZArith QArith Qround Qabs Lia Lqa List Bool String Ascii.
From Stdlib Require Import DecimalString Sorted.
From Stdlib Require Import DecimalFacts DecimalNat.
Import ListNotations.

Local Open Scope Q_scope.

(** ** JavaScript numbers *)

Module JS.

Inductive number : Type :=
| Fin (q : Q)
| PosInf
| NegInf
| NaN.

(** [ToBoolean] on a number: [0] and [NaN] are falsy. *)
Definition truthy (x : number) : bool :=
  match x with
  | Fin q => negb (Qeq_bool q 0)
  | PosInf | NegInf => true
  | NaN => false
  end.

(** [x || d] on numbers. *)
Definition or_else (x d : number) : number := if truthy x then x else d.

(** [Math.floor]. *)
Definition floor (x : number) : number :=
  match x with
  | Fin q => Fin (inject_Z (Qfloor q))
  | _ => x
  end.

(** [a > b]; any comparison with [NaN] is false. *)
Definition gt (a b : number) : bool :=
  match a, b with
  | NaN, _ | _, NaN => false
  | Fin x, Fin y => negb (Qle_bool x y)
  | PosInf, PosInf => false
  | PosInf, _ => true
  | _, NegInf => match a with NegInf => false | _ => true end
  | _, _ => false
  end.

(** [Math.max(a, b)] and [Math.min(a, b)]: [NaN] if either is [NaN]. *)
Definition max (a b : number) : number :=
  match a, b with
  | NaN, _ | _, NaN => NaN
  | _, _ => if gt b a then b else a
  end.

Definition min (a b : number) : number :=
  match a, b with
  | NaN, _ | _, NaN => NaN
  | _, _ => if gt a b then b else a
  end.

(** [a + b]: opposite infinities give [NaN]. *)
Definition add (a b : number) : number :=
  match a, b with
  | NaN, _ | _, NaN => NaN
  | Fin x, Fin y => Fin (x + y)
  | PosInf, NegInf | NegInf, PosInf => NaN
  | PosInf, _ | _, PosInf => PosInf
  | NegInf, _ | _, NegInf => NegInf
  end.

(** [a / b].  The sign of a zero is not modelled: a zero divisor counts
    as [+0]. *)
Definition div (a b : number) : number :=
  match a, b with
  | NaN, _ | _, NaN => NaN
  | Fin x, Fin y =>
      if Qeq_bool y 0
      then (if Qeq_bool x 0 then NaN
            else if Qle_bool 0 x then PosInf else NegInf)
      else Fin (x / y)
  | Fin _, _ => Fin 0
  | PosInf, Fin y => if Qle_bool 0 y then PosInf else NegInf
  | NegInf, Fin y => if Qle_bool 0 y then NegInf else PosInf
  | _, _ => NaN
  end.

(** [Number(x.toFixed(d))] for a finite [x]: the decimal with [d] fraction
    digits nearest to [x]; of two equally near ones [toFixed] takes the
    larger magnitude (it rounds [|x|] and puts the sign back).  From
    [1e21] on [toFixed] prints the number itself. *)
Definition toFixedQ (x : Q) (d : nat) : Q :=
  let scale := inject_Z (10 ^ Z.of_nat d) in
  if Qle_bool (inject_Z (10 ^ 21)) (Qabs x) then x
  else if Qle_bool 0 x
  then inject_Z (Qfloor (x * scale + (1 # 2))) / scale
  else - (inject_Z (Qfloor ((- x) * scale + (1 # 2))) / scale).

(** [Number(x.toFixed(d))] on any number: ["NaN"], ["Infinity"] and
    ["-Infinity"] read back as themselves. *)
Definition toFixed (x : number) (d : nat) : number :=
  match x with
  | Fin q => Fin (toFixedQ q d)
  | _ => x
  end.

(** [Math.max(...xs)]: [-Infinity] for no argument. *)
Definition max_list (xs : list number) : number := fold_left max xs NegInf.

End JS.

(** ** Categories and score vectors ([types.ts]) *)

Inductive CategoryKey : Type :=
| screenshot_document
| people
| food_cafe
| nature_landscape
| city_street_travel
| pets_animals
| products_objects
| other.

Definition CategoryKey_eqb (a b : CategoryKey) : bool :=
  match a, b with
  | screenshot_document, screenshot_document
  | people, people
  | food_cafe, food_cafe
  | nature_landscape, nature_landscape
  | city_street_travel, city_street_travel
  | pets_animals, pets_animals
  | products_objects, products_objects
  | other, other => true
  | _, _ => false
  end.

(** [const CATEGORY_KEYS] of [index.ts]. *)
Definition CATEGORY_KEYS : list CategoryKey :=
  [ screenshot_document; people; food_cafe; nature_landscape;
    city_street_travel; pets_animals; products_objects; other ].

(** A JavaScript object whose keys are category names: the entries in
    insertion order, which is the order [Object.entries] and
    [Object.values] enumerate them in. *)
Definition Obj (V : Type) : Type := list (CategoryKey * V).

(** [o[k] = v]: an existing key keeps its place, a new one goes last. *)
Fixpoint obj_set {V} (k : CategoryKey) (v : V) (o : Obj V) : Obj V :=
  match o with
  | [] => [(k, v)]
  | (k', v') :: o' =>
      if CategoryKey_eqb k k' then (k, v) :: o' else (k', v') :: obj_set k v o'
  end.

(** [o[k]]; [None] is [undefined]. *)
Fixpoint obj_get {V} (k : CategoryKey) (o : Obj V) : option V :=
  match o with
  | [] => None
  | (k', v) :: o' => if CategoryKey_eqb k k' then Some v else obj_get k o'
  end.

Definition Object_fromEntries {V} (es : list (CategoryKey * V)) : Obj V :=
  fold_left (fun o e => obj_set (fst e) (snd e) o) es [].

Definition Object_entries {V} (o : Obj V) : list (CategoryKey * V) := o.

Definition Object_values {V} (o : Obj V) : list V := map snd o.

(** [type ScoreVector = Record<CategoryKey, number>]. *)
Definition ScoreVector : Type := Obj JS.number.

(** ** [normalizeScores] and [deriveCategory] ([index.ts]) *)

(** [xs.map((x, idx) => f(x, idx))] where [f] may throw. *)
Fixpoint map_idx_opt {A B} (f : A -> nat -> option B) (xs : list A) (idx : nat)
  : option (list B) :=
  match xs with
  | [] => Some []
  | x :: xs' =>
      match f x idx with
      | None => None
      | Some y =>
          match map_idx_opt f xs' (S idx) with
          | None => None
          | Some ys => Some (y :: ys)
          end
      end
  end.

(** [raw.reduce((sum, n) => sum + n, 0)]. *)
Definition sum_numbers (raw : list JS.number) : JS.number :=
  fold_left JS.add raw (JS.Fin 0).

(** [normalizeScores(raw)].  [vals[idx]] is [undefined] when [raw] has
    fewer than 8 elements, and [undefined.toFixed] throws. *)
Definition normalizeScores (raw : list JS.number) : option ScoreVector :=
  let total := JS.or_else (sum_numbers raw) (JS.Fin 1) in
  let vals := map (fun n => JS.div n total) raw in
  match
    map_idx_opt
      (fun key idx =>
         match nth_error vals idx with
         | Some v => Some (key, JS.toFixed v 4)
         | None => None
         end)
      CATEGORY_KEYS 0
  with
  | Some es => Some (Object_fromEntries es)
  | None => None
  end.

(** The accumulator [{ key, value }] of the reduction in [deriveCategory]. *)
Record Top : Type := mkTop { key : CategoryKey; value : JS.number }.

Definition deriveCategory_step (top : Top) (e : CategoryKey * JS.number) : Top :=
  if JS.gt (snd e) (value top)
  then {| key := fst e; value := snd e |}
  else top.

(** [deriveCategory(scores)]. *)
Definition deriveCategory (scores : ScoreVector) : CategoryKey :=
  key (fold_left deriveCategory_step (Object_entries scores)
         {| key := nth 0 CATEGORY_KEYS screenshot_document; value := JS.NegInf |}).


(** ** Strings *)

Local Open Scope string_scope.

(** [String(n)] for a non-negative integer. *)
Definition String_of_nat (n : nat) : string :=
  NilZero.string_of_uint (Nat.to_uint n).

Fixpoint repeat_string (n : nat) (c : ascii) : string :=
  match n with
  | O => EmptyString
  | S n' => String c (repeat_string n' c)
  end.

(** [s.padStart(len, c)] for a one-character filler. *)
Definition padStart (s : string) (len : nat) (c : ascii) : string :=
  repeat_string (len - String.length s) c ++ s.

(** White space as [String.prototype.trim] sees it, among the ASCII
    characters: tab, line feed, vertical tab, form feed, carriage return
    and space. *)
Definition is_white_space (c : ascii) : bool :=
  let n := nat_of_ascii c in
  ((9 <=? n) && (n <=? 13))%nat || (n =? 32)%nat.

Fixpoint trimStart (s : string) : string :=
  match s with
  | EmptyString => EmptyString
  | String c s' => if is_white_space c then trimStart s' else s
  end.

Fixpoint string_rev_onto (s acc : string) : string :=
  match s with
  | EmptyString => acc
  | String c s' => string_rev_onto s' (String c acc)
  end.

Definition string_rev (s : string) : string := string_rev_onto s EmptyString.

(** [s.trim()]. *)
Definition trim (s : string) : string :=
  string_rev (trimStart (string_rev (trimStart s))).

(** [ToBoolean] on a string: only the empty string is falsy. *)
Definition string_truthy (s : string) : bool :=
  match s with
  | EmptyString => false
  | String _ _ => true
  end.

Local Open Scope list_scope.

(** ** Records of [types.ts] *)

Inductive Engine : Type := clip | ollama.

Definition Engine_eqb (a b : Engine) : bool :=
  match a, b with
  | clip, clip | ollama, ollama => true
  | _, _ => false
  end.

Record Settings : Type := mkSettings {
  ollamaBaseUrl : string;
  ollamaModel : string;
  ollamaThink : bool;
  ollamaStream : bool;
  analysisResizeEnabled : bool;
  analysisMaxEdge : JS.number;
  analysisJpegQuality : JS.number;
  analysisValueEnabled : bool;
  analysisConcurrency : JS.number;
  analysisEngine : Engine;
  clipModelDir : option string;
  clipModelFile : string;
  clipFallbackToOllama : bool;
  clipEpAuto : bool;
  clipEpCoreml : bool;
  clipEpCuda : bool;
  clipEpRocm : bool;
  clipEpDirectml : bool;
  clipEpOpenvino : bool
}.

Inductive ExportStatus : Type := pending | success | error.

Definition ExportStatus_eqb (a b : ExportStatus) : bool :=
  match a, b with
  | pending, pending | success, success | error, error => true
  | _, _ => false
  end.

Record PhotoRow : Type := mkPhotoRow {
  id : string;
  fileName : string;
  path : string;
  category : CategoryKey;
  topScore : JS.number;
  scores : ScoreVector;
  tags : option (list string);
  exportStatus : ExportStatus;
  errorMessage : option string;
  analysisDurationMs : option JS.number;
  model : option string;
  isValuable : option bool;
  valuableScore : option JS.number
}.

(** The job status; [job_error] is the source's ["error"], which as a
    name is taken by the export status. *)
Inductive Status : Type := idle | running | completed | canceled | job_error.

Definition Status_eqb (a b : Status) : bool :=
  match a, b with
  | idle, idle | running, running | completed, completed
  | canceled, canceled | job_error, job_error => true
  | _, _ => false
  end.

(** [interface Progress].  The three counters only ever hold integers. *)
Record Progress : Type := mkProgress {
  jobId : string;
  status : Status;
  currentFile : option string;
  processed : Z;
  total : Z;
  errors : Z
}.

(** [Partial<Progress>]: [None] is a key that is absent.  [currentFile]
    can be present with the value [undefined]. *)
Record PartialProgress : Type := mkPartial {
  p_jobId : option string;
  p_status : option Status;
  p_currentFile : option (option string);
  p_processed : option Z;
  p_total : option Z;
  p_errors : option Z
}.

Definition no_update : PartialProgress :=
  {| p_jobId := None; p_status := None; p_currentFile := None;
     p_processed := None; p_total := None; p_errors := None |}.

Definition or_keep {A} (new : option A) (old : A) : A :=
  match new with
  | Some a => a
  | None => old
  end.

(** [{ ...p, ...update }]. *)
Definition spread (p : Progress) (update : PartialProgress) : Progress :=
  {| jobId := or_keep (p_jobId update) (jobId p);
     status := or_keep (p_status update) (status p);
     currentFile := or_keep (p_currentFile update) (currentFile p);
     processed := or_keep (p_processed update) (processed p);
     total := or_keep (p_total update) (total p);
     errors := or_keep (p_errors update) (errors p) |}.

Inductive Mode : Type := avg_score | count_ratio.

Record Distribution : Type := mkDistribution {
  mode : Mode;
  byCategory : Obj JS.number
}.

Record StartAnalysisInput : Type := mkInput {
  in_sourceRoot : string;
  in_exportRoot : string
}.

Record ValueStats : Type := mkValueStats {
  valuable : Z;
  notValuable : Z;
  unknown : Z
}.

(** [DEFAULT_SETTINGS] of [index.ts]. *)
Definition DEFAULT_SETTINGS : Settings :=
  {| ollamaBaseUrl := "http://127.0.0.1:11434";
     ollamaModel := "qwen2.5vl:7b";
     ollamaThink := false;
     ollamaStream := false;
     analysisResizeEnabled := true;
     analysisMaxEdge := JS.Fin 768;
     analysisJpegQuality := JS.Fin 60;
     analysisValueEnabled := false;
     analysisConcurrency := JS.Fin 4;
     analysisEngine := clip;
     clipModelDir := None;
     clipModelFile := "onnx/model_q4f16.onnx";
     clipFallbackToOllama := false;
     clipEpAuto := true;
     clipEpCoreml := true;
     clipEpCuda := false;
     clipEpRocm := false;
     clipEpDirectml := false;
     clipEpOpenvino := false |}.

Record StartAnalysisResult : Type := mkResult { res_jobId : string }.

(** ** The environment of the API module

    What the module reads from outside: the random sources, the [URL]
    parser, and the Tauri commands whose implementation is the Rust back
    end ([None] is a rejected promise). *)
Record Env : Type := mkEnv {
  Math_random : nat -> Q;
  crypto_randomUUID : nat -> string;
  url_is_http : string -> bool;
  invoke_start_analysis : StartAnalysisInput -> option StartAnalysisResult;
  invoke_test_ollama : string -> string + string;
  invoke_get_settings : option Settings;
  invoke_set_settings : Settings -> bool;
  invoke_get_distribution : Mode -> option Distribution
}.

(** ** The module state of [index.ts]

    The [let] variables of the module, the number of [setInterval] timers
    that are live, and how many random numbers and UUIDs were drawn. *)
Record Api : Type := mkApi {
  useMock : bool;
  mockJobId : option string;
  mockRows : list PhotoRow;
  mockProgress : Progress;
  settings : Settings;
  intervals : nat;
  random_calls : nat;
  uuid_calls : nat
}.

Definition set_useMock (b : bool) (st : Api) : Api :=
  mkApi b (mockJobId st) (mockRows st) (mockProgress st) (settings st)
        (intervals st) (random_calls st) (uuid_calls st).

Definition set_mockJobId (j : option string) (st : Api) : Api :=
  mkApi (useMock st) j (mockRows st) (mockProgress st) (settings st)
        (intervals st) (random_calls st) (uuid_calls st).

Definition set_mockRows (rows : list PhotoRow) (st : Api) : Api :=
  mkApi (useMock st) (mockJobId st) rows (mockProgress st) (settings st)
        (intervals st) (random_calls st) (uuid_calls st).

Definition set_mockProgress (p : Progress) (st : Api) : Api :=
  mkApi (useMock st) (mockJobId st) (mockRows st) p (settings st)
        (intervals st) (random_calls st) (uuid_calls st).

Definition set_settings (s : Settings) (st : Api) : Api :=
  mkApi (useMock st) (mockJobId st) (mockRows st) (mockProgress st) s
        (intervals st) (random_calls st) (uuid_calls st).

Definition set_intervals (n : nat) (st : Api) : Api :=
  mkApi (useMock st) (mockJobId st) (mockRows st) (mockProgress st) (settings st)
        n (random_calls st) (uuid_calls st).

Definition set_random_calls (n : nat) (st : Api) : Api :=
  mkApi (useMock st) (mockJobId st) (mockRows st) (mockProgress st) (settings st)
        (intervals st) n (uuid_calls st).

Definition set_uuid_calls (n : nat) (st : Api) : Api :=
  mkApi (useMock st) (mockJobId st) (mockRows st) (mockProgress st) (settings st)
        (intervals st) (random_calls st) n.

(** The module as first loaded in a browser ([isTauri] false) or in the
    Tauri shell. *)
Definition initial_progress : Progress :=
  {| jobId := ""; status := idle; currentFile := None;
     processed := 0; total := 0; errors := 0 |}.

Definition initial_api (isTauri : bool) : Api :=
  {| useMock := negb isTauri; mockJobId := None; mockRows := [];
     mockProgress := initial_progress; settings := DEFAULT_SETTINGS;
     intervals := 0; random_calls := 0; uuid_calls := 0 |}.

(** ** A monad for the module's functions

    A computation reads and writes the module state, returns a value or
    throws ([None]; what was written before the throw stays written),
    and hands progress objects to the subscribed listeners: the last
    component lists what the listeners were called with, oldest first. *)
Definition M (A : Type) : Type := Api -> option A * Api * list Progress.

Definition ret {A} (a : A) : M A := fun st => (Some a, st, []).

Definition bind {A B} (m : M A) (f : A -> M B) : M B :=
  fun st =>
    match m st with
    | (None, st1, out1) => (None, st1, out1)
    | (Some a, st1, out1) =>
        match f a st1 with
        | (b, st2, out2) => (b, st2, out1 ++ out2)
        end
    end.

Definition throw {A} : M A := fun st => (None, st, []).

(** [try { m } catch { h }]. *)
Definition try_catch {A} (m : M A) (h : M A) : M A :=
  fun st =>
    match m st with
    | (None, st1, out1) =>
        match h st1 with
        | (a, st2, out2) => (a, st2, out1 ++ out2)
        end
    | r => r
    end.

Definition get : M Api := fun st => (Some st, st, []).

Definition modify (f : Api -> Api) : M unit := fun st => (Some tt, f st, []).

Definition lift_option {A} (o : option A) : M A :=
  match o with
  | Some a => ret a
  | None => throw
  end.

Declare Scope api_scope.
Delimit Scope api_scope with api.
Notation "x <- m ;; k" := (bind m (fun x => k))
  (at level 61, m at next level, right associativity) : api_scope.
Notation "m ;;; k" := (bind m (fun _ => k))
  (at level 61, right associativity) : api_scope.

Local Open Scope api_scope.

(** [Math.random()]. *)
Definition random (E : Env) : M Q :=
  fun st =>
    (Some (Math_random E (random_calls st)),
     set_random_calls (S (random_calls st)) st, []).

(** [crypto.randomUUID()]. *)
Definition randomUUID (E : Env) : M string :=
  fun st =>
    (Some (crypto_randomUUID E (uuid_calls st)),
     set_uuid_calls (S (uuid_calls st)) st, []).

(** [xs.map(f)] for an effectful [f]. *)
Fixpoint mapM {A B} (f : A -> M B) (xs : list A) : M (list B) :=
  match xs with
  | [] => ret []
  | x :: xs' => y <- f x ;; ys <- mapM f xs' ;; ret (y :: ys)
  end.

(** ** The mock back end ([index.ts]) *)

(** [ToNumber] of a property read: [undefined] becomes [NaN] in
    arithmetic. *)
Definition num_of (o : option JS.number) : JS.number :=
  match o with
  | Some x => x
  | None => JS.NaN
  end.

(** One iteration of the loop of [generateMockRows]. *)
Definition mockRow (E : Env) (i : nat) : M PhotoRow :=
  id_ <- randomUUID E ;;
  raw <- mapM (fun _ => r <- random E ;; ret (JS.Fin (r + (2 # 10)))) CATEGORY_KEYS ;;
  scores_ <- lift_option (normalizeScores raw) ;;
  let category_ := deriveCategory scores_ in
  let topScore_ := JS.max_list (Object_values scores_) in
  e <- random E ;;
  ret {| id := id_;
         fileName :=
           ("photo_" ++ padStart (String_of_nat (i + 1)) 4 "0" ++ ".jpg")%string;
         path := ("/mock/source/photo_" ++ String_of_nat (i + 1) ++ ".jpg")%string;
         category := category_;
         topScore := JS.toFixed topScore_ 4;
         scores := scores_;
         tags := Some [];
         exportStatus := if negb (Qle_bool e (9 # 10)) then error else success;
         errorMessage := None;
         analysisDurationMs := None;
         model := None;
         isValuable := None;
         valuableScore := None |}.

(** [for (let i = i0; i < i0 + n; i++) rows.push(...)]. *)
Fixpoint mockRows_from (E : Env) (n i : nat) : M (list PhotoRow) :=
  match n with
  | O => ret []
  | S n' => r <- mockRow E i ;; rs <- mockRows_from E n' (S i) ;; ret (r :: rs)
  end.

(** [generateMockRows(count)]: the loop runs [count] times, not at all
    when [count <= 0]. *)
Definition generateMockRows (E : Env) (count : Z) : M (list PhotoRow) :=
  mockRows_from E (Z.to_nat count) 0.

(** [emitProgress(update)]. *)
Definition emitProgress (update : PartialProgress) : M unit :=
  fun st =>
    let p := spread (mockProgress st) update in
    (Some tt, set_mockProgress p st, [p]).

(** [xs.slice(start, end)] for integer bounds: a negative bound counts
    from the end, and both are clamped to the array. *)
Definition slice_bound (len i : Z) : Z :=
  if (i <? 0)%Z then Z.max (len + i) 0 else Z.min i len.

Definition Array_slice {A} (xs : list A) (start stop : Z) : list A :=
  let len := Z.of_nat (List.length xs) in
  let k := slice_bound len start in
  let final := slice_bound len stop in
  firstn (Z.to_nat (final - k)) (skipn (Z.to_nat k) xs).

Definition is_error (r : PhotoRow) : bool := ExportStatus_eqb (exportStatus r) error.

Definition clearInterval : M unit :=
  modify (fun st => set_intervals (pred (intervals st)) st).

Definition setInterval : M unit :=
  modify (fun st => set_intervals (S (intervals st)) st).

(** The callback that [startAnalysis] hands to [setInterval]. *)
Definition interval_callback (E : Env) : M unit :=
  st <- get ;;
  if negb (Status_eqb (status (mockProgress st)) running) then clearInterval
  else
    r <- random E ;;
    let step := Qfloor (5 + r * 12) in
    let nextProcessed :=
      Z.min (processed (mockProgress st) + step) (total (mockProgress st)) in
    let slice := Array_slice (mockRows st) (processed (mockProgress st)) nextProcessed in
    let lastFile :=
      match List.length slice with
      | O => None
      | S n => option_map fileName (nth_error slice n)
      end in
    let errorsInSlice := Z.of_nat (List.length (filter is_error slice)) in
    emitProgress
      {| p_jobId := None; p_status := None;
         p_currentFile := Some lastFile;
         p_processed := Some nextProcessed;
         p_total := None;
         p_errors := Some (errors (mockProgress st) + errorsInSlice)%Z |} ;;;
    st' <- get ;;
    if (total (mockProgress st') <=? nextProcessed)%Z
    then
      emitProgress
        {| p_jobId := None; p_status := Some completed;
           p_currentFile := Some None;
           p_processed := None; p_total := None; p_errors := None |} ;;;
      clearInterval
    else ret tt.

(** A timer event: one of the live intervals fires (none: nothing runs). *)
Definition interval_fires (E : Env) : M unit :=
  st <- get ;;
  match intervals st with
  | O => ret tt
  | S _ => interval_callback E
  end.

(** [startAnalysis(input)]. *)
Definition startAnalysis (E : Env) (input : StartAnalysisInput)
  : M StartAnalysisResult :=
  st <- get ;;
  if useMock st then
    jobId_ <- randomUUID E ;;
    modify (set_mockJobId (Some jobId_)) ;;;
    modify (set_mockProgress
              {| jobId := jobId_; status := running; currentFile := None;
                 processed := 0; total := 0; errors := 0 |}) ;;;
    r <- random E ;;
    let count := Qfloor (200 + r * 300) in
    rows <- generateMockRows E count ;;
    modify (set_mockRows rows) ;;;
    emitProgress
      {| p_jobId := None; p_status := Some running; p_currentFile := None;
         p_processed := None; p_total := Some count; p_errors := None |} ;;;
    setInterval ;;;
    ret {| res_jobId := jobId_ |}
  else lift_option (invoke_start_analysis E input).

(** [cancelAnalysis(jobId)].  Outside the mock the command goes to the
    back end and nothing of this module changes. *)
Definition option_string_eqb (a : option string) (b : string) : bool :=
  match a with
  | Some s => String.eqb s b
  | None => false
  end.

Definition cancelAnalysis (jobId_ : string) : M unit :=
  st <- get ;;
  if useMock st then
    if option_string_eqb (mockJobId st) jobId_
    then
      emitProgress
        {| p_jobId := None; p_status := Some canceled; p_currentFile := None;
           p_processed := None; p_total := None; p_errors := None |}
    else ret tt
  else ret tt.

(** [byCategory[k] += 1]. *)
Definition count_row (bc : Obj JS.number) (r : PhotoRow) : Obj JS.number :=
  obj_set (category r) (JS.add (num_of (obj_get (category r) bc)) (JS.Fin 1)) bc.

(** [byCategory[c] = Number((byCategory[c] / total).toFixed(4))]. *)
Definition ratio_of (total_ : JS.number) (bc : Obj JS.number) (c : CategoryKey)
  : Obj JS.number :=
  obj_set c (JS.toFixed (JS.div (num_of (obj_get c bc)) total_) 4) bc.

(** The body of the last [forEach] of [getDistribution]: the mean score
    of category [c] over the rows. *)
Definition average_of (rows : list PhotoRow) (bc : Obj JS.number) (c : CategoryKey)
  : Obj JS.number :=
  let sum :=
    fold_left (fun acc r => JS.add acc (num_of (obj_get c (scores r)))) rows (JS.Fin 0) in
  obj_set c (JS.toFixed (JS.div sum (JS.Fin (inject_Z (Z.of_nat (List.length rows))))) 4) bc.

(** The mock branch of [getDistribution(mode)] over [mockRows]. *)
Definition mock_distribution (mode_ : Mode) (rows : list PhotoRow) : Distribution :=
  let byCategory0 := Object_fromEntries (map (fun c => (c, JS.Fin 0)) CATEGORY_KEYS) in
  match List.length rows with
  | O => {| mode := mode_; byCategory := byCategory0 |}
  | S _ =>
      match mode_ with
      | count_ratio =>
          let counted := fold_left count_row rows byCategory0 in
          let total_ :=
            JS.or_else (JS.Fin (inject_Z (Z.of_nat (List.length rows)))) (JS.Fin 1) in
          {| mode := mode_;
             byCategory := fold_left (ratio_of total_) CATEGORY_KEYS counted |}
      | avg_score =>
          {| mode := mode_;
             byCategory := fold_left (average_of rows) CATEGORY_KEYS byCategory0 |}
      end
  end.

(** [getDistribution(mode)]. *)
Definition getDistribution (E : Env) (mode_ : Mode) : M Distribution :=
  st <- get ;;
  if useMock st then ret (mock_distribution mode_ (mockRows st))
  else lift_option (invoke_get_distribution E mode_).

(** [getSettings()]: outside the mock the settings of the back end
    replace those of the module; if the command fails the module falls
    back to the mock for good. *)
Definition getSettings (E : Env) : M Settings :=
  st <- get ;;
  if useMock st then ret (settings st)
  else
    try_catch
      (res <- lift_option (invoke_get_settings E) ;;
       modify (set_settings res) ;;;
       ret res)
      (modify (set_useMock true) ;;;
       st' <- get ;;
       ret (settings st')).

(** [setSettings(next)].  [next] carries every key of [Settings], so the
    spread [{ ...settings, ...next }] is [next]. *)
Definition setSettings (E : Env) (next : Settings) : M unit :=
  modify (set_settings next) ;;;
  st <- get ;;
  if useMock st then ret tt
  else if invoke_set_settings E next then ret tt else throw.

(** [testOllama(baseUrl)]: [(ok, message)]. *)
Record Connection : Type := mkConnection { ok : bool; message : string }.

Definition testOllama (E : Env) (baseUrl : string) : M Connection :=
  st <- get ;;
  if useMock st then
    if url_is_http E baseUrl then
      r <- random E ;;
      if negb (Qle_bool r (2 # 10))
      then ret {| ok := true; message := "연결 성공(Mock)" |}
      else ret {| ok := false; message := "모의 실패: Ollama 응답 없음" |}
    else ret {| ok := false; message := "URL 형식을 확인하세요" |}
  else
    match invoke_test_ollama E baseUrl with
    | inl msg => ret {| ok := true; message := msg |}
    | inr e => ret {| ok := false; message := e |}
    end.

(** ** The analysis store ([store.tsx]) *)

Module Toast.
Inductive tone : Type := info | success | error | warning.
Record t : Type := mk { kind : tone; text : string }.
End Toast.

(** The argument of [saveSettings]; the store keeps the saved values in
    state variables [settingsBaseUrl], [settingsModel], ... of the same
    shape, gathered here in one record. *)
Record SettingsForm : Type := mkForm {
  baseUrl : string;
  model_ : string;
  think : bool;
  stream : bool;
  resizeEnabled : bool;
  maxEdge : JS.number;
  jpegQuality : JS.number;
  valueEnabled : bool;
  concurrency : JS.number;
  engine : Engine;
  form_clipModelDir : string;
  form_clipModelFile : string;
  form_clipFallbackToOllama : bool;
  form_clipEpAuto : bool;
  form_clipEpCoreml : bool;
  form_clipEpCuda : bool;
  form_clipEpRocm : bool;
  form_clipEpDirectml : bool;
  form_clipEpOpenvino : bool
}.

Record StreamPanel : Type := mkPanel {
  panel_fileName : option string;
  panel_text : string;
  isOpen : bool
}.

Record Store : Type := mkStore {
  sourceRoot : string;
  exportRoot : string;
  exportManuallySet : bool;
  saved : SettingsForm;
  progress : Progress;
  distributionAvg : option Distribution;
  distributionCount : option Distribution;
  valueStats : option ValueStats;
  starting : bool;
  jobStartedAt : option Z;
  jobElapsedMs : option Z;
  streamPanel : StreamPanel;
  toasts : list Toast.t
}.

(** The [useState] initial values of [AnalysisProvider]. *)
Definition initial_store : Store :=
  {| sourceRoot := ""; exportRoot := ""; exportManuallySet := false;
     saved :=
       {| baseUrl := "http://127.0.0.1:11434"; model_ := "qwen2.5vl:7b";
          think := false; stream := false; resizeEnabled := true;
          maxEdge := JS.Fin 768; jpegQuality := JS.Fin 60;
          valueEnabled := false; concurrency := JS.Fin 4; engine := clip;
          form_clipModelDir := ""; form_clipModelFile := "onnx/model_q4f16.onnx";
          form_clipFallbackToOllama := true; form_clipEpAuto := true;
          form_clipEpCoreml := true; form_clipEpCuda := false;
          form_clipEpRocm := false; form_clipEpDirectml := false;
          form_clipEpOpenvino := false |};
     progress := initial_progress;
     distributionAvg := None; distributionCount := None; valueStats := None;
     starting := false; jobStartedAt := None; jobElapsedMs := None;
     streamPanel := {| panel_fileName := None; panel_text := ""; isOpen := false |};
     toasts := [] |}.

Definition set_saved (f : SettingsForm) (s : Store) : Store :=
  mkStore (sourceRoot s) (exportRoot s) (exportManuallySet s) f (progress s)
          (distributionAvg s) (distributionCount s) (valueStats s) (starting s)
          (jobStartedAt s) (jobElapsedMs s) (streamPanel s) (toasts s).

Definition set_starting (b : bool) (s : Store) : Store :=
  mkStore (sourceRoot s) (exportRoot s) (exportManuallySet s) (saved s) (progress s)
          (distributionAvg s) (distributionCount s) (valueStats s) b
          (jobStartedAt s) (jobElapsedMs s) (streamPanel s) (toasts s).

(** [toast.info(..)], [toast.error(..)], ...: the newest toast is last. *)
Definition toast (k : Toast.tone) (msg : string) (s : Store) : Store :=
  mkStore (sourceRoot s) (exportRoot s) (exportManuallySet s) (saved s) (progress s)
          (distributionAvg s) (distributionCount s) (valueStats s) (starting s)
          (jobStartedAt s) (jobElapsedMs s) (streamPanel s)
          (toasts s ++ [Toast.mk k msg]).

(** The three clamped numbers of [saveSettings]. *)
Definition clamp_maxEdge (x : JS.number) : JS.number :=
  JS.min (JS.Fin 4096) (JS.max (JS.Fin 128) (JS.floor (JS.or_else x (JS.Fin 0)))).

Definition clamp_jpegQuality (x : JS.number) : JS.number :=
  JS.min (JS.Fin 95) (JS.max (JS.Fin 20) (JS.floor (JS.or_else x (JS.Fin 0)))).

Definition clamp_concurrency (x : JS.number) : JS.number :=
  JS.min (JS.Fin 32) (JS.max (JS.Fin 1) (JS.floor (JS.or_else x (JS.Fin 1)))).

(** [const stream = concurrency > 1 ? false : next.stream]. *)
Definition effective_stream (concurrency_ : JS.number) (requested : bool) : bool :=
  if JS.gt concurrency_ (JS.Fin 1) then false else requested.

Definition default_clipModelFile : string := "onnx/model_q4f16.onnx".

(** [s.trim() || d]. *)
Definition trim_or (s d : string) : string :=
  if string_truthy (trim s) then trim s else d.

(** The object that [saveSettings] passes to [setSettings]. *)
Definition settings_to_save (next : SettingsForm) : Settings :=
  let maxEdge_ := clamp_maxEdge (maxEdge next) in
  let jpegQuality_ := clamp_jpegQuality (jpegQuality next) in
  let concurrency_ := clamp_concurrency (concurrency next) in
  let stream_ := effective_stream concurrency_ (stream next) in
  {| ollamaBaseUrl := baseUrl next;
     ollamaModel := model_ next;
     ollamaThink := think next;
     ollamaStream := stream_;
     analysisResizeEnabled := resizeEnabled next;
     analysisMaxEdge := maxEdge_;
     analysisJpegQuality := jpegQuality_;
     analysisValueEnabled := valueEnabled next;
     analysisConcurrency := concurrency_;
     analysisEngine := engine next;
     clipModelDir :=
       if string_truthy (trim (form_clipModelDir next))
       then Some (trim (form_clipModelDir next)) else None;
     clipModelFile := trim_or (form_clipModelFile next) default_clipModelFile;
     clipFallbackToOllama := form_clipFallbackToOllama next;
     clipEpAuto := form_clipEpAuto next;
     clipEpCoreml := form_clipEpCoreml next;
     clipEpCuda := form_clipEpCuda next;
     clipEpRocm := form_clipEpRocm next;
     clipEpDirectml := form_clipEpDirectml next;
     clipEpOpenvino := form_clipEpOpenvino next |}.

(** The state variables that the [then] callback of [saveSettings] sets. *)
Definition form_after_save (next : SettingsForm) : SettingsForm :=
  let maxEdge_ := clamp_maxEdge (maxEdge next) in
  let jpegQuality_ := clamp_jpegQuality (jpegQuality next) in
  let concurrency_ := clamp_concurrency (concurrency next) in
  let stream_ := effective_stream concurrency_ (stream next) in
  {| baseUrl := baseUrl next;
     model_ := model_ next;
     think := think next;
     stream := stream_;
     resizeEnabled := resizeEnabled next;
     maxEdge := maxEdge_;
     jpegQuality := jpegQuality_;
     valueEnabled := valueEnabled next;
     concurrency := concurrency_;
     engine := engine next;
     form_clipModelDir :=
       if string_truthy (trim (form_clipModelDir next))
       then trim (form_clipModelDir next) else "";
     form_clipModelFile := trim_or (form_clipModelFile next) default_clipModelFile;
     form_clipFallbackToOllama := form_clipFallbackToOllama next;
     form_clipEpAuto := form_clipEpAuto next;
     form_clipEpCoreml := form_clipEpCoreml next;
     form_clipEpCuda := form_clipEpCuda next;
     form_clipEpRocm := form_clipEpRocm next;
     form_clipEpDirectml := form_clipEpDirectml next;
     form_clipEpOpenvino := form_clipEpOpenvino next |}.

(** [Number.isFinite]. *)
Definition Number_isFinite (x : JS.number) : bool :=
  match x with
  | JS.Fin _ => true
  | _ => false
  end.

(** The state variables that the first effect of [AnalysisProvider] sets
    from the settings it was given. *)
Definition form_of_settings (s : Settings) : SettingsForm :=
  {| baseUrl := ollamaBaseUrl s;
     model_ := ollamaModel s;
     think := ollamaThink s;
     stream := ollamaStream s;
     resizeEnabled := analysisResizeEnabled s;
     maxEdge := analysisMaxEdge s;
     jpegQuality := analysisJpegQuality s;
     valueEnabled := analysisValueEnabled s;
     concurrency :=
       if Number_isFinite (analysisConcurrency s) then analysisConcurrency s
       else JS.Fin 4;
     engine := analysisEngine s;
     form_clipModelDir :=
       match clipModelDir s with
       | Some d => if string_truthy d then d else ""
       | None => ""
       end;
     form_clipModelFile :=
       if string_truthy (clipModelFile s) then clipModelFile s
       else default_clipModelFile;
     form_clipFallbackToOllama := clipFallbackToOllama s;
     form_clipEpAuto := clipEpAuto s;
     form_clipEpCoreml := clipEpCoreml s;
     form_clipEpCuda := clipEpCuda s;
     form_clipEpRocm := clipEpRocm s;
     form_clipEpDirectml := clipEpDirectml s;
     form_clipEpOpenvino := clipEpOpenvino s |}.

(** [apiGetSettings().then((s) => { setSettingsBaseUrl(...); ... })]. *)
Definition loadSettings (E : Env) (w : Api * Store) : Api * Store :=
  match getSettings E (fst w) with
  | (Some s, api, _) => (api, set_saved (form_of_settings s) (snd w))
  | (None, api, _) => (api, snd w)
  end.

(** [saveSettings(next)]: the store changes only when the promise of
    [setSettings] resolves. *)
Definition saveSettings (E : Env) (next : SettingsForm) (w : Api * Store)
  : Api * Store :=
  match setSettings E (settings_to_save next) (fst w) with
  | (Some _, api, _) =>
      (api, toast Toast.success "저장되었습니다" (set_saved (form_after_save next) (snd w)))
  | (None, api, _) => (api, snd w)
  end.

(** [startAnalysisNow()], with [now] the value of [Date.now()].  The
    result lists the progress objects published on the way. *)
Definition startAnalysisNow (E : Env) (now : Z) (w : Api * Store)
  : Api * Store * list Progress :=
  let (api, s) := w in
  if negb (string_truthy (sourceRoot s)) || negb (string_truthy (exportRoot s))
  then (api, toast Toast.error "소스/Export 경로를 입력하세요" s, [])
  else
    let shouldCheckOllama :=
      Engine_eqb (engine (saved s)) ollama
      || (Engine_eqb (engine (saved s)) clip && form_clipFallbackToOllama (saved s)) in
    let checked : Api * list Progress * option (Store -> Store) :=
      if shouldCheckOllama then
        match testOllama E (baseUrl (saved s)) api with
        | (Some conn, api1, out1) =>
            if negb (ok conn) then (api1, out1, Some (toast Toast.error (message conn)))
            else if negb (string_truthy (model_ (saved s)))
            then (api1, out1, Some (toast Toast.error "Ollama 모델을 선택/저장하세요"))
            else (api1, out1, None)
        | (None, api1, out1) => (api1, out1, Some (fun s0 => s0))
        end
      else (api, [], None) in
    match checked with
    | (api1, out1, Some leave) => (api1, leave s, out1)
    | (api1, out1, None) =>
        let s1 :=
          mkStore (sourceRoot s) (exportRoot s) (exportManuallySet s) (saved s)
                  (progress s) (distributionAvg s) (distributionCount s)
                  (valueStats s) true (Some now) (Some 0%Z)
                  {| panel_fileName := None; panel_text := ""; isOpen := false |}
                  (toasts s) in
        match
          startAnalysis E
            {| in_sourceRoot := sourceRoot s; in_exportRoot := exportRoot s |} api1
        with
        | (Some r, api2, out2) =>
            let s2 :=
              mkStore (sourceRoot s1) (exportRoot s1) (exportManuallySet s1) (saved s1)
                      {| jobId := res_jobId r; status := running; currentFile := None;
                         processed := 0; total := 0; errors := 0 |}
                      None None None (starting s1) (jobStartedAt s1) (jobElapsedMs s1)
                      (streamPanel s1) (toasts s1) in
            (api2, set_starting false (toast Toast.info "분석을 시작했습니다" s2),
             out1 ++ out2)
        | (None, api2, out2) =>
            (api2, set_starting false (toast Toast.error "시작에 실패했습니다" s1),
             out1 ++ out2)
        end
    end.

(** ** The stream lock of the Ollama settings form *)






(** ** The start button of the main page *)

Definition isRunning (s : Store) : bool := Status_eqb (status (progress s)) running.

Definition canStart (s : Store) : bool :=
  string_truthy (trim (sourceRoot s)) && string_truthy (trim (exportRoot s)).

(** [disabled={isRunning || !canStart}]. *)
Definition start_disabled (s : Store) : bool := isRunning s || negb (canStart s).

(** A click on the start button: a disabled button runs no handler. *)
Definition click_start (E : Env) (now : Z) (w : Api * Store)
  : Api * Store * list Progress :=
  if start_disabled (snd w) then (fst w, snd w, []) else startAnalysisNow E now w.

(** ** Value judgment

    Modelled from the spec: the scorer that computes the keep probability
    and the [isValuable] flag of a photo is part of the Rust back end,
    which is not among the sources; [types.ts] only declares the fields
    [isValuable] and [valuableScore] that carry its result.  The model
    follows section 4.4 of the specification, over the real numbers. *)
Module ValueJudgment.

Local Open Scope R_scope.

Definition EmbeddingVector : Type := list R.

Fixpoint dot (u v : EmbeddingVector) : R :=
  match u, v with
  | x :: u', y :: v' => x * y + dot u' v'
  | _, _ => 0
  end.

(** Step 2: the raw embedding is L2-normalized. *)
Definition l2_normalize (v : EmbeddingVector) : EmbeddingVector :=
  map (fun x => x / sqrt (dot v v)) v.

(** Cosine similarity: the dot product of two L2-normalized vectors. *)
Definition cosine_similarity (u v : EmbeddingVector) : R := dot u v.

(** The prompt embeddings, L2-normalized when they were computed. *)
Record PromptEmbeddingSet : Type := mkPrompts {
  category_prompts : list EmbeddingVector;
  keep_prompt : EmbeddingVector;
  drop_prompt : EmbeddingVector
}.

(** The two-way softmax, with the maximum subtracted first. *)
Definition softmax2 (a b : R) : R * R :=
  let m := Rmax a b in
  let ea := exp (a - m) in
  let eb := exp (b - m) in
  (ea / (ea + eb), eb / (ea + eb)).

(** Step 4, on the image embedding of step 2. *)
Definition keep_prob (prompts : PromptEmbeddingSet) (image : EmbeddingVector) : R :=
  fst (softmax2 (cosine_similarity image (keep_prompt prompts))
                (cosine_similarity image (drop_prompt prompts))).

Definition is_valuable (p : R) : bool :=
  if Rle_dec (1 / 2) p then true else false.

(** What the scorer hands on for one image: the similarities to the
    category prompts, and the value verdict when value judgment is
    enabled. *)
Record Verdict : Type := mkVerdict {
  category_similarities : list R;
  valuableScore : option R;
  isValuable : option bool
}.

(** One vision inference yields one raw embedding; both the category
    similarities and the value verdict are computed from it. *)
Definition score (value_enabled : bool) (prompts : PromptEmbeddingSet)
  (raw_embedding : EmbeddingVector) : Verdict :=
  let image := l2_normalize raw_embedding in
  {| category_similarities := map (cosine_similarity image) (category_prompts prompts);
     valuableScore := if value_enabled then Some (keep_prob prompts image) else None;
     isValuable :=
       if value_enabled then Some (is_valuable (keep_prob prompts image)) else None |}.

End ValueJudgment.

(** ** Runs of the mock job *)

(** What can happen to a started mock job: a timer fires, or the page
    calls [cancelAnalysis]. *)
Inductive Event : Type :=
| Tick
| Cancel (jobId_ : string).

Definition handle (E : Env) (ev : Event) : M unit :=
  match ev with
  | Tick => interval_fires E
  | Cancel j => cancelAnalysis j
  end.

Fixpoint run (E : Env) (evs : list Event) : M unit :=
  match evs with
  | [] => ret tt
  | ev :: evs' => handle E ev ;;; run E evs'
  end.

Definition value_of {A} (r : option A * Api * list Progress) : option A := fst (fst r).
Definition state_of {A} (r : option A * Api * list Progress) : Api := snd (fst r).
Definition output_of {A} (r : option A * Api * list Progress) : list Progress := snd r.

(** ** Notions used to state the properties *)

(** [Math.random()] returns a number of [[0, 1)]. *)
Definition random_in_range (E : Env) : Prop :=
  forall n, 0 <= Math_random E n < 1.

(** The two states agree on everything but the numbers of random draws. *)
Definition same_module (a b : Api) : Prop :=
  useMock a = useMock b /\ mockJobId a = mockJobId b /\
  mockRows a = mockRows b /\ mockProgress a = mockProgress b /\
  settings a = settings b /\ intervals a = intervals b.

(** The step that the timer callback takes at its [k]-th random draw. *)
Definition step_at (E : Env) (k : nat) : Z := Qfloor (5 + Math_random E k * 12).

(** The sum of the [n] steps drawn from the [k]-th draw on. *)
Fixpoint steps_sum (E : Env) (k n : nat) : Z :=
  match n with
  | O => 0
  | S n' => step_at E k + steps_sum E (S k) n'
  end.

(** A mock job that was started and has processed nothing yet: a timer
    is live and [total] is the number of rows. *)
Definition fresh_job (st : Api) : Prop :=
  useMock st = true /\
  (0 < intervals st)%nat /\
  status (mockProgress st) = running /\
  processed (mockProgress st) = 0%Z /\
  errors (mockProgress st) = 0%Z /\
  total (mockProgress st) = Z.of_nat (List.length (mockRows st)).

(** The number of error rows among the first [n] rows. *)
Definition errors_among (n : Z) (rows : list PhotoRow) : Z :=
  Z.of_nat (List.length (filter is_error (firstn (Z.to_nat n) rows))).

(** What holds of a mock job from its first tick on: [total] is the
    number of rows, [errors] counts the error rows among the processed
    ones, and the job is running with rows left and a live timer, or
    completed with every row processed. *)
Definition job_invariant (st : Api) : Prop :=
  (0 <= processed (mockProgress st) <= total (mockProgress st))%Z /\
  total (mockProgress st) = Z.of_nat (List.length (mockRows st)) /\
  errors (mockProgress st) = errors_among (processed (mockProgress st)) (mockRows st) /\
  ((status (mockProgress st) = running /\ (0 < intervals st)%nat /\
    (processed (mockProgress st) < total (mockProgress st))%Z) \/
   (status (mockProgress st) = completed /\
    processed (mockProgress st) = total (mockProgress st))).

(** The object that holds [f c] under each key [c], in the order of
    [CATEGORY_KEYS]. *)
Definition dist_of (f : CategoryKey -> JS.number) : Obj JS.number :=
  map (fun c => (c, f c)) CATEGORY_KEYS.



(** The exact sum of a list of rationals. *)
Definition Qsum (xs : list Q) : Q := fold_left Qplus xs 0.

(** The order of the numbers other than [NaN]. *)
Definition num_le (a b : JS.number) : Prop :=
  match a, b with
  | JS.NaN, _ | _, JS.NaN => False
  | JS.NegInf, _ => True
  | _, JS.PosInf => True
  | JS.Fin x, JS.Fin y => x <= y
  | _, _ => False
  end.

Definition num_lt (a b : JS.number) : Prop :=
  match a, b with
  | JS.NaN, _ | _, JS.NaN => False
  | JS.Fin x, JS.Fin y => x < y
  | JS.NegInf, JS.NegInf | JS.PosInf, JS.PosInf => False
  | JS.NegInf, _ => True
  | _, JS.PosInf => True
  | _, _ => False
  end.

(** ** Concrete inputs *)

(** An environment whose random numbers are all 0.95 and whose n-th UUID
    is ["job-n"]. *)
Definition sample_env : Env :=
  {| Math_random := fun _ => 19 # 20;
     crypto_randomUUID := fun n => ("job-" ++ String_of_nat n)%string;
     url_is_http := fun _ => true;
     invoke_start_analysis := fun _ => None;
     invoke_test_ollama := fun _ => inr "offline";
     invoke_get_settings := None;
     invoke_set_settings := fun _ => true;
     invoke_get_distribution := fun _ => None |}.

Definition sample_input : StartAnalysisInput :=
  {| in_sourceRoot := "/photos"; in_exportRoot := "/photos/sorted" |}.

Definition empty_input : StartAnalysisInput :=
  {| in_sourceRoot := ""; in_exportRoot := "" |}.

Definition even_scores : ScoreVector :=
  map (fun c => (c, JS.Fin (1 # 8))) CATEGORY_KEYS.

Definition sample_row (name : string) (c : CategoryKey) (e : ExportStatus) : PhotoRow :=
  {| id := name; fileName := name; path := name; category := c;
     topScore := JS.Fin (1 # 8); scores := even_scores; tags := Some [];
     exportStatus := e; errorMessage := None; analysisDurationMs := None;
     model := None; isValuable := None; valuableScore := None |}.

(** Five rows, the third one an error. *)
Definition five_rows : list PhotoRow :=
  [ sample_row "a.jpg" people success; sample_row "b.jpg" people success;
    sample_row "c.jpg" other error; sample_row "d.jpg" food_cafe success;
    sample_row "e.jpg" people success ].

(** A job over [five_rows] that has just been started. *)
Definition five_rows_job : Api :=
  {| useMock := true; mockJobId := Some "job-0"; mockRows := five_rows;
     mockProgress :=
       {| jobId := "job-0"; status := running; currentFile := None;
          processed := 0; total := 5; errors := 0 |};
     settings := DEFAULT_SETTINGS; intervals := 1;
     random_calls := 0; uuid_calls := 1 |}.

(** A settings form that asks for a concurrency of 40.5 with streaming. *)
Definition sample_form : SettingsForm :=
  {| baseUrl := "http://127.0.0.1:11434"; model_ := "qwen2.5vl:7b";
     think := false; stream := true; resizeEnabled := true;
     maxEdge := JS.Fin 768; jpegQuality := JS.Fin 60;
     valueEnabled := false; concurrency := JS.Fin (81 # 2); engine := clip;
     form_clipModelDir := ""; form_clipModelFile := "onnx/model_q4f16.onnx";
     form_clipFallbackToOllama := false; form_clipEpAuto := true;
     form_clipEpCoreml := true; form_clipEpCuda := false;
     form_clipEpRocm := false; form_clipEpDirectml := false;
     form_clipEpOpenvino := false |}.

(** The store once a source root was typed: the export root follows. *)
Definition sample_store : Store :=
  mkStore "/photos" "/photos/분류됨" false (saved initial_store) initial_progress
          None None None false None None (streamPanel initial_store) [].

(** ** More of the API module ([index.ts]) *)

(** [interface PhotoDetail extends PhotoRow]. *)
Record PhotoDetail : Type := mkDetail {
  detail_row : PhotoRow;
  caption : option string;
  textInImage : option string;
  analysisLog : option string
}.

(** The Tauri commands behind the result functions ([None] and [false]
    are a rejected promise). *)
Record Commands : Type := mkCommands {
  invoke_clear_results : bool;
  invoke_list_photos : option (list PhotoRow);
  invoke_get_photo_detail : string -> option PhotoDetail;
  invoke_get_value_stats : option ValueStats;
  invoke_get_progress : option (option Progress)
}.

(** [clearResults()]. *)
Definition clearResults (C : Commands) : M unit :=
  st <- get ;;
  if useMock st then modify (set_mockRows [])
  else if invoke_clear_results C then ret tt else throw.

(** [listPhotos()]. *)
Definition listPhotos (C : Commands) : M (list PhotoRow) :=
  st <- get ;;
  if useMock st then ret (mockRows st)
  else lift_option (invoke_list_photos C).

(** [getPhotoDetail(id)]: the mock hands out the first row with that id
    as it is, and throws when there is none. *)
Definition getPhotoDetail (C : Commands) (id_ : string) : M PhotoDetail :=
  st <- get ;;
  if useMock st then
    match find (fun r => String.eqb (id r) id_) (mockRows st) with
    | Some found =>
        ret {| detail_row := found; caption := None; textInImage := None;
               analysisLog := None |}
    | None => throw
    end
  else lift_option (invoke_get_photo_detail C id_).

(** [getValueStats()]. *)
Definition getValueStats (C : Commands) : M ValueStats :=
  st <- get ;;
  if useMock st then ret {| valuable := 0; notValuable := 0; unknown := 0 |}
  else lift_option (invoke_get_value_stats C).

(** [getProgressSnapshot()]: a failing command gives [null]. *)
Definition getProgressSnapshot (C : Commands) : M (option Progress) :=
  st <- get ;;
  if useMock st then ret (Some (mockProgress st))
  else
    match invoke_get_progress C with
    | Some p => ret p
    | None => ret None
    end.

(** ** More of the analysis store ([store.tsx]) *)

(** [interface StreamChunk]; [chunk_reset] is the optional [reset]. *)
Record StreamChunk : Type := mkChunk {
  chunk_jobId : string;
  chunk_fileName : string;
  delta : string;
  done : bool;
  chunk_reset : option bool
}.

(** The state variables of the provider that the result pages read and
    that [Store] does not hold; [None] as filter is ["all"]. *)
Record Results : Type := mkResults {
  photos : list PhotoRow;
  categoryFilter : option CategoryKey;
  selectedPhoto : option PhotoDetail;
  loadingDetail : bool
}.

Definition initial_results : Results :=
  {| photos := []; categoryFilter := None; selectedPhoto := None;
     loadingDetail := false |}.

Fixpoint drop_slashes (s : string) : string :=
  match s with
  | EmptyString => EmptyString
  | String c s' => if Ascii.eqb c "/" then drop_slashes s' else s
  end.

(** [v.replace(re, empty)] for the pattern [re] of one or more slashes
    at the end of the input: the run of slashes that ends the string is
    removed. *)
Definition strip_trailing_slashes (v : string) : string :=
  string_rev (drop_slashes (string_rev v)).

Definition set_roots (src exp_ : string) (manual : bool) (s : Store) : Store :=
  mkStore src exp_ manual (saved s) (progress s)
          (distributionAvg s) (distributionCount s) (valueStats s) (starting s)
          (jobStartedAt s) (jobElapsedMs s) (streamPanel s) (toasts s).

(** The folder name that is appended to the source root. *)
Definition sorted_folder : string := "분류됨".

(** [updateSourceRoot(v)]. *)
Definition updateSourceRoot (v : string) (s : Store) : Store :=
  if exportManuallySet s then set_roots v (exportRoot s) (exportManuallySet s) s
  else
    let base := strip_trailing_slashes v in
    if string_truthy base
    then set_roots v (base ++ "/" ++ sorted_folder)%string (exportManuallySet s) s
    else set_roots v "" (exportManuallySet s) s.


(** [cancelCurrent()]. *)
Definition cancelCurrent (w : Api * Store) : Api * Store * list Progress :=
  if negb (string_truthy (jobId (progress (snd w)))) then (fst w, snd w, [])
  else
    match cancelAnalysis (jobId (progress (snd w))) (fst w) with
    | (_, api, out) => (api, snd w, out)
    end.

(** The updater that the stream listener passes to [setStreamPanel]. *)
Definition stream_update (chunk : StreamChunk) (prev : StreamPanel) : StreamPanel :=
  let nextFile :=
    if string_truthy (chunk_fileName chunk) then Some (chunk_fileName chunk) else None in
  let isNewFile :=
    match chunk_reset chunk with
    | Some true => true
    | _ =>
        match nextFile, panel_fileName prev with
        | None, _ => false
        | Some f, Some g => negb (String.eqb f g)
        | Some _, None => true
        end
    end in
  let base := if isNewFile then "" else panel_text prev in
  {| panel_fileName := nextFile;
     panel_text := (base ++ delta chunk)%string;
     isOpen := true |}.

Definition set_streamPanel (p : StreamPanel) (s : Store) : Store :=
  mkStore (sourceRoot s) (exportRoot s) (exportManuallySet s) (saved s) (progress s)
          (distributionAvg s) (distributionCount s) (valueStats s) (starting s)
          (jobStartedAt s) (jobElapsedMs s) p (toasts s).

(** The listener of [onStream]. *)
Definition on_stream (chunk : StreamChunk) (s : Store) : Store :=
  set_streamPanel (stream_update chunk (streamPanel s)) s.

(** [refreshListAndDistributions()]: the four requests run together and
    nothing is stored unless the first three resolve; a failing
    [getValueStats] counts as all zeros. *)
Definition refreshListAndDistributions (E : Env) (C : Commands)
  (w : Api * Store * Results) : Api * Store * Results :=
  let '(api, s, r) := w in
  match listPhotos C api with
  | (Some rows, api1, _) =>
      match getDistribution E avg_score api1 with
      | (Some distAvg, api2, _) =>
          match getDistribution E count_ratio api2 with
          | (Some distCount, api3, _) =>
              let '(vs, api4, _) := getValueStats C api3 in
              let vs' :=
                match vs with
                | Some v => v
                | None => {| valuable := 0; notValuable := 0; unknown := 0 |}
                end in
              (api4,
               mkStore (sourceRoot s) (exportRoot s) (exportManuallySet s) (saved s)
                       (progress s) (Some distAvg) (Some distCount) (Some vs')
                       (starting s) (jobStartedAt s) (jobElapsedMs s)
                       (streamPanel s) (toasts s),
               mkResults rows (categoryFilter r) (selectedPhoto r) (loadingDetail r))
          | (None, api3, _) => (api3, s, r)
          end
      | (None, api2, _) => (api2, s, r)
      end
  | (None, api1, _) => (api1, s, r)
  end.

Definition close_panel (p : StreamPanel) : StreamPanel :=
  {| panel_fileName := panel_fileName p; panel_text := panel_text p; isOpen := false |}.

(** The listener of [onProgress], with [now] the value of [Date.now()]. *)
Definition on_progress (E : Env) (C : Commands) (now : Z) (p : Progress)
  (w : Api * Store * Results) : Api * Store * Results :=
  let '(api, s, r) := w in
  let elapsed :=
    match jobStartedAt s with
    | Some t0 => Some (now - t0)%Z
    | None => jobElapsedMs s
    end in
  let s1 :=
    mkStore (sourceRoot s) (exportRoot s) (exportManuallySet s) (saved s) p
            (distributionAvg s) (distributionCount s) (valueStats s) (starting s)
            (jobStartedAt s) elapsed (streamPanel s) (toasts s) in
  match status p with
  | completed =>
      let '(api', s2, r') := refreshListAndDistributions E C (api, s1, r) in
      (api',
       set_streamPanel (close_panel (streamPanel s2)) (toast Toast.success "분석 완료" s2),
       r')
  | canceled =>
      (api,
       set_streamPanel (close_panel (streamPanel s1))
         (toast Toast.warning "분석이 취소되었습니다." s1),
       r)
  | _ => (api, s1, r)
  end.

(** [resetResults()]. *)
Definition resetResults (C : Commands) (w : Api * Store * Results)
  : Api * Store * Results :=
  let '(api, s, r) := w in
  if Status_eqb (status (progress s)) running
  then (api, toast Toast.warning "진행 중인 분석을 중지한 뒤 초기화하세요." s, r)
  else
    match clearResults C api with
    | (Some _, api', _) =>
        (api',
         toast Toast.success "결과 목록이 초기화되었습니다"
           (mkStore (sourceRoot s) (exportRoot s) (exportManuallySet s) (saved s)
                    initial_progress None None None (starting s) None None
                    (streamPanel s) (toasts s)),
         mkResults [] (categoryFilter r) None (loadingDetail r))
    | (None, api', _) => (api', s, r)
    end.

(** [loadPhotoDetail(id)]. *)
Definition loadPhotoDetail (C : Commands) (id_ : string) (w : Api * Store * Results)
  : Api * Store * Results :=
  let '(api, s, r) := w in
  match getPhotoDetail C id_ api with
  | (Some detail, api', _) =>
      (api', s, mkResults (photos r) (categoryFilter r) (Some detail) false)
  | (None, api', _) =>
      (api', toast Toast.error "세부 정보를 불러올 수 없습니다" s,
       mkResults (photos r) (categoryFilter r) (selectedPhoto r) false)
  end.

(** [closeDetail()]. *)
Definition closeDetail (r : Results) : Results :=
  mkResults (photos r) (categoryFilter r) None (loadingDetail r).

(** [setCategoryFilter(c)]. *)
Definition setCategoryFilter (c : option CategoryKey) (r : Results) : Results :=
  mkResults (photos r) c (selectedPhoto r) (loadingDetail r).

(** ** The progress bar of the main page *)

(** [const processedPct = progress.total ? progress.processed / progress.total : 0]. *)
Definition processedPct (p : Progress) : JS.number :=
  if (total p =? 0)%Z then JS.Fin 0
  else JS.div (JS.Fin (inject_Z (processed p))) (JS.Fin (inject_Z (total p))).

(** [const pct = Math.min(1, Math.max(0, value))] of [ProgressBar]. *)
Definition bar_pct (value_ : JS.number) : JS.number :=
  JS.min (JS.Fin 1) (JS.max (JS.Fin 0) value_).

(** ** The results page ([ResultsPage.tsx]) *)

(** [filteredPhotos]. *)
Definition filteredPhotos (r : Results) : list PhotoRow :=
  match categoryFilter r with
  | None => photos r
  | Some c => filter (fun p => CategoryKey_eqb (category p) c) (photos r)
  end.

(** [x || 1] on an integer. *)
Definition or_one (x : Z) : Z := if (x =? 0)%Z then 1%Z else x.

(** [Math.max(1, Math.ceil((filteredPhotos.length || 1) / (rowLimit || 1)))]
    for a list of [len] rows and an integer row limit. *)
Definition pageCount (len : nat) (rowLimit : Z) : Z :=
  Z.max 1 (Qceiling (inject_Z (or_one (Z.of_nat len)) / inject_Z (or_one rowLimit))).

(** [filteredPhotos.slice(pageStart, pageStart + rowLimit)] with
    [pageStart = (page - 1) * rowLimit], for an integer page. *)
Definition limitedPhotos {A} (rows : list A) (page rowLimit : Z) : list A :=
  let pageStart := ((page - 1) * rowLimit)%Z in
  Array_slice rows pageStart (pageStart + rowLimit).

(** The page that the page input sets when it loses focus or Enter is
    pressed: a number that is not finite leaves the page as it is. *)
Definition page_from_input (n page : JS.number) (count : Z) : JS.number :=
  if negb (Number_isFinite n) then page
  else JS.min (JS.max (JS.Fin 1) n) (JS.Fin (inject_Z count)).

(** The previous and next buttons: [Math.max(1, p - 1)], with [p - 1]
    written as [p + (-1)], and [Math.min(pageCount, p + 1)]. *)
Definition page_prev (page : JS.number) : JS.number :=
  JS.max (JS.Fin 1) (JS.add page (JS.Fin (-1))).

Definition page_next (page : JS.number) (count : Z) : JS.number :=
  JS.min (JS.Fin (inject_Z count)) (JS.add page (JS.Fin 1)).

(** What moves the page of the result table: the two buttons, the page
    input, and a change of the filtered list or of the row limit.  The
    page count depends on the length of the list and on the row limit
    only, and when either changes the effects of the page run
    [setPage(pageCount)] (if the page is beyond the count) and then
    [setPage(1)], so the page is 1 once they have run. *)
Inductive PageAction : Type :=
| PagePrev
| PageNext
| PageInput (n : JS.number)
| ListChanged (len : nat) (rowLimit : Z).

(** The page, the length of the filtered list and the row limit. *)
Record Pager : Type := mkPager {
  page : JS.number;
  listLength : nat;
  rowLimit : Z
}.

Definition initial_pager (len : nat) : Pager :=
  {| page := JS.Fin 1; listLength := len; rowLimit := 10 |}.

Definition pager_step (g : Pager) (a : PageAction) : Pager :=
  let count := pageCount (listLength g) (rowLimit g) in
  match a with
  | PagePrev => mkPager (page_prev (page g)) (listLength g) (rowLimit g)
  | PageNext => mkPager (page_next (page g) count) (listLength g) (rowLimit g)
  | PageInput n => mkPager (page_from_input n (page g) count) (listLength g) (rowLimit g)
  | ListChanged len limit => mkPager (JS.Fin 1) len limit
  end.



(** ** The option lists of the settings forms *)

(** [ClipSettings]: the options of the model file select. *)
Definition clip_file_options (clipModelFiles : list string) (current : string)
  : list string :=
  let files :=
    match clipModelFiles with
    | [] => filter string_truthy [current]
    | _ :: _ => clipModelFiles
    end in
  let hasCurrent := existsb (String.eqb current) files in
  if hasCurrent then files else current :: files.

(** [onChange({ model: m })] on the draft. *)
Definition set_model (m : string) (d : SettingsForm) : SettingsForm :=
  mkForm (baseUrl d) m (think d) (stream d) (resizeEnabled d) (maxEdge d)
         (jpegQuality d) (valueEnabled d) (concurrency d) (engine d)
         (form_clipModelDir d) (form_clipModelFile d) (form_clipFallbackToOllama d)
         (form_clipEpAuto d) (form_clipEpCoreml d) (form_clipEpCuda d)
         (form_clipEpRocm d) (form_clipEpDirectml d) (form_clipEpOpenvino d).


(** ** Further notions *)

(** What [generateMockRows] puts in the row of loop index [i] when [u]
    UUIDs and [r] random numbers were drawn before it. *)
Definition generated_row (E : Env) (i u r : nat) (row : PhotoRow) : Prop :=
  id row = crypto_randomUUID E u /\
  fileName row = ("photo_" ++ padStart (String_of_nat (i + 1)) 4 "0" ++ ".jpg")%string /\
  path row = ("/mock/source/photo_" ++ String_of_nat (i + 1) ++ ".jpg")%string /\
  normalizeScores
    (map (fun j => JS.Fin (Math_random E (j + r) + (2 # 10))) (seq 0 8))
    = Some (scores row) /\
  category row = deriveCategory (scores row) /\
  topScore row = JS.toFixed (JS.max_list (Object_values (scores row))) 4 /\
  exportStatus row =
    (if negb (Qle_bool (Math_random E (8 + r)) (9 # 10)) then error else success) /\
  errorMessage row = None.

(** The number of progress objects with status [s] in a list. *)
Definition count_status (s : Status) (out : list Progress) : nat :=
  List.length (filter (fun p => Status_eqb (status p) s) out).

(** What a progress object that a timer publishes says about the rows:
    while running it names the file of the last row processed, and the
    completed object names no file and has every row processed. *)
Definition names_last_row (rows : list PhotoRow) (p : Progress) : Prop :=
  match status p with
  | completed => currentFile p = None /\ processed p = total p
  | _ =>
      status p = running /\ (0 < processed p <= total p)%Z /\
      exists row,
        nth_error rows (Z.to_nat (processed p - 1)) = Some row /\
        currentFile p = Some (fileName row)
  end.

(** The check that [startAnalysisNow] makes before it starts a job, in
    the mock: either the engine does not need Ollama, or the URL of the
    saved settings parses, the draw of [testOllama] is above 0.2 and a
    model is saved. *)
Definition ollama_check_passes (E : Env) (api : Api) (s : Store) : Prop :=
  (Engine_eqb (engine (saved s)) ollama
   || (Engine_eqb (engine (saved s)) clip && form_clipFallbackToOllama (saved s)))
  = false \/
  (url_is_http E (baseUrl (saved s)) = true /\
   (2 # 10) < Math_random E (random_calls api) /\
   string_truthy (model_ (saved s)) = true).


(** * Properties *)

(** ** Rounding to four decimals *)

Lemma Qle_bool_false (x y : Q) : y < x -> Qle_bool x y = false.
Proof.
  intros H. destruct (Qle_bool x y) eqn:E; [|reflexivity].
  apply Qle_bool_iff in E. lra.
Qed.

Lemma Qle_bool_true (x y : Q) : x <= y -> Qle_bool x y = true.
Proof. intros H. now apply Qle_bool_iff. Qed.

Lemma Qeq_bool_false (x y : Q) : ~ x == y -> Qeq_bool x y = false.
Proof.
  intros H. destruct (Qeq_bool x y) eqn:E; [|reflexivity].
  apply Qeq_bool_iff in E. contradiction.
Qed.

(** On [[0, 1]] rounding to four decimals is [floor (10000 x + 1/2) / 10000]. *)
Lemma toFixedQ_unit (x : Q) :
  0 <= x <= 1 ->
  JS.toFixedQ x 4 = inject_Z (Qfloor (x * 10000 + (1 # 2))) / 10000.
Proof.
  intros [H0 H1]. unfold JS.toFixedQ.
  rewrite Qle_bool_false.
  - rewrite Qle_bool_true by assumption. reflexivity.
  - rewrite Qabs_pos by assumption.
    change (inject_Z (10 ^ 21)) with (1000000000000000000000 # 1). lra.
Qed.


Lemma toFixedQ_unit_range (x : Q) :
  0 <= x <= 1 -> 0 <= JS.toFixedQ x 4 <= 1.
Proof.
  intros H. rewrite (toFixedQ_unit x H).
  assert (L : (0 <= Qfloor (x * 10000 + (1 # 2)))%Z).
  { change 0%Z with (Qfloor 0). apply Qfloor_resp_le. lra. }
  assert (U : (Qfloor (x * 10000 + (1 # 2)) <= 10000)%Z).
  { apply Z.le_trans with (Qfloor (20001 # 2)).
    - apply Qfloor_resp_le. lra.
    - now vm_compute. }
  rewrite Zle_Qle in L, U.
  set (n := inject_Z (Qfloor (x * 10000 + (1 # 2)))) in *.
  change (inject_Z 0) with 0 in L. change (inject_Z 10000) with 10000 in U.
  assert (E : n / 10000 == n * (1 # 10000)) by (field).
  rewrite E. lra.
Qed.


(** ** [normalizeScores] *)

Lemma sum_numbers_Fin (raw : list Q) (a : Q) :
  fold_left JS.add (map JS.Fin raw) (JS.Fin a) = JS.Fin (fold_left Qplus raw a).
Proof.
  revert a. induction raw as [|x raw IH]; intros a; simpl; [reflexivity|].
  apply IH.
Qed.

Lemma div_Fin (x s : Q) : 0 < s -> JS.div (JS.Fin x) (JS.Fin s) = JS.Fin (x / s).
Proof.
  intros H. simpl. rewrite Qeq_bool_false; [reflexivity|]. lra.
Qed.

Lemma share_range (x s : Q) : 0 <= x -> x <= s -> 0 < s -> 0 <= x / s <= 1.
Proof.
  intros H0 H1 Hs. split.
  - apply Qle_shift_div_l; [assumption|]. lra.
  - apply Qle_shift_div_r; [assumption|]. lra.
Qed.

(** What [normalizeScores] returns on eight finite numbers of positive sum. *)
Lemma normalizeScores_eight (a b c d e f g h : Q) :
  0 < Qsum [a; b; c; d; e; f; g; h] ->
  let s := Qsum [a; b; c; d; e; f; g; h] in
  normalizeScores (map JS.Fin [a; b; c; d; e; f; g; h]) =
  Some [ (screenshot_document, JS.Fin (JS.toFixedQ (a / s) 4));
         (people, JS.Fin (JS.toFixedQ (b / s) 4));
         (food_cafe, JS.Fin (JS.toFixedQ (c / s) 4));
         (nature_landscape, JS.Fin (JS.toFixedQ (d / s) 4));
         (city_street_travel, JS.Fin (JS.toFixedQ (e / s) 4));
         (pets_animals, JS.Fin (JS.toFixedQ (f / s) 4));
         (products_objects, JS.Fin (JS.toFixedQ (g / s) 4));
         (other, JS.Fin (JS.toFixedQ (h / s) 4)) ].
Proof.
  intros Hpos s. fold s in Hpos.
  unfold normalizeScores, sum_numbers.
  rewrite sum_numbers_Fin. change (fold_left Qplus _ 0) with s.
  unfold JS.or_else, JS.truthy.
  rewrite Qeq_bool_false by lra. cbn [negb map].
  rewrite !div_Fin by assumption.
  reflexivity.
Qed.




(** ** [deriveCategory] *)

Lemma gt_lt (a b : JS.number) : JS.gt a b = true <-> num_lt b a.
Proof.
  destruct a as [x| | |], b as [y| | |]; simpl; try tauto;
    try (split; [discriminate|tauto]).
  split.
  - intros H. apply negb_true_iff in H.
    destruct (Qlt_le_dec y x) as [L|L]; [assumption|].
    apply Qle_bool_iff in L. congruence.
  - intros H. apply negb_true_iff. now apply Qle_bool_false.
Qed.

Lemma not_gt_le (a b : JS.number) :
  a <> JS.NaN -> b <> JS.NaN -> (JS.gt a b = false <-> num_le a b).
Proof.
  intros Ha Hb.
  destruct a as [x| | |], b as [y| | |]; simpl; try tauto; try congruence;
    try (split; [discriminate|tauto]).
  split.
  - intros H. apply negb_false_iff in H. now apply Qle_bool_iff.
  - intros H. apply negb_false_iff. now apply Qle_bool_iff.
Qed.

Lemma num_lt_le_trans (a b c : JS.number) : num_lt a b -> num_le b c -> num_lt a c.
Proof.
  destruct a as [x| | |], b as [y| | |], c as [z| | |]; simpl; try tauto.
  intros; lra.
Qed.

Lemma num_le_lt_trans (a b c : JS.number) : num_le a b -> num_lt b c -> num_lt a c.
Proof.
  destruct a as [x| | |], b as [y| | |], c as [z| | |]; simpl; try tauto.
  intros; lra.
Qed.

Lemma num_lt_le (a b : JS.number) : num_lt a b -> num_le a b.
Proof.
  destruct a as [x| | |], b as [y| | |]; simpl; try tauto.
  intros; lra.
Qed.

Lemma num_le_refl (a : JS.number) : a <> JS.NaN -> num_le a a.
Proof. destruct a as [x| | |]; simpl; try tauto; try congruence. intros; lra. Qed.

Lemma num_le_trans (a b c : JS.number) : num_le a b -> num_le b c -> num_le a c.
Proof.
  destruct a as [x| | |], b as [y| | |], c as [z| | |]; simpl; try tauto.
  intros; lra.
Qed.

(** The reduction of [deriveCategory] from any accumulator: the result
    bounds the accumulator and every entry, and it is either the
    accumulator, no entry being larger, or the first entry that is larger
    than the accumulator and than every entry before it. *)
Lemma deriveCategory_fold (l : list (CategoryKey * JS.number)) :
  forall top : Top,
    value top <> JS.NaN ->
    Forall (fun e => snd e <> JS.NaN) l ->
    let res := fold_left deriveCategory_step l top in
    num_le (value top) (value res) /\
    (forall e, In e l -> num_le (snd e) (value res)) /\
    ((res = top /\ forall e, In e l -> num_le (snd e) (value top)) \/
     (exists i e,
         nth_error l i = Some e /\
         res = {| key := fst e; value := snd e |} /\
         num_lt (value top) (snd e) /\
         forall j e', (j < i)%nat -> nth_error l j = Some e' -> num_lt (snd e') (snd e))).
Proof.
  induction l as [|e l IH]; intros top Htop Hl; cbv zeta; cbn [fold_left].
  - split; [now apply num_le_refl|]. split; [intros e []|].
    left. split; [reflexivity|intros e []].
  - inversion Hl as [|? ? He Hl']; subst.
    destruct (JS.gt (snd e) (value top)) eqn:G.
    + assert (Hs : deriveCategory_step top e = {| key := fst e; value := snd e |})
        by (unfold deriveCategory_step; now rewrite G).
      rewrite Hs. clear Hs.
      apply gt_lt in G.
      destruct (IH {| key := fst e; value := snd e |} He Hl') as (B & A & C).
      cbn [value] in B, C.
      split; [apply num_le_trans with (snd e); [now apply num_lt_le|exact B]|].
      split; [intros e' [<-|Hin]; [exact B|now apply A]|].
      right. destruct C as [[-> _]|(i & e1 & Hn & -> & L & F)].
      * exists 0%nat, e. split; [reflexivity|]. split; [reflexivity|].
        split; [assumption|]. intros j e' Hj. lia.
      * exists (S i), e1. split; [exact Hn|]. split; [reflexivity|].
        split; [apply num_lt_le_trans with (snd e); [assumption|now apply num_lt_le]|].
        intros [|j] e' Hj Hn'.
        -- cbn in Hn'. injection Hn' as <-. exact L.
        -- cbn in Hn'. apply (F j e'); [lia|assumption].
    + assert (Hs : deriveCategory_step top e = top)
        by (unfold deriveCategory_step; now rewrite G).
      rewrite Hs. clear Hs.
      apply not_gt_le in G; [|assumption|assumption].
      destruct (IH top Htop Hl') as (B & A & C).
      split; [exact B|].
      split; [intros e' [<-|Hin]; [now apply num_le_trans with (value top)|now apply A]|].
      destruct C as [[E F]|(i & e1 & Hn & E & L & F)].
      * left. split; [exact E|]. intros e' [<-|Hin]; [exact G|now apply F].
      * right. exists (S i), e1. split; [exact Hn|]. split; [exact E|].
        split; [exact L|].
        intros [|j] e' Hj Hn'.
        -- cbn in Hn'. injection Hn' as <-. now apply num_le_lt_trans with (value top).
        -- cbn in Hn'. apply (F j e'); [lia|assumption].
Qed.

(** C2.  For a score vector whose keys are in the order of
    [CATEGORY_KEYS] (the order [normalizeScores] builds it in) and that
    holds no [NaN], [deriveCategory] returns the key at a position [i]
    whose score is maximal, and every entry before [i] has a strictly
    smaller score: the arg-max, the earliest in enumeration order among
    equals. *)
Theorem deriveCategory_first_argmax (sv : ScoreVector) :
  map fst sv = CATEGORY_KEYS ->
  Forall (fun e => snd e <> JS.NaN) sv ->
  exists (i : nat) (v : JS.number),
    nth_error CATEGORY_KEYS i = Some (deriveCategory sv) /\
    nth_error sv i = Some (deriveCategory sv, v) /\
    (forall k w, In (k, w) sv -> num_le w v) /\
    (forall j k w, (j < i)%nat -> nth_error sv j = Some (k, w) -> num_lt w v).
Proof.
  intros Hkeys Hnan.
  pose (top0 := {| key := nth 0 CATEGORY_KEYS screenshot_document; value := JS.NegInf |}).
  destruct (deriveCategory_fold sv top0 ltac:(discriminate) Hnan) as (_ & A & C).
  unfold deriveCategory, Object_entries. fold top0.
  destruct C as [[E F]|(i & e & Hn & E & _ & L)].
  - rewrite E in *. cbn [key value top0] in *.
    destruct sv as [|[k0 v0] sv']; [discriminate|].
    injection Hkeys as Hk0 _. subst k0.
    exists 0%nat, v0. cbn [nth CATEGORY_KEYS nth_error].
    assert (Hv0 : v0 = JS.NegInf).
    { specialize (F (screenshot_document, v0) (or_introl eq_refl)).
      destruct v0; cbn in F; tauto || reflexivity. }
    subst v0.
    split; [reflexivity|]. split; [reflexivity|].
    split.
    + intros k w Hin. apply (F (k, w) Hin).
    + intros j k w Hj. lia.
  - rewrite E in *. cbn [key value] in *.
    exists i, (snd e).
    split.
    + rewrite <- Hkeys. now apply map_nth_error.
    + split; [now rewrite Hn; destruct e|].
      split.
      * intros k w Hin. apply (A (k, w) Hin).
      * intros j k w Hj Hnj. apply (L j (k, w) Hj Hnj).
Qed.

Lemma deriveCategory_first_argmax_witness :
  let sv : ScoreVector :=
    [ (screenshot_document, JS.Fin (1 # 10)); (people, JS.Fin (3 # 10));
      (food_cafe, JS.Fin (3 # 10)); (nature_landscape, JS.Fin (1 # 10));
      (city_street_travel, JS.Fin (1 # 20)); (pets_animals, JS.Fin (1 # 20));
      (products_objects, JS.Fin (1 # 20)); (other, JS.Fin (1 # 20)) ] in
  deriveCategory sv = people /\
  exists (i : nat) (v : JS.number),
    nth_error CATEGORY_KEYS i = Some (deriveCategory sv) /\
    nth_error sv i = Some (deriveCategory sv, v) /\
    (forall k w, In (k, w) sv -> num_le w v) /\
    (forall j k w, (j < i)%nat -> nth_error sv j = Some (k, w) -> num_lt w v).
Proof.
  cbv zeta. split; [reflexivity|].
  apply deriveCategory_first_argmax.
  - reflexivity.
  - repeat constructor; discriminate.
Defined.

(** ** [saveSettings]: concurrency and streaming *)

Lemma gt_inject_Z (a b : Z) :
  JS.gt (JS.Fin (inject_Z a)) (JS.Fin (inject_Z b)) = (b <? a)%Z.
Proof.
  cbn [JS.gt]. unfold Qle_bool, inject_Z. cbn [Qnum Qden].
  rewrite !Z.mul_1_r.
  destruct (Z.leb_spec a b), (Z.ltb_spec b a); try reflexivity; lia.
Qed.

Lemma max_inject_Z (a b : Z) :
  JS.max (JS.Fin (inject_Z a)) (JS.Fin (inject_Z b)) = JS.Fin (inject_Z (Z.max a b)).
Proof.
  unfold JS.max. rewrite gt_inject_Z.
  destruct (Z.ltb_spec a b).
  - now rewrite Z.max_r by lia.
  - now rewrite Z.max_l by lia.
Qed.

Lemma min_inject_Z (a b : Z) :
  JS.min (JS.Fin (inject_Z a)) (JS.Fin (inject_Z b)) = JS.Fin (inject_Z (Z.min a b)).
Proof.
  unfold JS.min. rewrite gt_inject_Z.
  destruct (Z.ltb_spec b a).
  - now rewrite Z.min_r by lia.
  - now rewrite Z.min_l by lia.
Qed.

(** The clamp of [saveSettings] on every number: the floor of a finite
    input brought into [[1, 32]]; 1 for [NaN] and [-Infinity], 32 for
    [Infinity]. *)
Lemma clamp_concurrency_spec (x : JS.number) :
  exists n : Z,
    clamp_concurrency x = JS.Fin (inject_Z n) /\
    (1 <= n <= 32)%Z /\
    match x with
    | JS.Fin q => n = Z.min 32 (Z.max 1 (Qfloor q))
    | JS.PosInf => n = 32%Z
    | JS.NegInf | JS.NaN => n = 1%Z
    end.
Proof.
  destruct x as [q| | |].
  - exists (Z.min 32 (Z.max 1 (Qfloor q))).
    split; [|split; [lia|reflexivity]].
    unfold clamp_concurrency, JS.or_else, JS.truthy.
    destruct (Qeq_bool q 0) eqn:Hq; cbn [negb JS.floor].
    + apply Qeq_bool_iff in Hq.
      rewrite (Qfloor_comp q 0 Hq).
      change (JS.Fin 1) with (JS.Fin (inject_Z 1)).
      change (JS.Fin 32) with (JS.Fin (inject_Z 32)).
      change (Qfloor 1) with 1%Z. change (Qfloor 0) with 0%Z.
      rewrite max_inject_Z, min_inject_Z. reflexivity.
    + change (JS.Fin 1) with (JS.Fin (inject_Z 1)).
      change (JS.Fin 32) with (JS.Fin (inject_Z 32)).
      rewrite max_inject_Z, min_inject_Z. reflexivity.
  - exists 32%Z. split; [reflexivity|]. split; [lia|reflexivity].
  - exists 1%Z. split; [reflexivity|]. split; [lia|reflexivity].
  - exists 1%Z. split; [reflexivity|]. split; [lia|reflexivity].
Qed.

(** In the mock the promise of [setSettings] resolves, so [saveSettings]
    stores its object in the module and its values in the store. *)
Lemma saveSettings_mock (E : Env) (next : SettingsForm) (api : Api) (s : Store) :
  useMock api = true ->
  saveSettings E next (api, s) =
  (set_settings (settings_to_save next) api,
   toast Toast.success "저장되었습니다" (set_saved (form_after_save next) s)).
Proof.
  intros Hm. unfold saveSettings, setSettings, bind, modify, get. cbn.
  rewrite Hm. reflexivity.
Qed.

(** C7.  Whatever number is configured, the concurrency that
    [saveSettings] hands to [setSettings] and keeps in the store is an
    integer of [[1, 32]]: the floor of a finite input clamped to that
    range (so 1 for zero), 1 for [NaN] and [-Infinity], 32 for
    [Infinity]. *)
Theorem saveSettings_concurrency_clamped
  (E : Env) (next : SettingsForm) (api : Api) (s : Store) :
  useMock api = true ->
  exists n : Z,
    (1 <= n <= 32)%Z /\
    match concurrency next with
    | JS.Fin q => n = Z.min 32 (Z.max 1 (Qfloor q))
    | JS.PosInf => n = 32%Z
    | JS.NegInf | JS.NaN => n = 1%Z
    end /\
    analysisConcurrency (settings (fst (saveSettings E next (api, s)))) =
      JS.Fin (inject_Z n) /\
    concurrency (saved (snd (saveSettings E next (api, s)))) = JS.Fin (inject_Z n).
Proof.
  intros Hm. rewrite (saveSettings_mock E next api s Hm).
  destruct (clamp_concurrency_spec (concurrency next)) as (n & Hn & Hr & Hx).
  exists n. split; [exact Hr|]. split; [exact Hx|].
  split; cbn; exact Hn.
Qed.

Lemma saveSettings_concurrency_clamped_witness :
  exists n : Z,
    (1 <= n <= 32)%Z /\
    n = Z.min 32 (Z.max 1 (Qfloor (81 # 2))) /\
    analysisConcurrency
      (settings (fst (saveSettings sample_env sample_form (initial_api false, initial_store))))
      = JS.Fin (inject_Z n) /\
    concurrency
      (saved (snd (saveSettings sample_env sample_form (initial_api false, initial_store))))
      = JS.Fin (inject_Z n).
Proof.
  apply (saveSettings_concurrency_clamped sample_env sample_form
           (initial_api false) initial_store).
  reflexivity.
Defined.






(** ** The mock job: starting *)

(** [normalizeScores] throws on no list of eight numbers. *)
Lemma normalizeScores_total (raw : list JS.number) :
  List.length raw = 8%nat ->
  exists sv : ScoreVector, normalizeScores raw = Some sv /\ map fst sv = CATEGORY_KEYS.
Proof.
  intros Hlen.
  destruct raw as [|a [|b [|c [|d [|e [|f [|g [|h [|]]]]]]]]]; try discriminate.
  unfold normalizeScores.
  set (t := JS.or_else _ _).
  eexists. split; reflexivity.
Qed.

Lemma same_module_refl (st : Api) : same_module st st.
Proof. repeat split. Qed.

Lemma same_module_trans (a b c : Api) :
  same_module a b -> same_module b c -> same_module a c.
Proof.
  unfold same_module. intros (A1 & A2 & A3 & A4 & A5 & A6) (B1 & B2 & B3 & B4 & B5 & B6).
  repeat split; congruence.
Qed.

(** One row of the mock: it is always produced, it draws one UUID and
    nine random numbers, publishes nothing, and carries no error
    message. *)
Lemma mockRow_ok (E : Env) (i : nat) (st : Api) :
  exists (row : PhotoRow) (st' : Api),
    mockRow E i st = (Some row, st', []) /\
    same_module st st' /\
    random_calls st' = (9 + random_calls st)%nat /\
    uuid_calls st' = S (uuid_calls st) /\
    errorMessage row = None /\
    exportStatus row =
      (if negb (Qle_bool (Math_random E (8 + random_calls st)) (9 # 10))
       then error else success).
Proof.
  unfold mockRow.
  unfold bind at 1. unfold randomUUID at 1.
  unfold bind at 1.
  cbn [mapM CATEGORY_KEYS]. unfold bind, random, ret. cbn [app].
  match goal with
  | |- context [normalizeScores ?raw] =>
      destruct (normalizeScores_total raw eq_refl) as (sv & Hsv & _); rewrite Hsv
  end.
  cbn [lift_option]. unfold ret. cbn [app].
  eexists. eexists.
  split; [reflexivity|].
  split; [repeat split|].
  cbn. repeat split.
Qed.

Lemma mockRows_from_ok (E : Env) (n : nat) :
  forall (i : nat) (st : Api),
  exists (rows : list PhotoRow) (st' : Api),
    mockRows_from E n i st = (Some rows, st', []) /\
    same_module st st' /\
    List.length rows = n /\
    Forall (fun r => errorMessage r = None) rows.
Proof.
  induction n as [|n IH]; intros i st.
  - exists [], st. repeat split. constructor.
  - destruct (mockRow_ok E i st) as (row & st1 & H1 & F1 & _ & _ & Hm & _).
    destruct (IH (S i) st1) as (rows & st2 & H2 & F2 & Hl & Hall).
    exists (row :: rows), st2.
    split.
    + cbn [mockRows_from]. unfold bind. rewrite H1, H2. reflexivity.
    + split; [now apply same_module_trans with st1|].
      split; [cbn; now rewrite Hl|].
      constructor; assumption.
Qed.

Lemma floor_count_range (r : Q) : 0 <= r < 1 -> (200 <= Qfloor (200 + r * 300) < 500)%Z.
Proof.
  intros [H0 H1]. split.
  - apply Z.le_trans with (Qfloor (inject_Z 200)); [now rewrite Qfloor_Z|].
    apply Qfloor_resp_le. unfold inject_Z. lra.
  - rewrite Zlt_Qlt.
    apply Qle_lt_trans with (200 + r * 300); [apply Qfloor_le|].
    change (inject_Z 500) with 500. lra.
Qed.

Lemma floor_step_range (r : Q) : 0 <= r < 1 -> (5 <= Qfloor (5 + r * 12) < 17)%Z.
Proof.
  intros [H0 H1]. split.
  - apply Z.le_trans with (Qfloor (inject_Z 5)); [now rewrite Qfloor_Z|].
    apply Qfloor_resp_le. unfold inject_Z. lra.
  - rewrite Zlt_Qlt.
    apply Qle_lt_trans with (5 + r * 12); [apply Qfloor_le|].
    change (inject_Z 17) with 17. lra.
Qed.

(** What the mock [startAnalysis] does, whatever the input and whatever
    came before: it returns the UUID it draws, makes it the live job, in
    status running with a fresh row list as long as [total] says, starts
    a timer, and publishes the job's first progress object. *)
Lemma startAnalysis_mock (E : Env) (input : StartAnalysisInput) (st : Api) :
  useMock st = true ->
  let jobId_ := crypto_randomUUID E (uuid_calls st) in
  let count := Qfloor (200 + Math_random E (random_calls st) * 300) in
  let p :=
    {| jobId := jobId_; status := running; currentFile := None;
       processed := 0; total := count; errors := 0 |} in
  exists st' : Api,
    startAnalysis E input st = (Some {| res_jobId := jobId_ |}, st', [p]) /\
    useMock st' = true /\
    mockJobId st' = Some jobId_ /\
    mockProgress st' = p /\
    intervals st' = S (intervals st) /\
    settings st' = settings st /\
    List.length (mockRows st') = Z.to_nat count /\
    Forall (fun r => errorMessage r = None) (mockRows st').
Proof.
  intros Hm jobId_ count p.
  unfold startAnalysis. unfold bind at 1. unfold get at 1. rewrite Hm.
  unfold bind at 1. unfold randomUUID at 1.
  unfold bind at 1. unfold modify at 1.
  unfold bind at 1. unfold modify at 1.
  unfold bind at 1. unfold random at 1.
  cbn [random_calls set_random_calls set_mockProgress set_mockJobId set_uuid_calls app].
  fold jobId_. fold count.
  unfold bind at 1. unfold generateMockRows.
  match goal with
  | |- context [mockRows_from E ?n ?i ?s] =>
      destruct (mockRows_from_ok E n i s) as (rows & st1 & H1 & F1 & Hl & Hall);
      rewrite H1
  end.
  destruct F1 as (F1 & F2 & F3 & F4 & F5 & F6). cbn in F1, F2, F3, F4, F5, F6.
  unfold bind, modify, emitProgress, setInterval, ret.
  cbn [app mockProgress set_mockRows set_mockProgress set_intervals intervals
       useMock mockJobId mockRows settings].
  rewrite <- F4. cbn [spread or_keep p_jobId p_status p_currentFile p_processed
                      p_total p_errors jobId status currentFile processed total errors].
  fold p.
  eexists. split; [reflexivity|].
  cbn. repeat split; try congruence; assumption.
Qed.

(** ** The mock job: timer ticks and cancellation *)

Lemma Status_eqb_eq (a b : Status) : Status_eqb a b = true <-> a = b.
Proof. destruct a, b; cbn; split; congruence. Qed.

(** A tick while the job is running: one random draw, [processed] moves
    to [min (processed + step) total], the errors of the slice are added,
    and every object published carries the new counters. *)
Lemma tick_running (E : Env) (st : Api) :
  status (mockProgress st) = running ->
  (0 < intervals st)%nat ->
  let next :=
    Z.min (processed (mockProgress st) + step_at E (random_calls st))
          (total (mockProgress st)) in
  let slice := Array_slice (mockRows st) (processed (mockProgress st)) next in
  let errs := (errors (mockProgress st) + Z.of_nat (List.length (filter is_error slice)))%Z in
  let done := (total (mockProgress st) <=? next)%Z in
  exists (st' : Api) (out : list Progress),
    interval_fires E st = (Some tt, st', out) /\
    useMock st' = useMock st /\
    mockJobId st' = mockJobId st /\
    mockRows st' = mockRows st /\
    random_calls st' = S (random_calls st) /\
    jobId (mockProgress st') = jobId (mockProgress st) /\
    processed (mockProgress st') = next /\
    total (mockProgress st') = total (mockProgress st) /\
    errors (mockProgress st') = errs /\
    status (mockProgress st') = (if done then completed else running) /\
    intervals st' = (if done then pred (intervals st) else intervals st) /\
    out <> [] /\
    Forall (fun p => processed p = next /\ total p = total (mockProgress st) /\
                     errors p = errs) out.
Proof.
  intros Hrun Hint next slice errs done.
  unfold interval_fires. unfold bind at 1. unfold get at 1.
  destruct (intervals st) as [|k] eqn:Hk; [lia|].
  unfold interval_callback. unfold bind at 1. unfold get at 1.
  rewrite Hrun. cbn [Status_eqb negb].
  unfold bind at 1. unfold random at 1. fold (step_at E (random_calls st)).
  fold next. fold slice. fold errs.
  unfold bind at 1. unfold emitProgress at 1.
  cbn [mockProgress set_random_calls set_mockProgress].
  unfold bind at 1. unfold get at 1.
  cbn [mockProgress set_mockProgress total spread or_keep p_total].
  fold done.
  destruct done eqn:Hd.
  - unfold bind, emitProgress, clearInterval, modify. cbn.
    eexists. eexists. split; [reflexivity|]. cbn. rewrite ?Hk.
    repeat split; try congruence.
    repeat constructor.
  - unfold ret. cbn.
    eexists. eexists. split; [reflexivity|]. cbn. rewrite ?Hk.
    repeat split; try congruence.
    repeat constructor.
Qed.

(** A tick once the job is no longer running: the timer only clears
    itself. *)
Lemma tick_stopped (E : Env) (st : Api) :
  status (mockProgress st) <> running ->
  exists st' : Api,
    interval_fires E st = (Some tt, st', []) /\
    useMock st' = useMock st /\
    mockJobId st' = mockJobId st /\
    mockRows st' = mockRows st /\
    mockProgress st' = mockProgress st /\
    random_calls st' = random_calls st.
Proof.
  intros Hs. unfold interval_fires. unfold bind at 1. unfold get at 1.
  destruct (intervals st) as [|k] eqn:Hk.
  - exists st. repeat split.
  - unfold interval_callback. unfold bind at 1. unfold get at 1.
    destruct (Status_eqb (status (mockProgress st)) running) eqn:Hq.
    + apply Status_eqb_eq in Hq. contradiction.
    + cbn [negb]. unfold clearInterval, modify. cbn.
      eexists. split; [reflexivity|]. repeat split.
Qed.

(** [cancelAnalysis] in the mock: at most the status changes. *)
Lemma cancelAnalysis_spec (j : string) (st : Api) :
  useMock st = true ->
  let hit := option_string_eqb (mockJobId st) j in
  let p := if hit then spread (mockProgress st)
                        {| p_jobId := None; p_status := Some canceled;
                           p_currentFile := None; p_processed := None;
                           p_total := None; p_errors := None |}
           else mockProgress st in
  cancelAnalysis j st =
  (Some tt, set_mockProgress p st, if hit then [p] else []).
Proof.
  intros Hm. cbv zeta. unfold cancelAnalysis, bind, get. rewrite Hm.
  destruct (option_string_eqb (mockJobId st) j).
  - reflexivity.
  - unfold ret. cbn. destruct st; reflexivity.
Qed.

Lemma step_at_range (E : Env) (k : nat) :
  random_in_range E -> (5 <= step_at E k < 17)%Z.
Proof. intros H. apply floor_step_range. apply H. Qed.




Lemma run_cons (E : Env) (ev : Event) (evs : list Event) (st st1 : Api)
  (out1 : list Progress) :
  handle E ev st = (Some tt, st1, out1) ->
  state_of (run E (ev :: evs) st) = state_of (run E evs st1) /\
  output_of (run E (ev :: evs) st) = out1 ++ output_of (run E evs st1).
Proof.
  intros H. cbn [run]. unfold bind. rewrite H.
  destruct (run E evs st1) as [[v st2] out2]. split; reflexivity.
Qed.

Lemma steps_sum_lower (E : Env) (n : nat) :
  random_in_range E -> forall k, (5 * Z.of_nat n <= steps_sum E k n)%Z.
Proof.
  intros HE. induction n as [|n IH]; intros k; cbn [steps_sum]; [lia|].
  pose proof (step_at_range E k HE). specialize (IH (S k)). lia.
Qed.

(** No tick's step is lost: after [n] ticks [processed] is the sum of
    the [n] steps on top of where it stood, capped at [total]. *)
Lemma ticks_closed_form (E : Env) (n : nat) :
  random_in_range E ->
  forall st : Api,
    (0 <= processed (mockProgress st) <= total (mockProgress st))%Z ->
    (status (mockProgress st) = running /\ (0 < intervals st)%nat) \/
    (status (mockProgress st) <> running /\
     processed (mockProgress st) = total (mockProgress st)) ->
    let st' := state_of (run E (repeat Tick n) st) in
    processed (mockProgress st') =
      Z.min (processed (mockProgress st) + steps_sum E (random_calls st) n)
            (total (mockProgress st)) /\
    total (mockProgress st') = total (mockProgress st).
Proof.
  intros HE. induction n as [|n IH]; intros st Hinv Hst; cbv zeta.
  - cbn. split; [lia|reflexivity].
  - cbn [repeat steps_sum].
    pose proof (step_at_range E (random_calls st) HE) as Hstep.
    pose proof (steps_sum_lower E n HE (S (random_calls st))) as Hsum.
    destruct Hst as [[Hrun Hint]|[Hstop Hfull]].
    + destruct (tick_running E st Hrun Hint)
        as (st1 & out & H & _ & _ & _ & Hk & _ & Hp & Ht & _ & Hs & Hi & _ & _).
      destruct (run_cons E Tick (repeat Tick n) st st1 out H) as [-> _].
      destruct (IH st1) as [IHp IHt].
      * rewrite Hp, Ht. lia.
      * rewrite Hs, Hi, Hp, Ht.
        destruct (Z.leb_spec (total (mockProgress st))
                    (Z.min (processed (mockProgress st) + step_at E (random_calls st))
                           (total (mockProgress st)))).
        -- right. split; [discriminate|lia].
        -- left. split; [reflexivity|assumption].
      * rewrite IHp, IHt, Hp, Ht, Hk. split; [lia|reflexivity].
    + destruct (tick_stopped E st Hstop) as (st1 & H & _ & _ & _ & Hp & Hk).
      destruct (run_cons E Tick (repeat Tick n) st st1 [] H) as [-> _].
      destruct (IH st1) as [IHp IHt].
      * rewrite Hp. lia.
      * right. rewrite Hp. split; assumption.
      * rewrite IHp, IHt, Hp, Hk.
        pose proof (steps_sum_lower E n HE (random_calls st)). split; [lia|reflexivity].
Qed.



(** ** The mock job: error counting *)

Lemma firstn_plus {A} (n m : nat) (l : list A) :
  firstn (n + m) l = firstn n l ++ firstn m (skipn n l).
Proof.
  revert l. induction n as [|n IH]; intros l; [reflexivity|].
  destruct l as [|x l]; cbn; [now rewrite firstn_nil|].
  now rewrite IH.
Qed.

(** Within the array, the first [b] elements are the first [a] followed
    by [slice(a, b)]. *)
Lemma slice_extends {A} (xs : list A) (a b : Z) :
  (0 <= a <= b)%Z -> (b <= Z.of_nat (List.length xs))%Z ->
  firstn (Z.to_nat b) xs = firstn (Z.to_nat a) xs ++ Array_slice xs a b.
Proof.
  intros Hab Hb. unfold Array_slice, slice_bound.
  destruct (Z.ltb_spec a 0); [lia|]. destruct (Z.ltb_spec b 0); [lia|].
  rewrite !Z.min_l by lia.
  replace (Z.to_nat b) with (Z.to_nat a + Z.to_nat (b - a))%nat by lia.
  apply firstn_plus.
Qed.

Lemma errors_among_extends (rows : list PhotoRow) (a b : Z) :
  (0 <= a <= b)%Z -> (b <= Z.of_nat (List.length rows))%Z ->
  errors_among b rows =
    (errors_among a rows + Z.of_nat (List.length (filter is_error (Array_slice rows a b))))%Z.
Proof.
  intros Hab Hb. unfold errors_among.
  rewrite (slice_extends rows a b Hab Hb), filter_app, length_app. lia.
Qed.

(** A tick of a running job whose counters are right leaves a job that
    satisfies the invariant, over the same rows. *)
Lemma tick_establishes_invariant (E : Env) (st : Api) :
  random_in_range E ->
  status (mockProgress st) = running ->
  (0 < intervals st)%nat ->
  (0 <= processed (mockProgress st) <= total (mockProgress st))%Z ->
  total (mockProgress st) = Z.of_nat (List.length (mockRows st)) ->
  errors (mockProgress st) = errors_among (processed (mockProgress st)) (mockRows st) ->
  exists (st' : Api) (out : list Progress),
    interval_fires E st = (Some tt, st', out) /\
    job_invariant st' /\
    mockRows st' = mockRows st.
Proof.
  intros HE Hrun Hint Hinv Htot Herr.
  destruct (tick_running E st Hrun Hint)
    as (st' & out & H & _ & _ & Hrows & _ & _ & Hp & Ht & He & Hs & Hi & _ & _).
  pose proof (step_at_range E (random_calls st) HE) as Hstep.
  exists st', out. split; [exact H|]. split; [|exact Hrows].
  set (next := Z.min (processed (mockProgress st) + step_at E (random_calls st))
                     (total (mockProgress st))) in *.
  unfold job_invariant. rewrite Hp, Ht, He, Hs, Hi, Hrows.
  split; [lia|]. split; [exact Htot|]. split.
  - rewrite Herr. symmetry. apply errors_among_extends; lia.
  - destruct (Z.leb_spec (total (mockProgress st)) next).
    + right. split; [reflexivity|lia].
    + left. split; [reflexivity|]. split; [assumption|lia].
Qed.

Lemma tick_keeps_invariant (E : Env) (st : Api) :
  random_in_range E ->
  job_invariant st ->
  exists (st' : Api) (out : list Progress),
    interval_fires E st = (Some tt, st', out) /\
    job_invariant st' /\
    mockRows st' = mockRows st.
Proof.
  intros HE (Hinv & Htot & Herr & [(Hrun & Hint & Hlt)|(Hdone & Hfull)]).
  - now apply tick_establishes_invariant.
  - destruct (tick_stopped E st) as (st' & H & _ & _ & Hrows & Hp & _).
    { rewrite Hdone. discriminate. }
    exists st', []. split; [exact H|]. split; [|exact Hrows].
    unfold job_invariant. rewrite Hp, Hrows.
    split; [exact Hinv|]. split; [exact Htot|]. split; [exact Herr|].
    right. split; assumption.
Qed.

Lemma ticks_keep_invariant (E : Env) (n : nat) :
  random_in_range E ->
  forall st : Api,
    job_invariant st ->
    job_invariant (state_of (run E (repeat Tick n) st)) /\
    mockRows (state_of (run E (repeat Tick n) st)) = mockRows st.
Proof.
  intros HE. induction n as [|n IH]; intros st HJ.
  - cbn. split; [exact HJ|reflexivity].
  - cbn [repeat].
    destruct (tick_keeps_invariant E st HE HJ) as (st1 & out & H & HJ1 & Hrows).
    destruct (run_cons E Tick (repeat Tick n) st st1 out H) as [-> _].
    destruct (IH st1 HJ1) as [A B]. split; [exact A|congruence].
Qed.

(** C5 (amended).  In the mock, a job that [startAnalysis] has started is
    running with zero counters over rows none of which carries an error
    message; and when such a job is run to completion by its timer,
    every row is counted in [processed] and every row with export status
    error in [errors]: the job ends completed with [processed] and
    [total] the number of rows and [errors] the number of error rows. *)
Theorem mock_job_counts_errors (E : Env) (input : StartAnalysisInput)
  (st0 st : Api) (n : nat) :
  random_in_range E ->
  (useMock st0 = true ->
   let st1 := state_of (startAnalysis E input st0) in
   fresh_job st1 /\ Forall (fun r => errorMessage r = None) (mockRows st1)) /\
  (fresh_job st ->
   (0 < n)%nat ->
   (total (mockProgress st) <= 5 * Z.of_nat n)%Z ->
   let st' := state_of (run E (repeat Tick n) st) in
   status (mockProgress st') = completed /\
   processed (mockProgress st') = Z.of_nat (List.length (mockRows st)) /\
   total (mockProgress st') = Z.of_nat (List.length (mockRows st)) /\
   errors (mockProgress st') =
     Z.of_nat (List.length (filter is_error (mockRows st)))).
Proof.
  intros HE. split.
  - intros Hm. cbv zeta.
    destruct (startAnalysis_mock E input st0 Hm)
      as (st1 & H & Hm1 & _ & Hp & Hi & _ & Hlen & Hmsg).
    rewrite H. cbn [state_of fst snd].
    pose proof (floor_count_range _ (HE (random_calls st0))) as Hcount.
    split; [|exact Hmsg].
    unfold fresh_job. rewrite Hp, Hi, Hlen. cbn [status processed errors total].
    repeat split; try assumption; lia.
  - intros (Hm & Hint & Hrun & Hp0 & He0 & Htot) Hn Hbig. cbv zeta.
    destruct n as [|n]; [lia|].
    assert (Hinv : (0 <= processed (mockProgress st) <= total (mockProgress st))%Z)
      by (rewrite Hp0, Htot; lia).
    destruct (ticks_closed_form E (S n) HE st Hinv) as [Hc Ht];
      [left; split; assumption|].
    pose proof (steps_sum_lower E (S n) HE (random_calls st)) as Hsum.
    destruct (tick_establishes_invariant E st HE Hrun Hint Hinv Htot)
      as (st1 & out & H1 & HJ1 & Hrows1).
    { rewrite He0, Hp0. reflexivity. }
    cbn [repeat] in *.
    destruct (run_cons E Tick (repeat Tick n) st st1 out H1) as [Hst _].
    rewrite Hst in *.
    destruct (ticks_keep_invariant E n HE st1 HJ1) as [HJ Hrows].
    rewrite Hrows1 in Hrows.
    destruct HJ as (_ & _ & Herr & Hstat).
    rewrite Hrows in Herr.
    assert (Hfull : processed (mockProgress (state_of (run E (repeat Tick n) st1)))
                    = total (mockProgress st)) by lia.
    split.
    + destruct Hstat as [(_ & _ & Hlt)|(Hdone & _)]; [lia|exact Hdone].
    + split; [now rewrite Hfull|]. split; [now rewrite Ht|].
      rewrite Herr, Hfull, Htot. unfold errors_among.
      rewrite Nat2Z.id, firstn_all. reflexivity.
Qed.

Lemma mock_job_counts_errors_witness :
  (let st1 := state_of (startAnalysis sample_env sample_input (initial_api false)) in
   fresh_job st1 /\ Forall (fun r => errorMessage r = None) (mockRows st1)) /\
  (let st' := state_of (run sample_env (repeat Tick 1) five_rows_job) in
   status (mockProgress st') = completed /\
   processed (mockProgress st') = 5%Z /\
   total (mockProgress st') = 5%Z /\
   errors (mockProgress st') = 1%Z).
Proof.
  assert (HE : random_in_range sample_env).
  { intros n. cbn. split; [discriminate|reflexivity]. }
  destruct (mock_job_counts_errors sample_env sample_input (initial_api false)
              five_rows_job 1 HE) as [A B].
  split.
  - apply A. reflexivity.
  - apply B.
    + repeat split. cbn. lia.
    + lia.
    + cbn. lia.
Defined.

(** C5, as stated, fails on the message: with random numbers of 0.95 the
    first row that the mock generates has export status error and no
    error message. *)
Lemma mock_error_row_without_message :
  exists row : PhotoRow,
    hd_error (mockRows (state_of (startAnalysis sample_env sample_input (initial_api false))))
      = Some row /\
    exportStatus row = error /\
    errorMessage row = None.
Proof.
  eexists. split; [vm_compute; reflexivity|]. split; reflexivity.
Qed.

(** ** [cancelAnalysis] *)

Lemma set_mockProgress_same (st : Api) : set_mockProgress (mockProgress st) st = st.
Proof. destruct st; reflexivity. Qed.

Lemma option_string_eqb_false (o : option string) (j : string) :
  o <> Some j -> option_string_eqb o j = false.
Proof.
  intros H. destruct o as [s|]; cbn; [|reflexivity].
  apply String.eqb_neq. congruence.
Qed.

Lemma spread_twice (p : Progress) (u : PartialProgress) :
  spread (spread p u) u = spread p u.
Proof.
  destruct p, u. unfold spread. cbn.
  f_equal;
    match goal with
    | |- or_keep ?o _ = _ => destruct o; reflexivity
    end.
Qed.

(** C6.  In the mock, [cancelAnalysis] with an id other than that of the
    live job changes nothing and publishes nothing; calling it a second
    time with the same id leaves the state that the first call left; and
    no call changes [processed], [total] or [errors]. *)
Theorem cancelAnalysis_idempotent (jobId_ : string) (st : Api) :
  useMock st = true ->
  (mockJobId st <> Some jobId_ -> cancelAnalysis jobId_ st = (Some tt, st, [])) /\
  state_of (cancelAnalysis jobId_ (state_of (cancelAnalysis jobId_ st))) =
    state_of (cancelAnalysis jobId_ st) /\
  (let st' := state_of (cancelAnalysis jobId_ st) in
   processed (mockProgress st') = processed (mockProgress st) /\
   total (mockProgress st') = total (mockProgress st) /\
   errors (mockProgress st') = errors (mockProgress st) /\
   (mockJobId st = Some jobId_ -> status (mockProgress st') = canceled)).
Proof.
  intros Hm. split; [|split].
  - intros Hne. rewrite (cancelAnalysis_spec jobId_ st Hm).
    rewrite (option_string_eqb_false _ _ Hne).
    now rewrite set_mockProgress_same.
  - rewrite (cancelAnalysis_spec jobId_ st Hm). cbn [state_of fst snd].
    rewrite cancelAnalysis_spec by exact Hm.
    cbn [state_of fst snd mockJobId mockProgress set_mockProgress].
    destruct (option_string_eqb (mockJobId st) jobId_).
    + rewrite spread_twice. destruct st; reflexivity.
    + destruct st; reflexivity.
  - rewrite (cancelAnalysis_spec jobId_ st Hm).
    cbn [state_of fst snd mockProgress set_mockProgress].
    destruct (option_string_eqb (mockJobId st) jobId_) eqn:Hhit.
    + repeat split.
    + repeat split. intros Hj. rewrite Hj in Hhit. cbn in Hhit.
      rewrite String.eqb_refl in Hhit. discriminate.
Qed.

(** Every call with the id of the live job hands the listeners the
    canceled progress object, the second call as the first. *)
Lemma cancelAnalysis_publishes (jobId_ : string) (st : Api) :
  useMock st = true ->
  mockJobId st = Some jobId_ ->
  output_of (cancelAnalysis jobId_ st) = [mockProgress (state_of (cancelAnalysis jobId_ st))] /\
  output_of (cancelAnalysis jobId_ (state_of (cancelAnalysis jobId_ st))) =
    output_of (cancelAnalysis jobId_ st).
Proof.
  intros Hm Hj.
  rewrite (cancelAnalysis_spec jobId_ st Hm). cbn [state_of output_of fst snd].
  rewrite cancelAnalysis_spec by exact Hm.
  cbn [output_of snd mockJobId mockProgress set_mockProgress].
  rewrite Hj. cbn [option_string_eqb]. rewrite String.eqb_refl.
  now rewrite spread_twice.
Qed.

Lemma cancelAnalysis_idempotent_witness :
  cancelAnalysis "job-7" five_rows_job = (Some tt, five_rows_job, []) /\
  state_of (cancelAnalysis "job-0" (state_of (cancelAnalysis "job-0" five_rows_job))) =
    state_of (cancelAnalysis "job-0" five_rows_job) /\
  status (mockProgress (state_of (cancelAnalysis "job-0" five_rows_job))) = canceled.
Proof.
  split; [|split].
  - apply (cancelAnalysis_idempotent "job-7" five_rows_job); [reflexivity|].
    discriminate.
  - apply (cancelAnalysis_idempotent "job-0" five_rows_job). reflexivity.
  - apply (cancelAnalysis_idempotent "job-0" five_rows_job); reflexivity.
Defined.

(** ** Starting a job *)

(** C3 (amended).  In the mock, [startAnalysis] never fails: for any
    input, and in any state of the module (also with a job running), it
    returns the UUID it draws and makes it the live job, running, with
    [processed] and [errors] at 0 and one more timer.  What refuses a
    start is in front of it: [startAnalysisNow] returns with an error
    toast, calling nothing, when a root is the empty string, and a click
    on the start button does nothing while the store's job status is
    running or a root is blank. *)
Theorem start_contract (E : Env) (now : Z) (input : StartAnalysisInput)
  (api : Api) (s : Store) :
  useMock api = true ->
  (exists api' : Api,
     startAnalysis E input api =
       (Some {| res_jobId := crypto_randomUUID E (uuid_calls api) |}, api',
        [mockProgress api']) /\
     mockJobId api' = Some (crypto_randomUUID E (uuid_calls api)) /\
     jobId (mockProgress api') = crypto_randomUUID E (uuid_calls api) /\
     status (mockProgress api') = running /\
     processed (mockProgress api') = 0%Z /\
     errors (mockProgress api') = 0%Z /\
     intervals api' = S (intervals api)) /\
  (sourceRoot s = "" \/ exportRoot s = "" ->
   startAnalysisNow E now (api, s) =
     (api, toast Toast.error "소스/Export 경로를 입력하세요" s, [])) /\
  (status (progress s) = running \/ trim (sourceRoot s) = "" \/ trim (exportRoot s) = "" ->
   click_start E now (api, s) = (api, s, [])).
Proof.
  intros Hm. split; [|split].
  - destruct (startAnalysis_mock E input api Hm)
      as (api' & H & _ & Hj & Hp & Hi & _ & _ & _).
    exists api'. rewrite Hp. split; [exact H|].
    repeat split; assumption.
  - intros Hroot. unfold startAnalysisNow.
    destruct Hroot as [-> | ->]; cbn [string_truthy negb orb]; [reflexivity|].
    now rewrite orb_true_r.
  - intros Hgate. unfold click_start, start_disabled, isRunning, canStart. cbn [fst snd].
    destruct Hgate as [-> | [-> | ->]]; cbn [Status_eqb string_truthy andb negb orb];
      rewrite ?andb_false_r, ?orb_true_r; reflexivity.
Qed.

Lemma start_contract_witness :
  (exists api' : Api,
     startAnalysis sample_env empty_input five_rows_job =
       (Some {| res_jobId := "job-1" |}, api', [mockProgress api']) /\
     mockJobId api' = Some "job-1" /\
     jobId (mockProgress api') = "job-1" /\
     status (mockProgress api') = running /\
     processed (mockProgress api') = 0%Z /\
     errors (mockProgress api') = 0%Z /\
     intervals api' = 2%nat) /\
  startAnalysisNow sample_env 0 (five_rows_job, initial_store) =
    (five_rows_job, toast Toast.error "소스/Export 경로를 입력하세요" initial_store, []) /\
  click_start sample_env 0 (five_rows_job, initial_store) =
    (five_rows_job, initial_store, []).
Proof.
  destruct (start_contract sample_env 0 empty_input five_rows_job initial_store eq_refl)
    as (A & B & C).
  split; [exact A|]. split.
  - apply B. left. reflexivity.
  - apply C. right. left. reflexivity.
Defined.

(** C3, as stated, fails in the mock: [startAnalysis] with two empty
    roots returns a job id and starts a job, and a second call while that
    job is running returns another id and replaces the live job; so does
    [startAnalysisNow] on a store with both roots set while the module's
    job is running. *)
Lemma startAnalysis_never_refuses :
  let first := startAnalysis sample_env empty_input (initial_api false) in
  let second := startAnalysis sample_env sample_input (state_of first) in
  let store :=
    mkStore "/photos" "/photos/sorted" false (saved initial_store)
            (mockProgress (state_of first)) None None None false None None
            (streamPanel initial_store) [] in
  let third := startAnalysisNow sample_env 0 (state_of first, store) in
  value_of first = Some {| res_jobId := "job-0" |} /\
  status (mockProgress (state_of first)) = running /\
  value_of second = Some {| res_jobId := "job-486" |} /\
  mockJobId (state_of second) = Some "job-486" /\
  status (progress store) = running /\
  mockJobId (fst (fst third)) = Some "job-486" /\
  jobId (progress (snd (fst third))) = "job-486" /\
  intervals (fst (fst third)) = 2%nat.
Proof.
  vm_compute. repeat split.
Qed.

(** ** [getDistribution] in mode [count_ratio] *)













(** ** Value judgment *)

Module ValueJudgmentFacts.
Import ValueJudgment.
Local Open Scope R_scope.

Lemma softmax2_fst_range (a b : R) : 0 <= fst (softmax2 a b) <= 1.
Proof.
  unfold softmax2. cbn [fst].
  set (ea := exp (a - Rmax a b)). set (eb := exp (b - Rmax a b)).
  assert (Ha : 0 < ea) by apply exp_pos.
  assert (Hb : 0 < eb) by apply exp_pos.
  assert (Hs : 0 < ea + eb) by Lra.lra.
  split.
  - apply Rlt_le. apply Rdiv_lt_0_compat; assumption.
  - apply Rmult_le_reg_r with (ea + eb); [assumption|].
    unfold Rdiv. rewrite Rmult_assoc, Rinv_l by Lra.lra. Lra.lra.
Qed.

Lemma softmax2_fst_half (a b : R) : 1 / 2 <= fst (softmax2 a b) <-> b <= a.
Proof.
  unfold softmax2. cbn [fst].
  set (m := Rmax a b). set (ea := exp (a - m)). set (eb := exp (b - m)).
  assert (Ha : 0 < ea) by apply exp_pos.
  assert (Hb : 0 < eb) by apply exp_pos.
  assert (Hs : 0 < ea + eb) by Lra.lra.
  assert (Hexp : eb <= ea <-> b <= a).
  { split; intros H.
    - destruct (Rle_lt_dec b a) as [L|L]; [assumption|].
      assert (ea < eb) by (apply exp_increasing; Lra.lra). Lra.lra.
    - destruct H as [H|H].
      + left. apply exp_increasing. Lra.lra.
      + right. unfold ea, eb. now rewrite H. }
  rewrite <- Hexp.
  split; intros H.
  - apply (Rmult_le_compat_r (ea + eb)) in H; [|Lra.lra].
    unfold Rdiv in H. rewrite (Rmult_assoc ea), Rinv_l in H by Lra.lra. Lra.lra.
  - apply Rmult_le_reg_r with (ea + eb); [assumption|].
    unfold Rdiv. rewrite (Rmult_assoc ea), Rinv_l by Lra.lra. Lra.lra.
Qed.

(** C9.  With value judgment enabled, the scorer reports a keep
    probability that is the first component of the two-way softmax of
    the cosine similarities of the image embedding (the one the category
    similarities are computed from) to the keep and the drop prompt; it
    lies in [[0, 1]]; and the [isValuable] flag is [true] exactly when
    the keep probability is at least 0.5, which is when the image is at
    least as similar to the keep prompt as to the drop prompt. *)
Theorem keep_prob_range_and_flag (prompts : PromptEmbeddingSet)
  (raw_embedding : EmbeddingVector) :
  let image := l2_normalize raw_embedding in
  let verdict := score true prompts raw_embedding in
  exists (p : R) (flag : bool),
    valuableScore verdict = Some p /\
    isValuable verdict = Some flag /\
    category_similarities verdict =
      map (cosine_similarity image) (category_prompts prompts) /\
    p = fst (softmax2 (cosine_similarity image (keep_prompt prompts))
                      (cosine_similarity image (drop_prompt prompts))) /\
    0 <= p <= 1 /\
    (flag = true <-> 1 / 2 <= p) /\
    (flag = true <->
     cosine_similarity image (drop_prompt prompts) <=
     cosine_similarity image (keep_prompt prompts)).
Proof.
  cbv zeta. eexists. eexists.
  split; [reflexivity|]. split; [reflexivity|]. split; [reflexivity|].
  split; [reflexivity|]. split; [apply softmax2_fst_range|].
  assert (F : is_valuable (keep_prob prompts (l2_normalize raw_embedding)) = true <->
              1 / 2 <= keep_prob prompts (l2_normalize raw_embedding)).
  { unfold is_valuable.
    destruct (Rle_dec (1 / 2) (keep_prob prompts (l2_normalize raw_embedding))) as [H|H].
    - split; [intros _; exact H|reflexivity].
    - split; [discriminate|]. intros H'. contradiction. }
  split; [exact F|].
  rewrite F. unfold keep_prob. apply softmax2_fst_half.
Qed.

End ValueJudgmentFacts.

(** * Further properties *)

(** ** The rows of the mock *)

(** One iteration of the loop, field by field. *)
Lemma mockRow_fields (E : Env) (i : nat) (st : Api) :
  exists (row : PhotoRow) (st' : Api),
    mockRow E i st = (Some row, st', []) /\
    same_module st st' /\
    random_calls st' = (9 + random_calls st)%nat /\
    uuid_calls st' = S (uuid_calls st) /\
    generated_row E i (uuid_calls st) (random_calls st) row.
Proof.
  unfold mockRow.
  unfold bind at 1. unfold randomUUID at 1.
  unfold bind at 1.
  cbn [mapM CATEGORY_KEYS]. unfold bind, random, ret. cbn [app].
  match goal with
  | |- context [normalizeScores ?raw] =>
      destruct (normalizeScores_total raw eq_refl) as (sv & Hsv & _); rewrite Hsv
  end.
  cbn [lift_option]. unfold ret. cbn [app].
  eexists. eexists.
  split; [reflexivity|].
  split; [repeat split|].
  split; [reflexivity|]. split; [reflexivity|].
  unfold generated_row.
  cbn [id fileName path scores category topScore exportStatus errorMessage
       random_calls uuid_calls set_random_calls set_uuid_calls].
  split; [reflexivity|]. split; [reflexivity|]. split; [reflexivity|].
  split; [exact Hsv|]. repeat split.
Qed.

(** The rows of the loop, by position. *)
Lemma mockRows_from_indexed (E : Env) (n : nat) :
  forall (i : nat) (st : Api),
  exists (rows : list PhotoRow) (st' : Api),
    mockRows_from E n i st = (Some rows, st', []) /\
    same_module st st' /\
    List.length rows = n /\
    forall j row,
      nth_error rows j = Some row ->
      generated_row E (i + j) (uuid_calls st + j) (random_calls st + 9 * j) row.
Proof.
  induction n as [|n IH]; intros i st.
  - exists [], st. split; [reflexivity|]. split; [apply same_module_refl|].
    split; [reflexivity|]. intros [|j] row H; discriminate.
  - destruct (mockRow_fields E i st) as (row & st1 & H1 & F1 & Hr & Hu & Hg).
    destruct (IH (S i) st1) as (rows & st2 & H2 & F2 & Hl & Hall).
    exists (row :: rows), st2.
    split; [cbn [mockRows_from]; unfold bind; rewrite H1, H2; reflexivity|].
    split; [now apply same_module_trans with st1|].
    split; [cbn; now rewrite Hl|].
    intros [|j] r Hn; cbn in Hn.
    + injection Hn as <-.
      replace (i + 0)%nat with i by lia.
      replace (uuid_calls st + 0)%nat with (uuid_calls st) by lia.
      replace (random_calls st + 9 * 0)%nat with (random_calls st) by lia.
      exact Hg.
    + specialize (Hall j r Hn). rewrite Hr, Hu in Hall.
      replace (i + S j)%nat with (S i + j)%nat by lia.
      replace (uuid_calls st + S j)%nat with (S (uuid_calls st) + j)%nat by lia.
      replace (random_calls st + 9 * S j)%nat
        with (9 + random_calls st + 9 * j)%nat by lia.
      exact Hall.
Qed.

(** The rows of a job that the mock starts, by position: the job id
    takes the first UUID and the row count the first random number. *)
Lemma startAnalysis_rows (E : Env) (input : StartAnalysisInput) (st : Api) :
  useMock st = true ->
  let started := state_of (startAnalysis E input st) in
  List.length (mockRows started) =
    Z.to_nat (Qfloor (200 + Math_random E (random_calls st) * 300)) /\
  forall j row,
    nth_error (mockRows started) j = Some row ->
    generated_row E j (S (uuid_calls st) + j) (S (random_calls st) + 9 * j) row.
Proof.
  intros Hm. cbv zeta.
  destruct (startAnalysis E input st) as [[v st'] out] eqn:Hs.
  cbn [state_of fst snd].
  unfold startAnalysis in Hs. unfold bind at 1 in Hs. unfold get at 1 in Hs.
  rewrite Hm in Hs.
  unfold bind at 1 in Hs. unfold randomUUID at 1 in Hs.
  unfold bind at 1 in Hs. unfold modify at 1 in Hs.
  unfold bind at 1 in Hs. unfold modify at 1 in Hs.
  unfold bind at 1 in Hs. unfold random at 1 in Hs.
  cbn [random_calls set_random_calls set_mockProgress set_mockJobId set_uuid_calls app]
    in Hs.
  unfold bind at 1 in Hs. unfold generateMockRows in Hs.
  match type of Hs with
  | context [mockRows_from E ?n ?i ?s] =>
      destruct (mockRows_from_indexed E n i s) as (rows & st1 & H1 & F1 & Hl & Hall);
      rewrite H1 in Hs
  end.
  cbn [random_calls uuid_calls set_random_calls set_mockProgress set_mockJobId
       set_uuid_calls Nat.add] in Hall.
  unfold bind, modify, emitProgress, setInterval, ret in Hs.
  cbn [app] in Hs. injection Hs as _ Hst _. subst st'.
  cbn [mockRows set_intervals set_mockProgress set_mockRows].
  split; [exact Hl|exact Hall].
Qed.

(** The floor of a rational that lies between [n] and [n + 1]. *)
Lemma Qfloor_between (q : Q) (n : Z) :
  inject_Z n <= q -> q < inject_Z (n + 1) -> Qfloor q = n.
Proof.
  intros Hl Hu.
  pose proof (Qfloor_le q) as F1. pose proof (Qlt_floor q) as F2.
  assert (A : (Qfloor q < n + 1)%Z).
  { rewrite Zlt_Qlt. apply Qle_lt_trans with q; assumption. }
  assert (B : (n < Qfloor q + 1)%Z).
  { rewrite Zlt_Qlt. apply Qle_lt_trans with q; assumption. }
  lia.
Qed.

(** A number of [[0, 1]] with four decimals is printed as it is. *)
Lemma toFixedQ_idempotent (x : Q) :
  0 <= x <= 1 -> JS.toFixedQ (JS.toFixedQ x 4) 4 = JS.toFixedQ x 4.
Proof.
  intros Hx.
  pose proof (toFixedQ_unit_range x Hx) as Hr.
  rewrite (toFixedQ_unit (JS.toFixedQ x 4) Hr).
  rewrite (toFixedQ_unit x Hx).
  set (n := Qfloor (x * 10000 + (1 # 2))).
  f_equal. f_equal.
  apply Qfloor_between.
  - assert (E : inject_Z n / 10000 * 10000 == inject_Z n) by field.
    rewrite E. lra.
  - assert (E : inject_Z n / 10000 * 10000 == inject_Z n) by field.
    rewrite E, inject_Z_plus. change (inject_Z 1) with 1. lra.
Qed.

(** The largest value of an object without [NaN] is the value that the
    reduction of [deriveCategory] ends with. *)
Lemma max_list_fold (l : list (CategoryKey * JS.number)) :
  forall top : Top,
    value top <> JS.NaN ->
    Forall (fun e => snd e <> JS.NaN) l ->
    fold_left JS.max (map snd l) (value top) =
    value (fold_left deriveCategory_step l top).
Proof.
  induction l as [|e l IH]; intros top Htop Hl; cbn [fold_left map]; [reflexivity|].
  inversion Hl as [|? ? He Hl']; subst.
  assert (Hmax : JS.max (value top) (snd e) = value (deriveCategory_step top e)).
  { unfold JS.max, deriveCategory_step.
    destruct (value top) eqn:Hv, (snd e) eqn:Hs; try congruence;
      destruct (JS.gt _ _); cbn [value]; congruence. }
  rewrite Hmax. apply IH; [|assumption].
  unfold deriveCategory_step. destruct (JS.gt (snd e) (value top)); assumption.
Qed.

Lemma obj_get_nth {V} (o : Obj V) (i : nat) (k : CategoryKey) (v : V) :
  NoDup (map fst o) -> nth_error o i = Some (k, v) -> obj_get k o = Some v.
Proof.
  revert i. induction o as [|[k' v'] o IH]; intros i Hnd Hn.
  - destruct i; discriminate.
  - cbn [obj_get]. inversion Hnd as [|? ? Hnotin Hnd']; subst.
    destruct i as [|i]; cbn in Hn.
    + injection Hn as -> ->. destruct k; reflexivity.
    + destruct (CategoryKey_eqb k k') eqn:Hk.
      * exfalso. apply Hnotin.
        assert (k = k') by (destruct k, k'; cbn in Hk; congruence). subst k'.
        apply nth_error_In in Hn. apply (in_map fst) in Hn. exact Hn.
      * apply (IH i); assumption.
Qed.

Lemma CATEGORY_KEYS_NoDup : NoDup CATEGORY_KEYS.
Proof. repeat constructor; cbn; intuition discriminate. Qed.

(** What [deriveCategory] returns, read on the object: the key under
    which the largest score is stored. *)
Lemma deriveCategory_holds_max (sv : ScoreVector) :
  map fst sv = CATEGORY_KEYS ->
  Forall (fun e => snd e <> JS.NaN) sv ->
  obj_get (deriveCategory sv) sv = Some (JS.max_list (Object_values sv)) /\
  forall k w, In (k, w) sv -> num_le w (JS.max_list (Object_values sv)).
Proof.
  intros Hkeys Hnan.
  pose (top0 := {| key := nth 0 CATEGORY_KEYS screenshot_document; value := JS.NegInf |}).
  assert (Hnd : NoDup (map fst sv)) by (rewrite Hkeys; apply CATEGORY_KEYS_NoDup).
  pose proof (max_list_fold sv top0 ltac:(discriminate) Hnan) as Hmax.
  cbn [value top0] in Hmax. fold top0 in Hmax.
  unfold JS.max_list, Object_values. rewrite Hmax.
  destruct (deriveCategory_fold sv top0 ltac:(discriminate) Hnan) as (_ & A & C).
  unfold deriveCategory, Object_entries. fold top0.
  split; [|intros k w Hin; apply (A (k, w) Hin)].
  destruct C as [[E F]|(i & e & Hn & E & _ & _)]; rewrite E.
  - cbn [key value top0 nth CATEGORY_KEYS].
    destruct sv as [|[k0 v0] sv']; [discriminate|].
    injection Hkeys as Hk0 _. subst k0.
    specialize (F (screenshot_document, v0) (or_introl eq_refl)).
    cbn [obj_get CategoryKey_eqb]. f_equal.
    destruct v0; cbn in F; tauto || reflexivity.
  - cbn [key value]. destruct e as [k v]. apply (obj_get_nth sv i); assumption.
Qed.

Lemma obj_get_In {V} (o : Obj V) (k : CategoryKey) (v : V) :
  obj_get k o = Some v -> In (k, v) o.
Proof.
  induction o as [|[k' v'] o IH]; cbn [obj_get]; [discriminate|].
  destruct (CategoryKey_eqb k k') eqn:Hk.
  - intros H. injection H as ->.
    assert (k = k') by (destruct k, k'; cbn in Hk; congruence). subst. now left.
  - intros H. right. now apply IH.
Qed.

(** The score vector of a generated row: eight rounded shares of
    [[0, 1]], in the order of the keys. *)
Lemma generated_scores (E : Env) (i u r : nat) (row : PhotoRow) :
  random_in_range E ->
  generated_row E i u r row ->
  map fst (scores row) = CATEGORY_KEYS /\
  Forall (fun e => exists x, 0 <= x <= 1 /\ snd e = JS.Fin (JS.toFixedQ x 4)) (scores row).
Proof.
  intros HE (_ & _ & _ & Hs & _).
  cbn [seq map] in Hs.
  pose proof (HE (0 + r)%nat) as R0. pose proof (HE (1 + r)%nat) as R1.
  pose proof (HE (2 + r)%nat) as R2. pose proof (HE (3 + r)%nat) as R3.
  pose proof (HE (4 + r)%nat) as R4. pose proof (HE (5 + r)%nat) as R5.
  pose proof (HE (6 + r)%nat) as R6. pose proof (HE (7 + r)%nat) as R7.
  revert Hs R0 R1 R2 R3 R4 R5 R6 R7.
  generalize (Math_random E (0 + r)) (Math_random E (1 + r)) (Math_random E (2 + r))
             (Math_random E (3 + r)) (Math_random E (4 + r)) (Math_random E (5 + r))
             (Math_random E (6 + r)) (Math_random E (7 + r)).
  intros a b c d e f g h Hs R0 R1 R2 R3 R4 R5 R6 R7.
  set (qa := a + (2 # 10)) in *. set (qb := b + (2 # 10)) in *.
  set (qc := c + (2 # 10)) in *. set (qd := d + (2 # 10)) in *.
  set (qe := e + (2 # 10)) in *. set (qf := f + (2 # 10)) in *.
  set (qg := g + (2 # 10)) in *. set (qh := h + (2 # 10)) in *.
  assert (Hpos : 0 < Qsum [qa; qb; qc; qd; qe; qf; qg; qh]).
  { unfold Qsum. cbn [fold_left]. unfold qa, qb, qc, qd, qe, qf, qg, qh. lra. }
  change (normalizeScores (map JS.Fin [qa; qb; qc; qd; qe; qf; qg; qh]) = Some (scores row))
    in Hs.
  rewrite (normalizeScores_eight qa qb qc qd qe qf qg qh Hpos) in Hs.
  injection Hs as Hs. rewrite <- Hs.
  split; [reflexivity|].
  unfold Qsum in *. cbn [fold_left] in *.
  set (s := 0 + qa + qb + qc + qd + qe + qf + qg + qh) in *.
  repeat constructor; cbn [snd]; eexists; (split; [|reflexivity]);
    apply share_range; unfold s, qa, qb, qc, qd, qe, qf, qg, qh in *; lra.
Qed.

(** X1.  Every row of a job that the mock starts is consistent: its scores
    are eight numbers of [[0, 1]] under the eight keys, its category is
    the key of the largest score, its top score is that largest score,
    and its export status is success or error. *)
Theorem mock_rows_consistent (E : Env) (input : StartAnalysisInput) (st : Api)
  (row : PhotoRow) :
  random_in_range E ->
  useMock st = true ->
  In row (mockRows (state_of (startAnalysis E input st))) ->
  map fst (scores row) = CATEGORY_KEYS /\
  (forall k v, In (k, v) (scores row) -> exists q, v = JS.Fin q /\ 0 <= q <= 1) /\
  obj_get (category row) (scores row) = Some (topScore row) /\
  (forall k v, In (k, v) (scores row) -> num_le v (topScore row)) /\
  (exportStatus row = success \/ exportStatus row = error).
Proof.
  intros HE Hm Hin.
  apply In_nth_error in Hin. destruct Hin as [j Hj].
  destruct (startAnalysis_rows E input st Hm) as [_ Hall].
  specialize (Hall j row Hj).
  destruct (generated_scores E _ _ _ row HE Hall) as [Hkeys Hvals].
  destruct Hall as (_ & _ & _ & _ & Hcat & Htop & Hexp & _).
  assert (Hnan : Forall (fun e => snd e <> JS.NaN) (scores row)).
  { eapply Forall_impl; [|exact Hvals]. cbn. intros e (x & _ & ->). discriminate. }
  destruct (deriveCategory_holds_max (scores row) Hkeys Hnan) as [Hget Hmax].
  assert (Htop' : topScore row = JS.max_list (Object_values (scores row))).
  { rewrite Htop.
    apply obj_get_In in Hget.
    rewrite Forall_forall in Hvals. destruct (Hvals _ Hget) as (x & Hx & Hv).
    cbn [snd] in Hv. rewrite Hv. cbn [JS.toFixed].
    now rewrite toFixedQ_idempotent. }
  split; [exact Hkeys|]. split.
  - intros k v Hkv. rewrite Forall_forall in Hvals.
    destruct (Hvals _ Hkv) as (x & Hx & Hv). cbn [snd] in Hv.
    eexists. split; [exact Hv|]. now apply toFixedQ_unit_range.
  - split; [rewrite Htop', Hcat; exact Hget|].
    split; [intros k v Hkv; rewrite Htop'; now apply (Hmax k)|].
    rewrite Hexp. destruct (negb _); [right|left]; reflexivity.
Qed.

Lemma mock_rows_consistent_witness :
  let rows := mockRows (state_of (startAnalysis sample_env sample_input (initial_api false))) in
  let row := nth 0 rows (sample_row "none" other pending) in
  map fst (scores row) = CATEGORY_KEYS /\
  (forall k v, In (k, v) (scores row) -> exists q, v = JS.Fin q /\ 0 <= q <= 1) /\
  obj_get (category row) (scores row) = Some (topScore row) /\
  (forall k v, In (k, v) (scores row) -> num_le v (topScore row)) /\
  (exportStatus row = success \/ exportStatus row = error).
Proof.
  cbv zeta.
  apply (mock_rows_consistent sample_env sample_input (initial_api false)).
  - intros k. cbn. split; [discriminate|reflexivity].
  - reflexivity.
  - apply nth_In. vm_compute. lia.
Defined.

(** ** Looking photos up *)

Lemma find_by_id_unique (rows : list PhotoRow) (row : PhotoRow) :
  NoDup (map id rows) ->
  In row rows ->
  find (fun r => String.eqb (id r) (id row)) rows = Some row.
Proof.
  induction rows as [|r rows IH]; intros Hnd Hin; [contradiction|].
  inversion Hnd as [|? ? Hnotin Hnd']; subst. cbn [find].
  destruct Hin as [->|Hin].
  - now rewrite String.eqb_refl.
  - destruct (String.eqb (id r) (id row)) eqn:He.
    + apply String.eqb_eq in He. exfalso. apply Hnotin. rewrite He.
      now apply in_map.
    + now apply IH.
Qed.

Lemma find_by_id_none (rows : list PhotoRow) (id_ : string) :
  find (fun r => String.eqb (id r) id_) rows = None <->
  forall row, In row rows -> id row <> id_.
Proof.
  split.
  - intros H row Hin Heq.
    apply (find_none _ _ H) in Hin. cbn in Hin.
    rewrite Heq, String.eqb_refl in Hin. discriminate.
  - intros H. destruct (find _ rows) as [r|] eqn:Hf; [|reflexivity].
    apply find_some in Hf. destruct Hf as [Hin He]. cbn in He.
    apply String.eqb_eq in He. exfalso. exact (H r Hin He).
Qed.

(** X2.  In the mock, [getPhotoDetail] changes and publishes nothing; it
    throws exactly when no listed row carries the id; and when the ids of
    the listed rows are pairwise distinct, asking for the id of a listed
    row returns that row. *)
Theorem getPhotoDetail_lookup (C : Commands) (st : Api) (id_ : string) :
  useMock st = true ->
  listPhotos C st = (Some (mockRows st), st, []) /\
  state_of (getPhotoDetail C id_ st) = st /\
  output_of (getPhotoDetail C id_ st) = [] /\
  (value_of (getPhotoDetail C id_ st) = None <->
   forall row, In row (mockRows st) -> id row <> id_) /\
  (NoDup (map id (mockRows st)) ->
   forall row, In row (mockRows st) ->
     value_of (getPhotoDetail C (id row) st) =
       Some {| detail_row := row; caption := None; textInImage := None;
               analysisLog := None |}).
Proof.
  intros Hm.
  split; [unfold listPhotos, bind, get; now rewrite Hm|].
  assert (Hget : forall i,
            getPhotoDetail C i st =
            match find (fun r => String.eqb (id r) i) (mockRows st) with
            | Some found =>
                (Some {| detail_row := found; caption := None; textInImage := None;
                         analysisLog := None |}, st, [])
            | None => (None, st, [])
            end).
  { intros i. unfold getPhotoDetail, bind, get. rewrite Hm.
    destruct (find _ (mockRows st)); reflexivity. }
  rewrite Hget.
  split; [destruct (find _ (mockRows st)); reflexivity|].
  split; [destruct (find _ (mockRows st)); reflexivity|].
  split.
  - rewrite <- find_by_id_none.
    destruct (find _ (mockRows st)); cbn; split; congruence.
  - intros Hnd row Hin. rewrite Hget, (find_by_id_unique _ row Hnd Hin). reflexivity.
Qed.

Lemma getPhotoDetail_lookup_witness :
  listPhotos (mkCommands true None (fun _ => None) None None) five_rows_job =
    (Some five_rows, five_rows_job, []) /\
  value_of (getPhotoDetail (mkCommands true None (fun _ => None) None None)
              "c.jpg" five_rows_job) =
    Some {| detail_row := sample_row "c.jpg" other error; caption := None;
            textInImage := None; analysisLog := None |} /\
  value_of (getPhotoDetail (mkCommands true None (fun _ => None) None None)
              "z.jpg" five_rows_job) = None.
Proof.
  destruct (getPhotoDetail_lookup (mkCommands true None (fun _ => None) None None)
              five_rows_job "z.jpg" eq_refl) as (A & _ & _ & B & D).
  split; [exact A|]. split.
  - apply (D ltac:(repeat constructor; cbn; intuition discriminate)
             (sample_row "c.jpg" other error)).
    cbn. tauto.
  - apply B. intros row Hin. cbn in Hin.
    decompose [or] Hin; subst; try contradiction; discriminate.
Defined.

(** The ids of the rows of a started job are the UUIDs drawn after the
    job id, one per row. *)
Lemma started_rows_ids (E : Env) (input : StartAnalysisInput) (st : Api) :
  useMock st = true ->
  let rows := mockRows (state_of (startAnalysis E input st)) in
  map id rows = map (crypto_randomUUID E) (seq (S (uuid_calls st)) (List.length rows)).
Proof.
  intros Hm rows.
  destruct (startAnalysis_rows E input st Hm) as [_ Hall]. fold rows in Hall.
  apply nth_error_ext. intros j.
  rewrite !nth_error_map.
  destruct (nth_error rows j) as [row|] eqn:Hj; cbn [option_map].
  - destruct (Hall j row Hj) as (Hid & _).
    assert (Hlt : (j < List.length rows)%nat) by (apply nth_error_Some; congruence).
    rewrite nth_error_seq. 
    destruct (Nat.ltb_spec j (List.length rows)); [|lia].
    cbn [option_map]. now rewrite Hid.
  - apply nth_error_None in Hj. rewrite nth_error_seq.
    destruct (Nat.ltb_spec j (List.length rows)); [lia|reflexivity].
Qed.

Lemma NoDup_map_injective {A B} (f : A -> B) (l : list A) :
  (forall a b, f a = f b -> a = b) -> NoDup l -> NoDup (map f l).
Proof.
  intros Hinj Hnd. induction Hnd as [|x l Hnotin Hnd IH]; cbn; constructor.
  - intros Hin. apply in_map_iff in Hin. destruct Hin as (y & Hy & Hin).
    apply Hinj in Hy. now subst.
  - exact IH.
Qed.

(** X3.  When [crypto.randomUUID()] never repeats itself, every row of a job
    that the mock has started is found again under its id, and no row
    has the id of the job. *)
Theorem started_rows_lookup (E : Env) (C : Commands) (input : StartAnalysisInput)
  (st : Api) (row : PhotoRow) :
  useMock st = true ->
  (forall a b, crypto_randomUUID E a = crypto_randomUUID E b -> a = b) ->
  let started := startAnalysis E input st in
  In row (mockRows (state_of started)) ->
  getPhotoDetail C (id row) (state_of started) =
    (Some {| detail_row := row; caption := None; textInImage := None;
             analysisLog := None |}, state_of started, []) /\
  Some {| res_jobId := id row |} <> value_of started.
Proof.
  intros Hm Hinj started Hin.
  pose proof (started_rows_ids E input st Hm) as Hids. cbv zeta in Hids.
  fold started in Hids.
  destruct (startAnalysis_mock E input st Hm) as (st1 & H & Hm1 & _).
  assert (Hval : value_of started =
                 Some {| res_jobId := crypto_randomUUID E (uuid_calls st) |})
    by (unfold started; now rewrite H).
  assert (Hmock : useMock (state_of started) = true)
    by (unfold started; now rewrite H).
  clearbody started. clear H.
  assert (Hnd : NoDup (map id (mockRows (state_of started)))).
  { rewrite Hids. apply NoDup_map_injective; [exact Hinj|apply seq_NoDup]. }
  split.
  - unfold getPhotoDetail, bind, get. rewrite Hmock.
    rewrite (find_by_id_unique _ row Hnd Hin). reflexivity.
  - rewrite Hval. intros Heq. injection Heq as Heq.
    apply (in_map id) in Hin. rewrite Hids in Hin.
    apply in_map_iff in Hin. destruct Hin as (k & Hk & Hseq).
    rewrite <- Hk in Heq. apply Hinj in Heq.
    apply in_seq in Hseq. lia.
Qed.

Lemma String_of_nat_injective (a b : nat) : String_of_nat a = String_of_nat b -> a = b.
Proof.
  unfold String_of_nat. intros H.
  assert (Hnn : forall n, Nat.to_uint n <> Decimal.Nil).
  { intros n. rewrite <- (Unsigned.of_to n) at 1. rewrite Unsigned.to_of.
    apply unorm_nonnil. }
  apply (f_equal NilZero.uint_of_string) in H.
  rewrite !NilZero.usu in H by apply Hnn.
  injection H as H. now apply Unsigned.to_uint_inj.
Qed.

Lemma started_rows_lookup_witness :
  let started := startAnalysis sample_env sample_input (initial_api false) in
  let row := nth 2 (mockRows (state_of started)) (sample_row "none" other pending) in
  getPhotoDetail (mkCommands true None (fun _ => None) None None) (id row)
                 (state_of started) =
    (Some {| detail_row := row; caption := None; textInImage := None;
             analysisLog := None |}, state_of started, []) /\
  Some {| res_jobId := id row |} <> value_of started.
Proof.
  cbv zeta.
  apply (started_rows_lookup sample_env (mkCommands true None (fun _ => None) None None)
           sample_input (initial_api false)).
  - reflexivity.
  - intros a b H. cbn in H. injection H as H. now apply String_of_nat_injective.
  - apply nth_In. vm_compute. lia.
Defined.

(** ** Clearing the results *)

(** X4.  In the mock, [clearResults] empties the row list and nothing else:
    the progress, the job id, the settings and the timers stay; from
    then on [listPhotos] returns no row, [getDistribution] returns 0
    under every key in both modes, and [getPhotoDetail] throws for every
    id. *)
Theorem clearResults_empties (E : Env) (C : Commands) (st : Api) :
  useMock st = true ->
  let cleared := state_of (clearResults C st) in
  clearResults C st = (Some tt, set_mockRows [] st, []) /\
  mockProgress cleared = mockProgress st /\
  mockJobId cleared = mockJobId st /\
  intervals cleared = intervals st /\
  settings cleared = settings st /\
  listPhotos C cleared = (Some [], cleared, []) /\
  (forall m : Mode,
     getDistribution E m cleared =
       (Some {| mode := m; byCategory := dist_of (fun _ => JS.Fin 0) |}, cleared, [])) /\
  (forall id_ : string, value_of (getPhotoDetail C id_ cleared) = None).
Proof.
  intros Hm. cbv zeta.
  assert (Hc : clearResults C st = (Some tt, set_mockRows [] st, [])).
  { unfold clearResults, bind, get, modify. now rewrite Hm. }
  rewrite Hc. cbn [state_of fst snd].
  split; [reflexivity|]. repeat (split; [reflexivity|]).
  split; [unfold listPhotos, bind, get; cbn; now rewrite Hm|].
  split.
  - intros m. unfold getDistribution, bind, get. cbn. rewrite Hm.
    destruct m; reflexivity.
  - intros id_. unfold getPhotoDetail, bind, get. cbn. now rewrite Hm.
Qed.

Lemma clearResults_empties_witness :
  let C := mkCommands true None (fun _ => None) None None in
  let cleared := state_of (clearResults C five_rows_job) in
  clearResults C five_rows_job = (Some tt, set_mockRows [] five_rows_job, []) /\
  mockProgress cleared = mockProgress five_rows_job /\
  listPhotos C cleared = (Some [], cleared, []) /\
  value_of (getPhotoDetail C "a.jpg" cleared) = None.
Proof.
  cbv zeta.
  destruct (clearResults_empties sample_env (mkCommands true None (fun _ => None) None None)
              five_rows_job eq_refl) as (A & B & _ & _ & _ & D & _ & F).
  split; [exact A|]. split; [exact B|]. split; [exact D|]. apply F.
Defined.

(** ** [getDistribution] in mode [avg_score] *)







(** ** The mock job: duration, completion and cancellation *)

(** What a tick of a running job publishes: the progress with the new
    counters and the name of the last row of the slice, still running,
    and after it, when the last row is reached, the completed progress
    without a current file. *)
Lemma tick_running_output (E : Env) (st : Api) :
  status (mockProgress st) = running ->
  (0 < intervals st)%nat ->
  let next :=
    Z.min (processed (mockProgress st) + step_at E (random_calls st))
          (total (mockProgress st)) in
  let slice := Array_slice (mockRows st) (processed (mockProgress st)) next in
  let p1 :=
    {| jobId := jobId (mockProgress st); status := running;
       currentFile :=
         match List.length slice with
         | O => None
         | S n => option_map fileName (nth_error slice n)
         end;
       processed := next; total := total (mockProgress st);
       errors := (errors (mockProgress st)
                  + Z.of_nat (List.length (filter is_error slice)))%Z |} in
  let p2 :=
    {| jobId := jobId p1; status := completed; currentFile := None;
       processed := processed p1; total := total p1; errors := errors p1 |} in
  output_of (interval_fires E st) =
    if (total (mockProgress st) <=? next)%Z then [p1; p2] else [p1].
Proof.
  intros Hrun Hint next slice p1 p2.
  unfold interval_fires. unfold bind at 1. unfold get at 1.
  destruct (intervals st) as [|k] eqn:Hk; [lia|].
  unfold interval_callback. unfold bind at 1. unfold get at 1.
  rewrite Hrun. cbn [Status_eqb negb].
  unfold bind at 1. unfold random at 1. fold (step_at E (random_calls st)).
  fold next. fold slice.
  unfold bind at 1. unfold emitProgress at 1.
  cbn [mockProgress set_random_calls set_mockProgress].
  unfold bind at 1. unfold get at 1.
  cbn [mockProgress set_mockProgress total spread or_keep p_total].
  assert (Hp1 : spread (mockProgress st)
                  {| p_jobId := None; p_status := None;
                     p_currentFile :=
                       Some match List.length slice with
                            | O => None
                            | S n => option_map fileName (nth_error slice n)
                            end;
                     p_processed := Some next; p_total := None;
                     p_errors :=
                       Some (errors (mockProgress st)
                             + Z.of_nat (List.length (filter is_error slice)))%Z |} = p1).
  { unfold spread, p1. cbn. now rewrite Hrun. }
  rewrite Hp1.
  destruct (total (mockProgress st) <=? next)%Z.
  - unfold bind, emitProgress, clearInterval, modify. cbn. reflexivity.
  - unfold ret. cbn. reflexivity.
Qed.

(** A tick of a job that is not running changes nothing but the number
    of timers, which goes down by one, and publishes nothing. *)
Lemma tick_stopped_exact (E : Env) (st : Api) :
  status (mockProgress st) <> running ->
  interval_fires E st = (Some tt, set_intervals (pred (intervals st)) st, []).
Proof.
  intros Hs. unfold interval_fires. unfold bind at 1. unfold get at 1.
  destruct (intervals st) as [|k] eqn:Hk.
  - unfold ret. cbn. f_equal. f_equal. destruct st; cbn in *. now subst.
  - unfold interval_callback. unfold bind at 1. unfold get at 1.
    destruct (Status_eqb (status (mockProgress st)) running) eqn:Hq.
    + apply Status_eqb_eq in Hq. contradiction.
    + cbn [negb]. unfold clearInterval, modify. cbn. now rewrite Hk.
Qed.

Lemma ticks_after_stop (E : Env) (n : nat) :
  forall st : Api,
    status (mockProgress st) <> running ->
    run E (repeat Tick n) st = (Some tt, set_intervals (intervals st - n) st, []).
Proof.
  induction n as [|n IH]; intros st Hs.
  - cbn. unfold ret. f_equal. f_equal. rewrite Nat.sub_0_r. destruct st; reflexivity.
  - cbn [repeat run handle]. unfold bind.
    rewrite (tick_stopped_exact E st Hs).
    rewrite IH by exact Hs. cbn [app].
    apply (f_equal (fun s => (Some tt, s, @nil Progress))).
    unfold set_intervals. cbn. f_equal. lia.
Qed.

(** X6.  Once a job is not running any more (completed, canceled), timer
    ticks publish nothing and change neither the progress nor the rows:
    each tick only stops one timer, until none is left.  So
    [cancelAnalysis] with the id of the live job followed by any number
    of ticks publishes the canceled progress once and nothing else, and
    the counters stay where they were. *)
Theorem stopped_job_stays (E : Env) (st : Api) (j : string) (n : nat) :
  (status (mockProgress st) <> running ->
   run E (repeat Tick n) st = (Some tt, set_intervals (intervals st - n) st, [])) /\
  (useMock st = true ->
   mockJobId st = Some j ->
   let p :=
     {| jobId := jobId (mockProgress st); status := canceled;
        currentFile := currentFile (mockProgress st);
        processed := processed (mockProgress st);
        total := total (mockProgress st);
        errors := errors (mockProgress st) |} in
   run E (Cancel j :: repeat Tick n) st =
     (Some tt, set_intervals (intervals st - n) (set_mockProgress p st), [p])).
Proof.
  split; [apply ticks_after_stop|].
  intros Hm Hj p. cbn [run handle]. unfold bind.
  rewrite (cancelAnalysis_spec j st Hm). rewrite Hj.
  cbn [option_string_eqb]. rewrite String.eqb_refl.
  change (spread (mockProgress st)
            {| p_jobId := None; p_status := Some canceled; p_currentFile := None;
               p_processed := None; p_total := None; p_errors := None |}) with p.
  rewrite ticks_after_stop by (cbn; discriminate).
  reflexivity.
Qed.

Lemma stopped_job_stays_witness :
  let p :=
    {| jobId := "job-0"; status := canceled; currentFile := None;
       processed := 0; total := 5; errors := 0 |} in
  run sample_env (Cancel "job-0" :: repeat Tick 3) five_rows_job =
    (Some tt, set_intervals 0 (set_mockProgress p five_rows_job), [p]) /\
  run sample_env (repeat Tick 2) (set_mockProgress p five_rows_job) =
    (Some tt, set_intervals 0 (set_mockProgress p five_rows_job), []).
Proof.
  cbv zeta. split.
  - apply (stopped_job_stays sample_env five_rows_job "job-0" 3); reflexivity.
  - apply (stopped_job_stays sample_env
             (set_mockProgress
                {| jobId := "job-0"; status := canceled; currentFile := None;
                   processed := 0; total := 5; errors := 0 |} five_rows_job)
             "job-0" 2).
    discriminate.
Defined.


(** The last element of a non-empty slice inside the array is the
    element before the end bound. *)
Lemma Array_slice_last {A} (xs : list A) (a b : Z) :
  (0 <= a < b)%Z -> (b <= Z.of_nat (List.length xs))%Z ->
  match List.length (Array_slice xs a b) with
  | O => None
  | S n => nth_error (Array_slice xs a b) n
  end = nth_error xs (Z.to_nat (b - 1)) /\
  nth_error xs (Z.to_nat (b - 1)) <> None.
Proof.
  intros Hab Hb. unfold Array_slice, slice_bound.
  destruct (Z.ltb_spec a 0); [lia|]. destruct (Z.ltb_spec b 0); [lia|].
  rewrite !Z.min_l by lia.
  rewrite length_firstn, length_skipn.
  replace (Nat.min (Z.to_nat (b - a)) (List.length xs - Z.to_nat a))
    with (S (Z.to_nat (b - a - 1))) by lia.
  rewrite nth_error_firstn.
  destruct (Nat.ltb_spec (Z.to_nat (b - a - 1)) (Z.to_nat (b - a))); [|lia].
  rewrite nth_error_skipn.
  replace (Z.to_nat a + Z.to_nat (b - a - 1))%nat with (Z.to_nat (b - 1)) by lia.
  split; [reflexivity|]. apply nth_error_Some. lia.
Qed.

Lemma steps_sum_nonneg (E : Env) (n : nat) :
  random_in_range E -> forall k, (0 <= steps_sum E k n)%Z.
Proof.
  intros HE k. pose proof (steps_sum_lower E n HE k). lia.
Qed.

(** The ticks of a running job with rows left: the job completes with
    the tick at which the steps reach [total], the completed object is
    published then and only then, and every object names the last row
    processed. *)
Lemma ticks_from_running (E : Env) (n : nat) :
  random_in_range E ->
  forall st : Api,
    status (mockProgress st) = running ->
    (0 < intervals st)%nat ->
    (0 <= processed (mockProgress st) < total (mockProgress st))%Z ->
    total (mockProgress st) = Z.of_nat (List.length (mockRows st)) ->
    errors (mockProgress st) = errors_among (processed (mockProgress st)) (mockRows st) ->
    let r := run E (repeat Tick n) st in
    let done :=
      (total (mockProgress st) <=?
         processed (mockProgress st) + steps_sum E (random_calls st) n)%Z in
    status (mockProgress (state_of r)) = (if done then completed else running) /\
    count_status completed (output_of r) = (if done then 1 else 0)%nat /\
    Forall (names_last_row (mockRows st)) (output_of r) /\
    Forall (fun p => total p = total (mockProgress st) /\
                     errors p = errors_among (processed p) (mockRows st))
           (output_of r).
Proof.
  intros HE. induction n as [|n IH]; intros st Hrun Hint Hinv Htot Herr; cbv zeta.
  - cbn [repeat run steps_sum]. unfold ret. cbn [state_of output_of fst snd].
    destruct (Z.leb_spec (total (mockProgress st)) (processed (mockProgress st) + 0));
      [lia|].
    split; [exact Hrun|]. split; [reflexivity|split; constructor].
  - cbn [repeat steps_sum].
    pose proof (step_at_range E (random_calls st) HE) as Hstep.
    pose proof (steps_sum_nonneg E n HE (S (random_calls st))) as Hsum.
    destruct (tick_running E st Hrun Hint)
      as (st1 & out & H & _ & _ & Hrows & Hk & _ & Hp & Ht & He & Hs & Hi & _ & _).
    pose proof (tick_running_output E st Hrun Hint) as Hout.
    cbv zeta in Hout. rewrite H in Hout. cbn [output_of snd] in Hout.
    destruct (run_cons E Tick (repeat Tick n) st st1 out H) as [-> ->].
    set (next := Z.min (processed (mockProgress st) + step_at E (random_calls st))
                       (total (mockProgress st))) in *.
    assert (Hfile :
      exists row,
        nth_error (mockRows st) (Z.to_nat (next - 1)) = Some row /\
        match List.length (Array_slice (mockRows st) (processed (mockProgress st)) next) with
        | O => None
        | S m =>
            option_map fileName
              (nth_error (Array_slice (mockRows st) (processed (mockProgress st)) next) m)
        end = Some (fileName row)).
    { destruct (Array_slice_last (mockRows st) (processed (mockProgress st)) next)
        as [Hlast Hsome]; [lia|lia|].
      destruct (nth_error (mockRows st) (Z.to_nat (next - 1))) as [row|] eqn:Hrow;
        [|congruence].
      exists row. split; [reflexivity|].
      destruct (List.length (Array_slice (mockRows st) (processed (mockProgress st)) next));
        [discriminate|].
      now rewrite Hlast. }
    destruct Hfile as (row & Hrow & Hcur).
    assert (Hp1 : forall p,
              status p = running -> processed p = next ->
              total p = total (mockProgress st) ->
              currentFile p = Some (fileName row) ->
              names_last_row (mockRows st) p).
    { intros p A B C D. unfold names_last_row. rewrite A, B, C.
      split; [reflexivity|]. split; [lia|]. exists row. split; assumption. }
    assert (Herr1 :
      (errors (mockProgress st)
       + Z.of_nat (List.length
           (filter is_error
              (Array_slice (mockRows st) (processed (mockProgress st)) next))))%Z
      = errors_among next (mockRows st)).
    { rewrite Herr. symmetry. apply errors_among_extends; lia. }
    destruct (Z.leb_spec (total (mockProgress st)) next) as [Hdone|Hmore].
    + rewrite ticks_after_stop by (rewrite Hs; discriminate).
      cbn [state_of output_of fst snd]. rewrite List.app_nil_r.
      destruct (Z.leb_spec (total (mockProgress st))
                  (processed (mockProgress st)
                   + (step_at E (random_calls st) + steps_sum E (S (random_calls st)) n)));
        [|lia].
      split; [exact Hs|]. subst out.
      split; [reflexivity|]. split.
      * constructor; [apply Hp1; try reflexivity; exact Hcur|].
        constructor; [|constructor].
        unfold names_last_row. cbn [status currentFile processed total].
        split; [reflexivity|lia].
      * repeat constructor; cbn [errors processed]; exact Herr1.
    + destruct (IH st1) as (A & B & C & D).
      * exact Hs.
      * rewrite Hi. exact Hint.
      * rewrite Hp, Ht. lia.
      * rewrite Ht, Hrows. exact Htot.
      * rewrite He, Hp, Hrows. exact Herr1.
      * rewrite Hp, Ht, Hk, Hrows in *.
        replace (next + steps_sum E (S (random_calls st)) n)%Z
          with (processed (mockProgress st)
                + (step_at E (random_calls st) + steps_sum E (S (random_calls st)) n))%Z
          in * by lia.
        split; [exact A|]. subst out.
        split; [|split].
        -- unfold count_status in *. rewrite filter_app, length_app. cbn. exact B.
        -- constructor; [apply Hp1; try reflexivity; exact Hcur|exact C].
        -- constructor; [|exact D]. cbn [total errors processed].
           split; [reflexivity|exact Herr1].
Qed.

(** A job that the mock has started, as [ticks_from_running] needs it. *)
Lemma started_job_running (E : Env) (input : StartAnalysisInput) (st : Api) :
  random_in_range E ->
  useMock st = true ->
  let st1 := state_of (startAnalysis E input st) in
  status (mockProgress st1) = running /\
  (0 < intervals st1)%nat /\
  processed (mockProgress st1) = 0%Z /\
  (200 <= total (mockProgress st1) < 500)%Z /\
  total (mockProgress st1) = Z.of_nat (List.length (mockRows st1)) /\
  errors (mockProgress st1) = errors_among 0 (mockRows st1).
Proof.
  intros HE Hm. cbv zeta.
  destruct (startAnalysis_mock E input st Hm)
    as (st1 & H & _ & _ & Hp & Hi & _ & Hl & _).
  rewrite H. cbn [state_of fst snd].
  pose proof (floor_count_range _ (HE (random_calls st))) as Hcount.
  rewrite Hp, Hi, Hl. cbn [status processed total errors].
  repeat split; try lia.
Qed.



(** X8.  In the mock, every progress object that the timer of a started job
    publishes while the job runs names as current file the row that was
    processed last, [photo_] followed by the value of [processed] padded
    to four digits; the completed object names no file and has
    [processed] equal to [total]. *)
Theorem mock_current_file (E : Env) (input : StartAnalysisInput) (st : Api) (n : nat) :
  random_in_range E ->
  useMock st = true ->
  let st1 := state_of (startAnalysis E input st) in
  Forall
    (fun p =>
       match status p with
       | completed => currentFile p = None /\ processed p = total p
       | _ =>
           status p = running /\ (0 < processed p <= total p)%Z /\
           currentFile p =
             Some ("photo_" ++ padStart (String_of_nat (Z.to_nat (processed p))) 4 "0"
                   ++ ".jpg")%string
       end)
    (output_of (run E (repeat Tick n) st1)).
Proof.
  intros HE Hm. cbv zeta.
  destruct (started_job_running E input st HE Hm)
    as (Hrun & Hint & Hp & Hcount & Htot & Herr).
  destruct (startAnalysis_rows E input st Hm) as [_ Hrows]. cbv zeta in Hrows.
  set (st1 := state_of (startAnalysis E input st)) in *.
  rewrite <- Hp in Herr.
  destruct (ticks_from_running E n HE st1 Hrun Hint ltac:(lia) Htot Herr) as (_ & _ & C & _).
  eapply Forall_impl; [|exact C].
  intros p Hnames. unfold names_last_row in Hnames.
  destruct (status p) eqn:Hs; try exact Hnames;
    destruct Hnames as (A & B & row & Hrow & Hcur); try discriminate.
  split; [reflexivity|]. split; [exact B|].
  rewrite Hcur. destruct (Hrows _ _ Hrow) as (_ & Hname & _).
  rewrite Hname.
  replace (Z.to_nat (processed p - 1) + 1)%nat with (Z.to_nat (processed p)) by lia.
  reflexivity.
Qed.

Lemma mock_current_file_witness :
  let st1 := state_of (startAnalysis sample_env sample_input (initial_api false)) in
  Forall
    (fun p =>
       match status p with
       | completed => currentFile p = None /\ processed p = total p
       | _ =>
           status p = running /\ (0 < processed p <= total p)%Z /\
           currentFile p =
             Some ("photo_" ++ padStart (String_of_nat (Z.to_nat (processed p))) 4 "0"
                   ++ ".jpg")%string
       end)
    (output_of (run sample_env (repeat Tick 3) st1)).
Proof.
  apply (mock_current_file sample_env sample_input (initial_api false) 3).
  - intros k. cbn. split; [discriminate|reflexivity].
  - reflexivity.
Defined.

(** ** [getSettings] when the back end fails *)

(** X9.  Outside the mock, when the command behind [getSettings] fails, the
    call still answers, with the settings the module holds, and the
    module turns into the mock for good: from then on [setSettings]
    resolves whatever the back end would say, and [startAnalysis] starts
    a mock job, under the next UUID, without reaching the back end. *)
Theorem getSettings_falls_back_to_mock (E : Env) (input : StartAnalysisInput)
  (next : Settings) (st : Api) :
  useMock st = false ->
  invoke_get_settings E = None ->
  let r := getSettings E st in
  r = (Some (settings st), set_useMock true st, []) /\
  setSettings E next (state_of r) =
    (Some tt, set_settings next (set_useMock true st), []) /\
  value_of (startAnalysis E input (state_of r)) =
    Some {| res_jobId := crypto_randomUUID E (uuid_calls st) |} /\
  useMock (state_of (startAnalysis E input (state_of r))) = true /\
  status (mockProgress (state_of (startAnalysis E input (state_of r)))) = running.
Proof.
  intros Hm Hget. cbv zeta.
  assert (Hr : getSettings E st = (Some (settings st), set_useMock true st, [])).
  { unfold getSettings, bind, get, try_catch. cbn. rewrite Hm, Hget. reflexivity. }
  rewrite Hr. cbn [state_of fst snd].
  split; [reflexivity|]. split; [reflexivity|].
  destruct (startAnalysis_mock E input (set_useMock true st) eq_refl)
    as (st1 & H & Hm1 & _ & Hp & _).
  rewrite H. cbn [value_of state_of fst snd].
  split; [reflexivity|]. split; [exact Hm1|]. now rewrite Hp.
Qed.

Lemma getSettings_falls_back_to_mock_witness :
  let r := getSettings sample_env (initial_api true) in
  r = (Some DEFAULT_SETTINGS, set_useMock true (initial_api true), []) /\
  setSettings sample_env DEFAULT_SETTINGS (state_of r) =
    (Some tt, set_settings DEFAULT_SETTINGS (set_useMock true (initial_api true)), []) /\
  value_of (startAnalysis sample_env sample_input (state_of r)) =
    Some {| res_jobId := "job-0" |} /\
  useMock (state_of (startAnalysis sample_env sample_input (state_of r))) = true /\
  status (mockProgress (state_of (startAnalysis sample_env sample_input (state_of r))))
    = running.
Proof.
  apply (getSettings_falls_back_to_mock sample_env sample_input DEFAULT_SETTINGS
           (initial_api true)); reflexivity.
Defined.

(** ** The source and export roots *)

Lemma string_app_assoc (a b c : string) :
  ((a ++ b) ++ c = a ++ (b ++ c))%string.
Proof. induction a as [|x a IH]; cbn; [reflexivity|now rewrite IH]. Qed.

Lemma string_app_nil_r (a : string) : (a ++ "")%string = a.
Proof. induction a as [|x a IH]; cbn; [reflexivity|now rewrite IH]. Qed.

Lemma string_rev_onto_app (v w acc : string) :
  string_rev_onto (v ++ w)%string acc = string_rev_onto w (string_rev_onto v acc).
Proof.
  revert acc. induction v as [|x v IH]; intros acc; cbn; [reflexivity|apply IH].
Qed.

Lemma string_rev_onto_twice (w a b : string) :
  string_rev_onto (string_rev_onto w a) b = string_rev_onto a (w ++ b)%string.
Proof.
  revert a b. induction w as [|x w IH]; intros a b; cbn; [reflexivity|].
  rewrite IH. reflexivity.
Qed.

Lemma string_rev_involutive (s : string) : string_rev (string_rev s) = s.
Proof.
  unfold string_rev. rewrite string_rev_onto_twice. cbn. apply string_app_nil_r.
Qed.

Lemma drop_slashes_rev_slashes (n : nat) (acc : string) :
  drop_slashes (string_rev_onto (repeat_string n "/") acc) = drop_slashes acc.
Proof.
  revert acc. induction n as [|n IH]; intros acc; cbn; [reflexivity|].
  rewrite IH. reflexivity.
Qed.

(** What the replacement removes: the slashes after the last character
    that is not a slash, and everything of a string of slashes. *)
Lemma strip_trailing_slashes_spec (w : string) (c : ascii) (n : nat) :
  c <> "/"%char ->
  strip_trailing_slashes (w ++ String c "" ++ repeat_string n "/")%string
    = (w ++ String c "")%string /\
  strip_trailing_slashes (repeat_string n "/") = ""%string.
Proof.
  intros Hc. unfold strip_trailing_slashes, string_rev. split.
  - rewrite <- string_app_assoc, string_rev_onto_app, drop_slashes_rev_slashes.
    rewrite string_rev_onto_app. cbn [string_rev_onto drop_slashes].
    destruct (Ascii.eqb_spec c "/"); [contradiction|].
    change (String c (string_rev_onto w "")) with (string_rev_onto (String c "") (string_rev_onto w "")).
    rewrite <- string_rev_onto_app.
    apply string_rev_involutive.
  - rewrite drop_slashes_rev_slashes. reflexivity.
Qed.

(** X10.  While the export root has not been typed by hand it follows the
    source root: the source root without the slashes that end it,
    followed by the folder [/분류됨]; a source root made of slashes only
    (or empty) gives the empty export root.  The source root itself is
    kept as typed. *)
Theorem export_root_follows_source (w : string) (c : ascii) (n : nat) (s : Store) :
  exportManuallySet s = false ->
  c <> "/"%char ->
  let typed := (w ++ String c "" ++ repeat_string n "/")%string in
  updateSourceRoot typed s =
    set_roots typed (w ++ String c "" ++ "/" ++ sorted_folder)%string false s /\
  updateSourceRoot (repeat_string n "/") s = set_roots (repeat_string n "/") "" false s.
Proof.
  intros Hm Hc. cbv zeta.
  destruct (strip_trailing_slashes_spec w c n Hc) as [H1 H2].
  unfold updateSourceRoot. rewrite Hm, H1, H2. cbn [string_truthy].
  split; [|reflexivity].
  replace (string_truthy (w ++ String c "")) with true
    by (destruct w; reflexivity).
  rewrite string_app_assoc. reflexivity.
Qed.

Lemma export_root_follows_source_witness :
  updateSourceRoot "/home/me/photos//" initial_store =
    set_roots "/home/me/photos//" "/home/me/photos/분류됨" false initial_store /\
  updateSourceRoot "//" initial_store = set_roots "//" "" false initial_store.
Proof.
  apply (export_root_follows_source "/home/me/photo" "s" 2 initial_store).
  - reflexivity.
  - discriminate.
Defined.





(** ** [saveSettings]: the image size and quality, and saving again *)

(** A clamp [Math.min(hi, Math.max(lo, Math.floor(x || 0)))] on every
    number. *)
Lemma clamp_floor_spec (lo hi : Z) (x : JS.number) :
  (0 <= lo <= hi)%Z ->
  exists n : Z,
    JS.min (JS.Fin (inject_Z hi))
      (JS.max (JS.Fin (inject_Z lo)) (JS.floor (JS.or_else x (JS.Fin 0))))
      = JS.Fin (inject_Z n) /\
    (lo <= n <= hi)%Z /\
    match x with
    | JS.Fin q => n = Z.min hi (Z.max lo (Qfloor q))
    | JS.PosInf => n = hi
    | JS.NegInf | JS.NaN => n = lo
    end.
Proof.
  intros Hr. destruct x as [q| | |].
  - exists (Z.min hi (Z.max lo (Qfloor q))).
    split; [|split; [lia|reflexivity]].
    unfold JS.or_else, JS.truthy.
    destruct (Qeq_bool q 0) eqn:Hq; cbn [negb JS.floor].
    + apply Qeq_bool_iff in Hq. rewrite (Qfloor_comp q 0 Hq).
      rewrite max_inject_Z, min_inject_Z. reflexivity.
    + rewrite max_inject_Z, min_inject_Z. reflexivity.
  - exists hi. split; [reflexivity|]. split; [lia|reflexivity].
  - exists lo. split; [|split; [lia|reflexivity]].
    cbn [JS.or_else JS.truthy JS.floor JS.max JS.gt].
    rewrite min_inject_Z. f_equal. f_equal. lia.
  - exists lo. split; [|split; [lia|reflexivity]].
    cbn [JS.or_else JS.truthy JS.floor].
    change (Qfloor 0) with 0%Z.
    rewrite max_inject_Z, min_inject_Z. f_equal. f_equal. lia.
Qed.

(** X12.  Whatever numbers are configured, the longest image edge that
    [saveSettings] hands to [setSettings] and keeps in the store is an
    integer of [[128, 4096]] and the JPEG quality an integer of
    [[20, 95]]: the floor of a finite input clamped to the range, the
    lower bound for [NaN] and [-Infinity], the upper one for
    [Infinity]. *)
Theorem saveSettings_sizes_clamped
  (E : Env) (next : SettingsForm) (api : Api) (s : Store) :
  useMock api = true ->
  let w := saveSettings E next (api, s) in
  exists e q : Z,
    (128 <= e <= 4096)%Z /\ (20 <= q <= 95)%Z /\
    match maxEdge next with
    | JS.Fin x => e = Z.min 4096 (Z.max 128 (Qfloor x))
    | JS.PosInf => e = 4096%Z
    | JS.NegInf | JS.NaN => e = 128%Z
    end /\
    match jpegQuality next with
    | JS.Fin x => q = Z.min 95 (Z.max 20 (Qfloor x))
    | JS.PosInf => q = 95%Z
    | JS.NegInf | JS.NaN => q = 20%Z
    end /\
    analysisMaxEdge (settings (fst w)) = JS.Fin (inject_Z e) /\
    maxEdge (saved (snd w)) = JS.Fin (inject_Z e) /\
    analysisJpegQuality (settings (fst w)) = JS.Fin (inject_Z q) /\
    jpegQuality (saved (snd w)) = JS.Fin (inject_Z q).
Proof.
  intros Hm. cbv zeta. rewrite (saveSettings_mock E next api s Hm).
  destruct (clamp_floor_spec 128 4096 (maxEdge next) ltac:(lia)) as (e & He & Hre & Hxe).
  destruct (clamp_floor_spec 20 95 (jpegQuality next) ltac:(lia)) as (q & Hq & Hrq & Hxq).
  exists e, q. split; [exact Hre|]. split; [exact Hrq|].
  split; [exact Hxe|]. split; [exact Hxq|].
  repeat split; cbn; assumption.
Qed.

Lemma saveSettings_sizes_clamped_witness :
  let w := saveSettings sample_env sample_form (initial_api false, initial_store) in
  exists e q : Z,
    (128 <= e <= 4096)%Z /\ (20 <= q <= 95)%Z /\
    e = Z.min 4096 (Z.max 128 (Qfloor 768)) /\
    q = Z.min 95 (Z.max 20 (Qfloor 60)) /\
    analysisMaxEdge (settings (fst w)) = JS.Fin (inject_Z e) /\
    maxEdge (saved (snd w)) = JS.Fin (inject_Z e) /\
    analysisJpegQuality (settings (fst w)) = JS.Fin (inject_Z q) /\
    jpegQuality (saved (snd w)) = JS.Fin (inject_Z q).
Proof.
  apply (saveSettings_sizes_clamped sample_env sample_form
           (initial_api false) initial_store).
  reflexivity.
Defined.

Lemma trimStart_head (s : string) (c : ascii) (s' : string) :
  trimStart s = String c s' -> is_white_space c = false.
Proof.
  induction s as [|x s IH]; cbn [trimStart]; [discriminate|].
  destruct (is_white_space x) eqn:Hx; [exact IH|].
  intros H. injection H as <- _. exact Hx.
Qed.

Lemma trimStart_fixed (s : string) :
  match s with
  | String c _ => is_white_space c = false
  | EmptyString => True
  end ->
  trimStart s = s.
Proof. destruct s as [|c s]; [reflexivity|]. cbn [trimStart]. now intros ->. Qed.

Lemma trimStart_suffix (s : string) : exists p, s = (p ++ trimStart s)%string.
Proof.
  induction s as [|x s [p IH]]; [now exists ""%string|].
  cbn [trimStart]. destruct (is_white_space x).
  - exists (String x p). cbn. now rewrite <- IH.
  - now exists ""%string.
Qed.

Lemma string_rev_onto_acc (s acc : string) :
  string_rev_onto s acc = (string_rev s ++ acc)%string.
Proof.
  unfold string_rev. revert acc.
  induction s as [|x s IH]; intros acc; cbn [string_rev_onto]; [reflexivity|].
  rewrite IH, (IH (String x "")), string_app_assoc. reflexivity.
Qed.

Lemma string_rev_app (v w : string) :
  string_rev (v ++ w)%string = (string_rev w ++ string_rev v)%string.
Proof.
  unfold string_rev at 1. rewrite string_rev_onto_app. apply string_rev_onto_acc.
Qed.

(** Trimming what is trimmed changes nothing. *)
Lemma trim_idempotent (s : string) : trim (trim s) = trim s.
Proof.
  unfold trim.
  set (t := trimStart s).
  set (u := trimStart (string_rev t)).
  assert (Hu : trimStart u = u).
  { apply trimStart_fixed. destruct u as [|c u'] eqn:Hu; [exact I|].
    apply (trimStart_head (string_rev t) c u'). exact Hu. }
  assert (Hr : trimStart (string_rev u) = string_rev u).
  { apply trimStart_fixed. destruct (string_rev u) as [|c r] eqn:Hc; [exact I|].
    destruct (trimStart_suffix (string_rev t)) as [p Hp]. fold u in Hp.
    assert (Ht : t = String c (r ++ string_rev p)%string).
    { rewrite <- (string_rev_involutive t), Hp, string_rev_app, Hc. reflexivity. }
    apply (trimStart_head s c _ Ht). }
  rewrite Hr, string_rev_involutive, Hu. reflexivity.
Qed.

Lemma clamp_floor_idempotent (lo hi n : Z) (d : JS.number) :
  (0 < lo <= n)%Z -> (n <= hi)%Z ->
  JS.min (JS.Fin (inject_Z hi))
    (JS.max (JS.Fin (inject_Z lo)) (JS.floor (JS.or_else (JS.Fin (inject_Z n)) d)))
    = JS.Fin (inject_Z n).
Proof.
  intros Hlo Hhi.
  unfold JS.or_else, JS.truthy.
  destruct (Qeq_bool (inject_Z n) 0) eqn:Hq; cbn [negb JS.floor].
  - apply Qeq_bool_iff in Hq. unfold Qeq, inject_Z in Hq. cbn in Hq. lia.
  - rewrite Qfloor_Z, max_inject_Z, min_inject_Z. f_equal. f_equal. lia.
Qed.

(** What [saveSettings] stores is a fixed point of its clamps and
    trims. *)
Lemma settings_to_save_idempotent (next : SettingsForm) :
  settings_to_save (form_after_save next) = settings_to_save next /\
  form_after_save (form_after_save next) = form_after_save next.
Proof.
  destruct (clamp_floor_spec 128 4096 (maxEdge next) ltac:(lia)) as (e & He & Hre & _).
  destruct (clamp_floor_spec 20 95 (jpegQuality next) ltac:(lia)) as (q & Hq & Hrq & _).
  destruct (clamp_concurrency_spec (concurrency next)) as (c & Hc & Hrc & _).
  change (clamp_maxEdge (maxEdge next) = JS.Fin (inject_Z e)) in He.
  change (clamp_jpegQuality (jpegQuality next) = JS.Fin (inject_Z q)) in Hq.
  assert (He2 : clamp_maxEdge (JS.Fin (inject_Z e)) = JS.Fin (inject_Z e))
    by (apply (clamp_floor_idempotent 128 4096 e (JS.Fin 0)); lia).
  assert (Hq2 : clamp_jpegQuality (JS.Fin (inject_Z q)) = JS.Fin (inject_Z q))
    by (apply (clamp_floor_idempotent 20 95 q (JS.Fin 0)); lia).
  assert (Hc2 : clamp_concurrency (JS.Fin (inject_Z c)) = JS.Fin (inject_Z c))
    by (apply (clamp_floor_idempotent 1 32 c (JS.Fin 1)); lia).
  assert (Hs : forall b,
            effective_stream (JS.Fin (inject_Z c))
              (effective_stream (JS.Fin (inject_Z c)) b)
            = effective_stream (JS.Fin (inject_Z c)) b).
  { intros b. unfold effective_stream.
    destruct (JS.gt (JS.Fin (inject_Z c)) (JS.Fin 1)); reflexivity. }
  assert (Hd : forall d,
            trim (if string_truthy (trim d) then trim d else "")%string
            = (if string_truthy (trim d) then trim d else "")%string).
  { intros d. destruct (string_truthy (trim d)); [apply trim_idempotent|reflexivity]. }
  assert (Hf : forall f,
            trim_or (trim_or f default_clipModelFile) default_clipModelFile
            = trim_or f default_clipModelFile).
  { intros f. unfold trim_or at 2 3.
    destruct (string_truthy (trim f)) eqn:Hf.
    - unfold trim_or. rewrite trim_idempotent, Hf. reflexivity.
    - reflexivity. }
  assert (Hd2 : forall d : string,
            (if string_truthy (if string_truthy (trim d) then trim d else "")
             then (if string_truthy (trim d) then trim d else "") else "")%string
            = (if string_truthy (trim d) then trim d else "")%string).
  { intros d. destruct (string_truthy (trim d)) eqn:Ht; [now rewrite Ht|reflexivity]. }
  unfold settings_to_save, form_after_save.
  cbn [baseUrl model_ think stream resizeEnabled maxEdge jpegQuality valueEnabled
       concurrency engine form_clipModelDir form_clipModelFile
       form_clipFallbackToOllama form_clipEpAuto form_clipEpCoreml form_clipEpCuda
       form_clipEpRocm form_clipEpDirectml form_clipEpOpenvino].
  rewrite He, Hq, Hc, He2, Hq2, Hc2, Hs, Hf, !Hd, !Hd2.
  destruct (string_truthy (trim (form_clipModelDir next))) eqn:Ht;
    cbv iota; rewrite ?Ht; split; reflexivity.
Qed.

(** X13.  In the mock, saving the form that a save has stored changes neither
    the settings of the module nor the values in the store, and loading
    the settings after a save brings back exactly the values the save
    stored. *)
Theorem save_again_and_load (E : Env) (next : SettingsForm) (api : Api) (s : Store) :
  useMock api = true ->
  let w1 := saveSettings E next (api, s) in
  let w2 := saveSettings E (saved (snd w1)) w1 in
  fst w2 = fst w1 /\
  saved (snd w2) = saved (snd w1) /\
  loadSettings E w1 = w1.
Proof.
  intros Hm. cbv zeta.
  destruct (settings_to_save_idempotent next) as [Hs Hf].
  rewrite (saveSettings_mock E next api s Hm).
  cbn [fst snd saved toast set_saved].
  rewrite saveSettings_mock by exact Hm.
  cbn [fst snd saved toast set_saved]. rewrite Hs, Hf.
  split; [destruct api; reflexivity|]. split; [reflexivity|].
  unfold loadSettings, getSettings, bind, get.
  cbn [fst snd useMock set_settings]. rewrite Hm.
  unfold ret. cbn [settings set_settings fst snd].
  f_equal. unfold set_saved. cbn.
  f_equal.
  destruct (clamp_concurrency_spec (concurrency next)) as (c & Hc & _ & _).
  unfold form_of_settings, settings_to_save, form_after_save.
  cbn [ollamaBaseUrl ollamaModel ollamaThink ollamaStream analysisResizeEnabled
       analysisMaxEdge analysisJpegQuality analysisValueEnabled analysisConcurrency
       analysisEngine clipModelDir clipModelFile clipFallbackToOllama clipEpAuto
       clipEpCoreml clipEpCuda clipEpRocm clipEpDirectml clipEpOpenvino].
  rewrite Hc. cbn [Number_isFinite].
  assert (Hfile : (if string_truthy (trim_or (form_clipModelFile next) default_clipModelFile)
                   then trim_or (form_clipModelFile next) default_clipModelFile
                   else default_clipModelFile)
                  = trim_or (form_clipModelFile next) default_clipModelFile).
  { unfold trim_or. destruct (string_truthy (trim (form_clipModelFile next))) eqn:Ht.
    - now rewrite Ht.
    - reflexivity. }
  rewrite Hfile.
  destruct (string_truthy (trim (form_clipModelDir next))) eqn:Hd.
  - rewrite Hd. reflexivity.
  - reflexivity.
Qed.

Lemma save_again_and_load_witness :
  let w1 := saveSettings sample_env sample_form (initial_api false, initial_store) in
  let w2 := saveSettings sample_env (saved (snd w1)) w1 in
  fst w2 = fst w1 /\
  saved (snd w2) = saved (snd w1) /\
  loadSettings sample_env w1 = w1.
Proof.
  apply (save_again_and_load sample_env sample_form (initial_api false) initial_store).
  reflexivity.
Defined.

(** ** Starting and cancelling from the store *)

Lemma startAnalysisNow_mock (E : Env) (now : Z) (api : Api) (s : Store) :
  useMock api = true ->
  string_truthy (sourceRoot s) = true ->
  string_truthy (exportRoot s) = true ->
  ollama_check_passes E api s ->
  exists (api1 : Api) (out : list Progress) (s1 : Store),
    startAnalysisNow E now (api, s) = (api1, s1, out) /\
    useMock api1 = true /\
    mockJobId api1 = Some (crypto_randomUUID E (uuid_calls api)) /\
    status (mockProgress api1) = running /\
    jobId (mockProgress api1) = crypto_randomUUID E (uuid_calls api) /\
    progress s1 =
      {| jobId := crypto_randomUUID E (uuid_calls api); status := running;
         currentFile := None; processed := 0; total := 0; errors := 0 |} /\
    starting s1 = false /\
    jobStartedAt s1 = Some now /\
    sourceRoot s1 = sourceRoot s /\ exportRoot s1 = exportRoot s.
Proof.
  intros Hm Hsrc Hexp Hcheck.
  unfold startAnalysisNow. rewrite Hsrc, Hexp. cbn [negb orb].
  assert (Hchecked :
    exists api0,
      (if Engine_eqb (engine (saved s)) ollama
          || (Engine_eqb (engine (saved s)) clip && form_clipFallbackToOllama (saved s))
       then
         match testOllama E (baseUrl (saved s)) api with
         | (Some conn, api1, out1) =>
             if negb (ok conn) then (api1, out1, Some (toast Toast.error (message conn)))
             else if negb (string_truthy (model_ (saved s)))
             then (api1, out1, Some (toast Toast.error "Ollama 모델을 선택/저장하세요"))
             else (api1, out1, None)
         | (None, api1, out1) => (api1, out1, Some (fun s0 => s0))
         end
       else (api, [], None)) = (api0, [], None) /\
      useMock api0 = true /\ uuid_calls api0 = uuid_calls api).
  { destruct (Engine_eqb (engine (saved s)) ollama
              || (Engine_eqb (engine (saved s)) clip
                  && form_clipFallbackToOllama (saved s))) eqn:Hshould.
    - destruct Hcheck as [Hno|(Hurl & Hr & Hmodel)]; [congruence|].
      unfold testOllama, bind, get. rewrite Hm, Hurl. unfold random.
      rewrite (Qle_bool_false _ _ Hr). cbn [negb]. unfold ret. cbn [ok negb app].
      rewrite Hmodel. cbn [negb].
      eexists. split; [reflexivity|]. split; [exact Hm|reflexivity].
    - exists api. repeat split. exact Hm. }
  destruct Hchecked as (api0 & -> & Hm0 & Hu0).
  destruct (startAnalysis_mock E {| in_sourceRoot := sourceRoot s;
                                    in_exportRoot := exportRoot s |} api0 Hm0)
    as (api1 & H & Hm1 & Hj & Hp & _).
  rewrite H. rewrite Hu0 in *.
  eexists. eexists. eexists. split; [reflexivity|].
  cbn [progress starting jobStartedAt sourceRoot exportRoot set_starting toast res_jobId].
  rewrite Hp. repeat split; assumption.
Qed.

(** X14.  In the mock, with both roots given and the Ollama check passed,
    [startAnalysisNow] starts a job and the store holds its id, and
    [cancelCurrent] right after cancels exactly that job: the canceled
    progress with the id is published once and the store itself is left
    to the progress listener.  Without a job id in the store
    [cancelCurrent] does nothing. *)
Theorem start_then_cancel (E : Env) (now : Z) (api : Api) (s : Store) :
  useMock api = true ->
  string_truthy (sourceRoot s) = true ->
  string_truthy (exportRoot s) = true ->
  ollama_check_passes E api s ->
  crypto_randomUUID E (uuid_calls api) <> ""%string ->
  let started := startAnalysisNow E now (api, s) in
  let api1 := fst (fst started) in
  let s1 := snd (fst started) in
  let stopped := cancelCurrent (api1, s1) in
  jobId (progress s1) = crypto_randomUUID E (uuid_calls api) /\
  status (progress s1) = running /\
  starting s1 = false /\
  (exists p,
     snd stopped = [p] /\ status p = canceled /\ jobId p = jobId (progress s1) /\
     mockProgress (fst (fst stopped)) = p) /\
  snd (fst stopped) = s1 /\
  (forall api' s', jobId (progress s') = ""%string ->
                   cancelCurrent (api', s') = (api', s', [])).
Proof.
  intros Hm Hsrc Hexp Hcheck Hid. cbv zeta.
  destruct (startAnalysisNow_mock E now api s Hm Hsrc Hexp Hcheck)
    as (api1 & out & s1 & H & Hm1 & Hj & Hrun & Hjob & Hp & Hst & _).
  rewrite H. cbn [fst snd]. rewrite Hp. cbn [jobId status].
  split; [reflexivity|]. split; [reflexivity|]. split; [exact Hst|].
  assert (Htruthy : string_truthy (crypto_randomUUID E (uuid_calls api)) = true)
    by (destruct (crypto_randomUUID E (uuid_calls api)); [contradiction|reflexivity]).
  unfold cancelCurrent. cbn [fst snd]. rewrite Hp. cbn [jobId].
  rewrite Htruthy. cbn [negb].
  rewrite (cancelAnalysis_spec _ api1 Hm1). rewrite Hj.
  cbn [option_string_eqb]. rewrite String.eqb_refl. cbn [fst snd].
  split; [|split].
  - eexists. split; [reflexivity|]. cbn [status jobId spread or_keep p_status p_jobId].
    split; [reflexivity|]. split; [exact Hjob|reflexivity].
  - reflexivity.
  - intros api' s' He. unfold cancelCurrent. cbn [fst snd]. rewrite He. reflexivity.
Qed.

Lemma start_then_cancel_witness :
  let started := startAnalysisNow sample_env 1000 (initial_api false, sample_store) in
  let api1 := fst (fst started) in
  let s1 := snd (fst started) in
  let stopped := cancelCurrent (api1, s1) in
  jobId (progress s1) = "job-0"%string /\
  status (progress s1) = running /\
  starting s1 = false /\
  (exists p,
     snd stopped = [p] /\ status p = canceled /\ jobId p = jobId (progress s1) /\
     mockProgress (fst (fst stopped)) = p) /\
  snd (fst stopped) = s1 /\
  (forall api' s', jobId (progress s') = ""%string ->
                   cancelCurrent (api', s') = (api', s', [])).
Proof.
  apply (start_then_cancel sample_env 1000 (initial_api false) sample_store).
  - reflexivity.
  - reflexivity.
  - reflexivity.
  - right. repeat split.
  - discriminate.
Defined.

(** ** The progress listener and the result list *)

Lemma on_progress_completed (E : Env) (C : Commands) (now : Z) (p : Progress)
  (api : Api) (s : Store) (r : Results) :
  useMock api = true ->
  status p = completed ->
  let w' := on_progress E C now p (api, s, r) in
  fst (fst w') = api /\
  progress (snd (fst w')) = p /\
  photos (snd w') = mockRows api /\
  distributionAvg (snd (fst w')) = Some (mock_distribution avg_score (mockRows api)) /\
  distributionCount (snd (fst w')) = Some (mock_distribution count_ratio (mockRows api)) /\
  isOpen (streamPanel (snd (fst w'))) = false.
Proof.
  intros Hm Hs. cbv zeta. unfold on_progress. rewrite Hs.
  unfold refreshListAndDistributions, listPhotos, getDistribution, getValueStats,
    bind, get. rewrite Hm. unfold ret. cbn. rewrite Hm. cbn. rewrite Hm. cbn.
  rewrite Hm. cbn.
  repeat split.
Qed.

(** X15.  In the mock, when the progress listener of the store receives the
    completed object of a job, in whatever state of the module that
    holds the rows of the job, the store ends with that object as its
    progress and with the rows of the job as its photo list, and the
    counters agree with the list: [processed] and [total] are its
    length and [errors] the number of its rows with export status
    error; both distributions are those of the rows and the stream
    panel is closed. *)
Theorem completed_job_fills_store (E : Env) (C : Commands)
  (input : StartAnalysisInput) (st : Api) (n : nat) (now : Z) :
  random_in_range E ->
  useMock st = true ->
  let st1 := state_of (startAnalysis E input st) in
  Forall
    (fun p =>
       status p = completed ->
       forall (api' : Api) (s : Store) (r : Results),
         useMock api' = true ->
         mockRows api' = mockRows st1 ->
         let w' := on_progress E C now p (api', s, r) in
         fst (fst w') = api' /\
         progress (snd (fst w')) = p /\
         photos (snd w') = mockRows st1 /\
         processed p = Z.of_nat (List.length (photos (snd w'))) /\
         total p = Z.of_nat (List.length (photos (snd w'))) /\
         errors p = Z.of_nat (List.length (filter is_error (photos (snd w')))) /\
         distributionAvg (snd (fst w')) =
           Some (mock_distribution avg_score (mockRows st1)) /\
         distributionCount (snd (fst w')) =
           Some (mock_distribution count_ratio (mockRows st1)) /\
         isOpen (streamPanel (snd (fst w'))) = false)
    (output_of (run E (repeat Tick n) st1)).
Proof.
  intros HE Hm. cbv zeta.
  destruct (started_job_running E input st HE Hm)
    as (Hrun & Hint & Hp & Hcount & Htot & Herr).
  set (st1 := state_of (startAnalysis E input st)) in *.
  rewrite <- Hp in Herr.
  destruct (ticks_from_running E n HE st1 Hrun Hint ltac:(lia) Htot Herr)
    as (_ & _ & Hnames & Hcounts).
  rewrite Forall_forall in *. intros p Hin Hs api' s r Hm' Hrows.
  specialize (Hnames p Hin). specialize (Hcounts p Hin).
  unfold names_last_row in Hnames. rewrite Hs in Hnames.
  destruct Hnames as [_ Hfull]. destruct Hcounts as [Ht He].
  destruct (on_progress_completed E C now p api' s r Hm' Hs) as (A & B & D & F & G & H).
  rewrite A, B, D, F, G, H, Hrows.
  split; [reflexivity|]. split; [reflexivity|]. split; [reflexivity|].
  split; [congruence|]. split; [congruence|].
  split; [|repeat split].
  rewrite He, Hfull, Ht, Htot. unfold errors_among.
  rewrite Nat2Z.id, firstn_all. reflexivity.
Qed.

Lemma completed_job_fills_store_witness :
  let st1 := state_of (startAnalysis sample_env sample_input (initial_api false)) in
  Forall
    (fun p =>
       status p = completed ->
       forall (api' : Api) (s : Store) (r : Results),
         useMock api' = true ->
         mockRows api' = mockRows st1 ->
         let w' :=
           on_progress sample_env (mkCommands true None (fun _ => None) None None)
                       2000 p (api', s, r) in
         fst (fst w') = api' /\
         progress (snd (fst w')) = p /\
         photos (snd w') = mockRows st1 /\
         processed p = Z.of_nat (List.length (photos (snd w'))) /\
         total p = Z.of_nat (List.length (photos (snd w'))) /\
         errors p = Z.of_nat (List.length (filter is_error (photos (snd w')))) /\
         distributionAvg (snd (fst w')) =
           Some (mock_distribution avg_score (mockRows st1)) /\
         distributionCount (snd (fst w')) =
           Some (mock_distribution count_ratio (mockRows st1)) /\
         isOpen (streamPanel (snd (fst w'))) = false)
    (output_of (run sample_env (repeat Tick 100) st1)).
Proof.
  apply (completed_job_fills_store sample_env
           (mkCommands true None (fun _ => None) None None)
           sample_input (initial_api false) 100 2000).
  - intros k. cbn. split; [discriminate|reflexivity].
  - reflexivity.
Defined.

(** ** Resetting the results *)

(** X16.  In the mock, [resetResults] refuses while the store shows a running
    job: nothing changes but for a warning toast.  Otherwise it empties
    the rows of the module and the photo list, clears the selection,
    the distributions and the elapsed time and puts the idle progress in
    the store; the progress of the module is not reset, so the snapshot
    still reports the last job. *)
Theorem resetResults_guarded (C : Commands) (api : Api) (s : Store) (r : Results) :
  useMock api = true ->
  let w' := resetResults C (api, s, r) in
  if Status_eqb (status (progress s)) running
  then w' = (api, toast Toast.warning "진행 중인 분석을 중지한 뒤 초기화하세요." s, r)
  else
    fst (fst w') = set_mockRows [] api /\
    photos (snd w') = [] /\
    selectedPhoto (snd w') = None /\
    categoryFilter (snd w') = categoryFilter r /\
    progress (snd (fst w')) = initial_progress /\
    distributionAvg (snd (fst w')) = None /\
    distributionCount (snd (fst w')) = None /\
    valueStats (snd (fst w')) = None /\
    jobElapsedMs (snd (fst w')) = None /\
    sourceRoot (snd (fst w')) = sourceRoot s /\
    getProgressSnapshot C (fst (fst w')) =
      (Some (Some (mockProgress api)), fst (fst w'), []).
Proof.
  intros Hm. cbv zeta. unfold resetResults.
  destruct (Status_eqb (status (progress s)) running); [reflexivity|].
  unfold clearResults, bind, get, modify. rewrite Hm. cbn [fst snd app].
  unfold getProgressSnapshot, bind, get, ret. cbn. rewrite Hm.
  repeat split.
Qed.

Lemma resetResults_guarded_witness :
  let api := set_mockProgress
               {| jobId := "job-0"; status := completed; currentFile := None;
                  processed := 5; total := 5; errors := 1 |} five_rows_job in
  let w' := resetResults (mkCommands true None (fun _ => None) None None)
                         (api, initial_store, initial_results) in
  fst (fst w') = set_mockRows [] api /\
  photos (snd w') = [] /\
  selectedPhoto (snd w') = None /\
  categoryFilter (snd w') = categoryFilter initial_results /\
  progress (snd (fst w')) = initial_progress /\
  distributionAvg (snd (fst w')) = None /\
  distributionCount (snd (fst w')) = None /\
  valueStats (snd (fst w')) = None /\
  jobElapsedMs (snd (fst w')) = None /\
  sourceRoot (snd (fst w')) = sourceRoot initial_store /\
  getProgressSnapshot (mkCommands true None (fun _ => None) None None) (fst (fst w')) =
    (Some (Some (mockProgress api)), fst (fst w'), []).
Proof.
  apply (resetResults_guarded (mkCommands true None (fun _ => None) None None)
           (set_mockProgress
              {| jobId := "job-0"; status := completed; currentFile := None;
                 processed := 5; total := 5; errors := 1 |} five_rows_job)
           initial_store initial_results).
  reflexivity.
Defined.

(** ** The stream panel *)

Lemma concat_empty_cons (x : string) (xs : list string) :
  String.concat "" (x :: xs) = (x ++ String.concat "" xs)%string.
Proof. destruct xs; cbn; [now rewrite string_app_nil_r|reflexivity]. Qed.

Lemma stream_same_file (f : string) (rest : list StreamChunk) :
  f <> ""%string ->
  Forall (fun d => chunk_fileName d = f /\ chunk_reset d <> Some true) rest ->
  forall (text : string),
    fold_left (fun p d => stream_update d p) rest
              {| panel_fileName := Some f; panel_text := text; isOpen := true |} =
    {| panel_fileName := Some f;
       panel_text := (text ++ String.concat "" (map delta rest))%string;
       isOpen := true |}.
Proof.
  intros Hf Hall. induction Hall as [|d rest [Hd Hr] _ IH]; intros text.
  - cbn. now rewrite string_app_nil_r.
  - cbn [fold_left map]. rewrite concat_empty_cons, <- string_app_assoc, <- IH.
    f_equal. unfold stream_update. rewrite Hd.
    cbn [panel_fileName panel_text].
    destruct f as [|c f']; [contradiction|]. cbn [string_truthy].
    rewrite String.eqb_refl. cbn [negb].
    destruct (chunk_reset d) as [[|]|]; [contradiction|reflexivity|reflexivity].
Qed.

(** X17.  The stream panel of the store shows the text of one file: the first
    chunk of a file other than the one shown, or a chunk that asks for
    a reset, starts the text over, and the chunks for the same file
    that follow are appended in order, so that the panel holds the
    deltas of that file since its first chunk, under the file's name,
    and is open.  Nothing else of the store changes. *)
Theorem stream_panel_accumulates (f : string) (c : StreamChunk)
  (rest : list StreamChunk) (s : Store) :
  f <> ""%string ->
  chunk_fileName c = f ->
  panel_fileName (streamPanel s) <> Some f \/ chunk_reset c = Some true ->
  Forall (fun d => chunk_fileName d = f /\ chunk_reset d <> Some true) rest ->
  fold_left (fun acc d => on_stream d acc) (c :: rest) s =
    set_streamPanel
      {| panel_fileName := Some f;
         panel_text := String.concat "" (map delta (c :: rest));
         isOpen := true |} s.
Proof.
  intros Hf Hc Hnew Hall.
  assert (Hfold : forall chunks acc,
            fold_left (fun acc d => on_stream d acc) chunks acc =
            set_streamPanel
              (fold_left (fun p d => stream_update d p) chunks (streamPanel acc)) acc).
  { induction chunks as [|d chunks IH]; intros acc.
    - destruct acc; reflexivity.
    - cbn [fold_left]. rewrite IH. unfold on_stream. reflexivity. }
  rewrite Hfold. f_equal. cbn [fold_left].
  assert (Hfirst : stream_update c (streamPanel s) =
                   {| panel_fileName := Some f; panel_text := delta c; isOpen := true |}).
  { unfold stream_update. rewrite Hc.
    destruct f as [|a f']; [contradiction|]. cbn [string_truthy].
    destruct Hnew as [Hother|Hreset].
    - destruct (chunk_reset c) as [[|]|]; try reflexivity;
        destruct (panel_fileName (streamPanel s)) as [g|] eqn:Hg; try reflexivity;
        destruct (String.eqb_spec (String a f') g) as [<-|]; try reflexivity;
        contradiction.
    - rewrite Hreset. reflexivity. }
  rewrite Hfirst, (stream_same_file f rest Hf Hall). cbn [map].
  rewrite concat_empty_cons. reflexivity.
Qed.

Lemma stream_panel_accumulates_witness :
  fold_left (fun acc d => on_stream d acc)
    [ mkChunk "job-0" "a.jpg" "pe" false None;
      mkChunk "job-0" "a.jpg" "op" false None;
      mkChunk "job-0" "a.jpg" "le" true (Some false) ] initial_store =
  set_streamPanel
    {| panel_fileName := Some "a.jpg"%string;
       panel_text :=
         String.concat ""
           (map delta [ mkChunk "job-0" "a.jpg" "pe" false None;
                        mkChunk "job-0" "a.jpg" "op" false None;
                        mkChunk "job-0" "a.jpg" "le" true (Some false) ]);
       isOpen := true |} initial_store.
Proof.
  apply (stream_panel_accumulates "a.jpg" (mkChunk "job-0" "a.jpg" "pe" false None)
           [ mkChunk "job-0" "a.jpg" "op" false None;
             mkChunk "job-0" "a.jpg" "le" true (Some false) ] initial_store).
  - discriminate.
  - reflexivity.
  - left. discriminate.
  - repeat constructor; discriminate.
Defined.

(** ** The progress bar *)

Lemma Qle_bool_false_lt (x y : Q) : Qle_bool x y = false -> y < x.
Proof.
  intros H. apply Qnot_le_lt. intros Hle. apply Qle_bool_iff in Hle. congruence.
Qed.

Lemma bar_pct_Fin (x : Q) :
  exists q : Q,
    bar_pct (JS.Fin x) = JS.Fin q /\ 0 <= q <= 1 /\ (0 <= x <= 1 -> q == x).
Proof.
  unfold bar_pct, JS.max, JS.min, JS.gt.
  destruct (Qle_bool x 0) eqn:H0; cbn [negb].
  - apply Qle_bool_iff in H0. exists 0. split; [reflexivity|]. split; lra.
  - apply Qle_bool_false_lt in H0.
    destruct (Qle_bool 1 x) eqn:H1; cbn [negb].
    + apply Qle_bool_iff in H1. exists 1. split; [reflexivity|]. split; lra.
    + apply Qle_bool_false_lt in H1. exists x. split; [reflexivity|]. split; lra.
Qed.

(** X18.  Whatever counters a progress object carries, the bar of the main
    page is filled by a fraction between 0 and 1: the share
    [processed / total] when the counters are in order, nothing when
    [total] is 0. *)
Theorem progress_bar_within (p : Progress) :
  exists q : Q,
    bar_pct (processedPct p) = JS.Fin q /\
    0 <= q <= 1 /\
    (total p = 0%Z -> q == 0) /\
    ((0 <= processed p <= total p)%Z -> total p <> 0%Z ->
     q == inject_Z (processed p) / inject_Z (total p)).
Proof.
  unfold processedPct. destruct (Z.eqb_spec (total p) 0) as [H0|H0].
  - destruct (bar_pct_Fin 0) as (q & Hq & Hr & Hx).
    exists q. split; [exact Hq|]. split; [exact Hr|].
    split; [intros _; apply Hx; lra|]. intros _ Hn. contradiction.
  - assert (Hne : Qeq_bool (inject_Z (total p)) 0 = false).
    { apply Qeq_bool_false. unfold Qeq, inject_Z. cbn. lia. }
    cbn [JS.div]. rewrite Hne.
    destruct (bar_pct_Fin (inject_Z (processed p) / inject_Z (total p)))
      as (q & Hq & Hr & Hx).
    exists q. split; [exact Hq|]. split; [exact Hr|].
    split; [intros Ht; contradiction|].
    intros Hin _. apply Hx.
    assert (Hpos : 0 < inject_Z (total p))
      by (change 0 with (inject_Z 0); rewrite <- Zlt_Qlt; lia).
    split.
    + apply Qle_shift_div_l; [exact Hpos|].
      rewrite Qmult_0_l. change 0 with (inject_Z 0). rewrite <- Zle_Qle. lia.
    + apply Qle_shift_div_r; [exact Hpos|].
      rewrite Qmult_1_l. rewrite <- Zle_Qle. lia.
Qed.

(** ** The pages of the result table *)

Lemma Qceiling_between (q : Q) (k : Z) :
  inject_Z (k - 1) < q -> q <= inject_Z k -> Qceiling q = k.
Proof.
  intros Hl Hu. unfold Qceiling.
  rewrite (Qfloor_between (- q) (- k)); [lia| |].
  - rewrite inject_Z_opp. lra.
  - replace (- k + 1)%Z with (- (k - 1))%Z by lia. rewrite inject_Z_opp. lra.
Qed.

Lemma Qceiling_div (a b : Z) :
  (0 < b)%Z -> Qceiling (inject_Z a / inject_Z b) = ((a + b - 1) / b)%Z.
Proof.
  intros Hb.
  assert (Hpos : 0 < inject_Z b)
    by (change 0 with (inject_Z 0); rewrite <- Zlt_Qlt; lia).
  pose proof (Z.div_mod (a + b - 1) b ltac:(lia)) as Hdm.
  pose proof (Z.mod_pos_bound (a + b - 1) b Hb) as Hmod.
  apply Qceiling_between.
  - apply Qlt_shift_div_l; [exact Hpos|].
    rewrite <- inject_Z_mult, <- Zlt_Qlt. nia.
  - apply Qle_shift_div_r; [exact Hpos|].
    rewrite <- inject_Z_mult, <- Zle_Qle. nia.
Qed.

(** The page count for a row limit of at least 1: the least number of
    pages that hold the list, and 1 for the empty list. *)
Lemma pageCount_spec (len : nat) (limit : Z) :
  (1 <= limit)%Z ->
  let count := pageCount len limit in
  (1 <= count)%Z /\
  (Z.of_nat len <= count * limit)%Z /\
  ((count - 1) * limit < Z.max 1 (Z.of_nat len))%Z.
Proof.
  intros Hl. cbv zeta. unfold pageCount, or_one.
  destruct (Z.eqb_spec limit 0) as [|_]; [lia|].
  rewrite Qceiling_div by lia.
  set (n := if (Z.of_nat len =? 0)%Z then 1%Z else Z.of_nat len).
  assert (Hn : n = Z.max 1 (Z.of_nat len))
    by (unfold n; destruct (Z.eqb_spec (Z.of_nat len) 0); lia).
  pose proof (Z.div_mod (n + limit - 1) limit ltac:(lia)) as Hdm.
  pose proof (Z.mod_pos_bound (n + limit - 1) limit ltac:(lia)) as Hmod.
  assert (1 <= (n + limit - 1) / limit)%Z
    by (apply Z.div_le_lower_bound; lia).
  rewrite Z.max_r by lia. rewrite <- Hn.
  split; [lia|]. split; nia.
Qed.

Lemma slice_extends_any {A} (xs : list A) (a b : Z) :
  (0 <= a <= b)%Z ->
  firstn (Z.to_nat b) xs = firstn (Z.to_nat a) xs ++ Array_slice xs a b.
Proof.
  intros Hab.
  destruct (Z.le_gt_cases b (Z.of_nat (List.length xs))) as [Hb|Hb];
    [now apply slice_extends|].
  rewrite (firstn_all2 (n := Z.to_nat b)) by lia.
  unfold Array_slice, slice_bound.
  destruct (Z.ltb_spec a 0); [lia|]. destruct (Z.ltb_spec b 0); [lia|].
  rewrite (Z.min_r b) by lia.
  destruct (Z.le_gt_cases a (Z.of_nat (List.length xs))) as [Ha|Ha].
  - rewrite Z.min_l by lia.
    rewrite (firstn_all2 (n := Z.to_nat (Z.of_nat (List.length xs) - a)))
      by (rewrite length_skipn; lia).
    symmetry. apply firstn_skipn.
  - rewrite Z.min_r by lia.
    rewrite (firstn_all2 (n := Z.to_nat a)) by lia.
    replace (Z.to_nat (Z.of_nat (List.length xs) - Z.of_nat (List.length xs))) with O by lia.
    cbn [firstn]. now rewrite List.app_nil_r.
Qed.

Lemma Array_slice_length {A} (xs : list A) (a b : Z) :
  (0 <= a <= b)%Z ->
  Z.of_nat (List.length (Array_slice xs a b)) =
    (Z.min b (Z.of_nat (List.length xs)) - Z.min a (Z.of_nat (List.length xs)))%Z.
Proof.
  intros Hab. unfold Array_slice, slice_bound.
  destruct (Z.ltb_spec a 0); [lia|]. destruct (Z.ltb_spec b 0); [lia|].
  rewrite length_firstn, length_skipn. lia.
Qed.

Lemma pages_concat {A} (rows : list A) (limit : Z) (k : nat) :
  (1 <= limit)%Z ->
  List.concat (map (fun i => limitedPhotos rows (Z.of_nat i + 1) limit) (seq 0 k)) =
    firstn (Z.to_nat (Z.of_nat k * limit)) rows.
Proof.
  intros Hl. induction k as [|k IH]; [reflexivity|].
  rewrite seq_S, map_app, concat_app, IH. cbn [Nat.add map List.concat].
  rewrite List.app_nil_r. unfold limitedPhotos.
  replace ((Z.of_nat k + 1 - 1) * limit)%Z with (Z.of_nat k * limit)%Z by lia.
  replace (Z.of_nat (S k) * limit)%Z with (Z.of_nat k * limit + limit)%Z by lia.
  symmetry. apply slice_extends_any. nia.
Qed.

(** X19.  With a row limit of at least 1 the pages of the result table split
    the filtered list: the pages 1 to [pageCount], one after the other,
    are the list, no page holds more rows than the limit, and no page
    is empty unless the list is. *)
Theorem pages_partition (r : Results) (limit : Z) :
  (1 <= limit)%Z ->
  let rows := filteredPhotos r in
  let count := pageCount (List.length rows) limit in
  (1 <= count)%Z /\
  List.concat (map (fun i => limitedPhotos rows (Z.of_nat i + 1) limit)
              (seq 0 (Z.to_nat count))) = rows /\
  forall page_ : Z,
    (1 <= page_ <= count)%Z ->
    (Z.of_nat (List.length (limitedPhotos rows page_ limit)) <= limit)%Z /\
    (rows <> [] -> limitedPhotos rows page_ limit <> []).
Proof.
  intros Hl. cbv zeta.
  set (rows := filteredPhotos r).
  destruct (pageCount_spec (List.length rows) limit Hl) as (H1 & H2 & H3).
  set (count := pageCount (List.length rows) limit) in *.
  split; [exact H1|]. split.
  - rewrite pages_concat by exact Hl.
    apply firstn_all2. rewrite Z2Nat.id by lia. lia.
  - intros page_ Hp. unfold limitedPhotos.
    pose proof (Array_slice_length rows ((page_ - 1) * limit)
                  ((page_ - 1) * limit + limit) ltac:(nia)) as Hlen.
    split; [lia|].
    intros Hne Hempty. rewrite Hempty in Hlen. cbn [List.length Z.of_nat] in Hlen.
    assert (0 < Z.of_nat (List.length rows))%Z
      by (destruct rows; [contradiction|cbn [List.length]; lia]).
    assert ((page_ - 1) * limit <= (count - 1) * limit)%Z by nia.
    lia.
Qed.

Lemma pages_partition_witness :
  let r := mkResults five_rows (Some people) None false in
  let rows := filteredPhotos r in
  let count := pageCount (List.length rows) 2 in
  (1 <= count)%Z /\
  List.concat (map (fun i => limitedPhotos rows (Z.of_nat i + 1) 2)
              (seq 0 (Z.to_nat count))) = rows /\
  forall page_ : Z,
    (1 <= page_ <= count)%Z ->
    (Z.of_nat (List.length (limitedPhotos rows page_ 2)) <= 2)%Z /\
    (rows <> [] -> limitedPhotos rows page_ 2 <> []).
Proof.
  apply (pages_partition (mkResults five_rows (Some people) None false) 2).
  lia.
Defined.

(** X20.  Whatever the buttons, the page input and changes of the list do,
    the page of the result table is a finite number between 1 and the
    page count. *)
Theorem page_stays_in_range (len : nat) (actions : list PageAction) :
  let g := fold_left pager_step actions (initial_pager len) in
  exists q : Q,
    page g = JS.Fin q /\
    1 <= q <= inject_Z (pageCount (listLength g) (rowLimit g)).
Proof.
  cbv zeta.
  assert (Hcount : forall n l, 1 <= inject_Z (pageCount n l)).
  { intros n l. change 1 with (inject_Z 1). rewrite <- Zle_Qle.
    unfold pageCount. lia. }
  assert (Hinv : forall g,
            (exists q, page g = JS.Fin q /\
                       1 <= q <= inject_Z (pageCount (listLength g) (rowLimit g))) ->
            exists q, page (fold_left pager_step actions g) = JS.Fin q /\
                      1 <= q <= inject_Z (pageCount
                                            (listLength (fold_left pager_step actions g))
                                            (rowLimit (fold_left pager_step actions g)))).
  { induction actions as [|a actions IH]; intros g Hg; [exact Hg|].
    cbn [fold_left]. apply IH. clear IH.
    destruct Hg as (q & Hq & Hr).
    pose proof (Hcount (listLength g) (rowLimit g)) as Hc.
    set (c := inject_Z (pageCount (listLength g) (rowLimit g))) in *.
    destruct a as [| |n|len' limit']; cbn [pager_step page listLength rowLimit].
    - unfold page_prev. rewrite Hq. cbn [JS.add JS.max JS.gt].
      destruct (Qle_bool (q + -1) 1) eqn:H1; cbn [negb].
      + exists 1. split; [reflexivity|]. fold c. lra.
      + apply Qle_bool_false_lt in H1. exists (q + -1). split; [reflexivity|]. fold c. lra.
    - unfold page_next. rewrite Hq. cbn [JS.add JS.min JS.gt]. fold c.
      destruct (Qle_bool c (q + 1)) eqn:H1; cbn [negb].
      + exists c. split; [reflexivity|]. lra.
      + apply Qle_bool_false_lt in H1. exists (q + 1). split; [reflexivity|]. lra.
    - unfold page_from_input. fold c.
      destruct n as [x| | |]; cbn [Number_isFinite negb];
        try (exists q; split; [exact Hq|exact Hr]).
      cbn [JS.max JS.gt].
      destruct (Qle_bool x 1) eqn:H1; cbn [negb JS.min JS.gt].
      * destruct (Qle_bool 1 c) eqn:H2; cbn [negb].
        -- exists 1. split; [reflexivity|]. lra.
        -- apply Qle_bool_false_lt in H2. lra.
      * apply Qle_bool_false_lt in H1.
        destruct (Qle_bool x c) eqn:H2; cbn [negb].
        -- apply Qle_bool_iff in H2. exists x. split; [reflexivity|]. lra.
        -- exists c. split; [reflexivity|]. lra.
    - exists 1. split; [reflexivity|]. specialize (Hcount len' limit'). lra. }
  apply Hinv. exists 1. split; [reflexivity|].
  specialize (Hcount (listLength (initial_pager len)) (rowLimit (initial_pager len))). lra.
Qed.

(** ** The value bar *)



(** ** The option lists of the settings forms *)

Lemma existsb_eqb_In (x : string) (l : list string) :
  existsb (String.eqb x) l = true <-> In x l.
Proof.
  rewrite existsb_exists. split.
  - intros (y & Hy & He). apply String.eqb_eq in He. now subst.
  - intros H. exists x. split; [exact H|apply String.eqb_refl].
Qed.

(** X22.  The options of the model file select always offer the file of the
    draft, offer every file that was found, offer nothing else, and do
    not repeat a file if the files found have no repetition. *)
Theorem clip_file_options_complete (files : list string) (current : string) :
  let options := clip_file_options files current in
  In current options /\
  incl files options /\
  (forall f, In f options -> f = current \/ In f files) /\
  (NoDup files -> NoDup options).
Proof.
  cbv zeta. unfold clip_file_options.
  destruct files as [|f0 files].
  - assert (H : (if existsb (String.eqb current) (filter string_truthy [current])
                 then filter string_truthy [current]
                 else current :: filter string_truthy [current]) = [current]).
    { cbn [filter]. destruct (string_truthy current); cbn [existsb].
      - now rewrite String.eqb_refl.
      - reflexivity. }
    rewrite H. split; [now left|]. split; [intros x []|].
    split; [intros f [<-|[]]; now left|].
    intros _. repeat constructor. intros [].
  - destruct (existsb (String.eqb current) (f0 :: files)) eqn:Hin.
    + apply existsb_eqb_In in Hin.
      split; [exact Hin|]. split; [apply incl_refl|].
      split; [intros f Hf; now right|]. intros H; exact H.
    + split; [now left|]. split; [apply incl_tl, incl_refl|].
      split; [intros f [<-|Hf]; [now left|now right]|].
      intros Hnd. constructor; [|exact Hnd].
      intros Hc. apply existsb_eqb_In in Hc. congruence.
Qed.



(** ** Starts that are refused, saves that are rejected *)

(** X24.  In the mock, with both roots given and an engine that needs Ollama,
    [startAnalysisNow] starts nothing when the URL of the saved settings
    does not parse, when the draw of [testOllama] is 0.2 or less, or
    when no model is saved: the module is as before but for the random
    draw, nothing is published, and the store only gains one error
    toast. *)
Theorem start_refused_by_check (E : Env) (now : Z) (api : Api) (s : Store) :
  useMock api = true ->
  string_truthy (sourceRoot s) = true ->
  string_truthy (exportRoot s) = true ->
  (Engine_eqb (engine (saved s)) ollama
   || (Engine_eqb (engine (saved s)) clip && form_clipFallbackToOllama (saved s)))
  = true ->
  url_is_http E (baseUrl (saved s)) = false \/
  Math_random E (random_calls api) <= (2 # 10) \/
  string_truthy (model_ (saved s)) = false ->
  let w' := startAnalysisNow E now (api, s) in
  same_module api (fst (fst w')) /\
  uuid_calls (fst (fst w')) = uuid_calls api /\
  snd w' = [] /\
  exists msg, snd (fst w') = toast Toast.error msg s.
Proof.
  intros Hm Hsrc Hexp Hshould Hfail. cbv zeta.
  unfold startAnalysisNow. rewrite Hsrc, Hexp, Hshould. cbn [negb orb].
  unfold testOllama, bind, get. rewrite Hm.
  destruct (url_is_http E (baseUrl (saved s))) eqn:Hurl.
  - unfold random.
    destruct (Qle_bool (Math_random E (random_calls api)) (2 # 10)) eqn:Hr; cbn [negb].
    + unfold ret. cbn [ok negb app message fst snd].
      split; [repeat split|]. split; [reflexivity|]. split; [reflexivity|].
      eexists. reflexivity.
    + destruct Hfail as [Hf|[Hf|Hf]]; [discriminate| |].
      * apply Qle_bool_iff in Hf. congruence.
      * unfold ret. cbn [ok negb app message fst snd]. rewrite Hf. cbn [negb fst snd].
        split; [repeat split|]. split; [reflexivity|]. split; [reflexivity|].
        eexists. reflexivity.
  - unfold ret. cbn [ok negb app message fst snd].
    split; [apply same_module_refl|]. split; [reflexivity|]. split; [reflexivity|].
    eexists. reflexivity.
Qed.

Lemma start_refused_by_check_witness :
  let s := set_saved (set_model "" (saved initial_store)) sample_store in
  let w' := startAnalysisNow sample_env 0 (initial_api false, s) in
  same_module (initial_api false) (fst (fst w')) /\
  uuid_calls (fst (fst w')) = uuid_calls (initial_api false) /\
  snd w' = [] /\
  exists msg, snd (fst w') = toast Toast.error msg s.
Proof.
  apply (start_refused_by_check sample_env 0 (initial_api false)
           (set_saved (set_model "" (saved initial_store)) sample_store)).
  - reflexivity.
  - reflexivity.
  - reflexivity.
  - reflexivity.
  - right. right. reflexivity.
Defined.

(** X25.  Outside the mock, a save that the back end rejects leaves the store
    as it was, without a toast, but the settings of the module are
    already the new ones; a save that the back end accepts stores the
    same settings and puts the clamped values in the store. *)
Theorem rejected_save_changes_module_only (E : Env) (next : SettingsForm)
  (api : Api) (s : Store) :
  useMock api = false ->
  let w' := saveSettings E next (api, s) in
  fst w' = set_settings (settings_to_save next) api /\
  snd w' =
    if invoke_set_settings E (settings_to_save next)
    then toast Toast.success "저장되었습니다" (set_saved (form_after_save next) s)
    else s.
Proof.
  intros Hm. cbv zeta. unfold saveSettings, setSettings, bind, modify, get.
  cbn [fst snd useMock set_settings]. rewrite Hm.
  destruct (invoke_set_settings E (settings_to_save next)); split; reflexivity.
Qed.

Lemma rejected_save_changes_module_only_witness :
  let E :=
    mkEnv (Math_random sample_env) (crypto_randomUUID sample_env)
          (url_is_http sample_env) (invoke_start_analysis sample_env)
          (invoke_test_ollama sample_env) (invoke_get_settings sample_env)
          (fun _ => false) (invoke_get_distribution sample_env) in
  let w' := saveSettings E sample_form (initial_api true, initial_store) in
  fst w' = set_settings (settings_to_save sample_form) (initial_api true) /\
  snd w' = initial_store.
Proof.
  apply (rejected_save_changes_module_only
           (mkEnv (Math_random sample_env) (crypto_randomUUID sample_env)
                  (url_is_http sample_env) (invoke_start_analysis sample_env)
                  (invoke_test_ollama sample_env) (invoke_get_settings sample_env)
                  (fun _ => false) (invoke_get_distribution sample_env))
           sample_form (initial_api true) initial_store).
  reflexivity.
Defined.

(** ** Opening the detail of a photo *)

(** X26.  In the mock, when the ids of the listed rows are pairwise distinct,
    [loadPhotoDetail] with the id of a listed row selects that row, and
    [closeDetail] clears the selection again; with an id that no listed
    row carries the selection stays as it was and the store gains an
    error toast.  Either way the module is unchanged and the loading
    flag is off. *)
Theorem loadPhotoDetail_selects (C : Commands) (api : Api) (s : Store) (r : Results)
  (id_ : string) :
  useMock api = true ->
  NoDup (map id (mockRows api)) ->
  let w' := loadPhotoDetail C id_ (api, s, r) in
  fst (fst w') = api /\
  loadingDetail (snd w') = false /\
  photos (snd w') = photos r /\
  (forall row, In row (mockRows api) -> id row = id_ ->
     snd (fst w') = s /\
     selectedPhoto (snd w') =
       Some {| detail_row := row; caption := None; textInImage := None;
               analysisLog := None |} /\
     selectedPhoto (closeDetail (snd w')) = None) /\
  ((forall row, In row (mockRows api) -> id row <> id_) ->
     snd (fst w') = toast Toast.error "세부 정보를 불러올 수 없습니다" s /\
     selectedPhoto (snd w') = selectedPhoto r).
Proof.
  intros Hm Hnd. cbv zeta. unfold loadPhotoDetail, getPhotoDetail, bind, get.
  rewrite Hm.
  destruct (find (fun r0 => String.eqb (id r0) id_) (mockRows api)) as [found|] eqn:Hf.
  - unfold ret. cbn [fst snd loadingDetail photos selectedPhoto closeDetail].
    split; [reflexivity|]. split; [reflexivity|]. split; [reflexivity|]. split.
    + intros row Hin Hid. subst id_.
      rewrite (find_by_id_unique _ row Hnd Hin) in Hf. injection Hf as <-.
      repeat split.
    + intros Hnone. apply find_some in Hf. destruct Hf as [Hin He]. cbn in He.
      apply String.eqb_eq in He. exfalso. exact (Hnone found Hin He).
  - unfold throw. cbn [fst snd loadingDetail photos selectedPhoto].
    split; [reflexivity|]. split; [reflexivity|]. split; [reflexivity|]. split.
    + intros row Hin Hid. exfalso.
      apply (proj1 (find_by_id_none _ _) Hf row Hin Hid).
    + intros _. split; reflexivity.
Qed.

Lemma loadPhotoDetail_selects_witness :
  let C := mkCommands true None (fun _ => None) None None in
  let w' := loadPhotoDetail C "c.jpg" (five_rows_job, initial_store, initial_results) in
  fst (fst w') = five_rows_job /\
  loadingDetail (snd w') = false /\
  photos (snd w') = photos initial_results /\
  (forall row, In row (mockRows five_rows_job) -> id row = "c.jpg"%string ->
     snd (fst w') = initial_store /\
     selectedPhoto (snd w') =
       Some {| detail_row := row; caption := None; textInImage := None;
               analysisLog := None |} /\
     selectedPhoto (closeDetail (snd w')) = None) /\
  ((forall row, In row (mockRows five_rows_job) -> id row <> "c.jpg"%string) ->
     snd (fst w') = toast Toast.error "세부 정보를 불러올 수 없습니다" initial_store /\
     selectedPhoto (snd w') = selectedPhoto initial_results).
Proof.
  apply (loadPhotoDetail_selects (mkCommands true None (fun _ => None) None None)
           five_rows_job initial_store initial_results "c.jpg").
  - reflexivity.
  - cbn. repeat constructor; cbn; intuition discriminate.
Defined.
